(** * Road Commons Observatory: filtering, statistics and pattern analysis

    A shallow embedding of the computational core of the observatory: the
    utilities and the component of [src/road.old.js] (its second document)
    and the statistics of [src/App.js], followed by the properties that the
    specification states about them.

    Numbers.  JavaScript numbers are IEEE doubles.  A finite one is given
    here by its exact value, a rational [Q], and the type [number] adds
    [Infinity], [-Infinity] and [NaN] with the results that the operations
    of the source have on them ([Infinity] is the span of the persistent
    window, [NaN] the result of [0 / 0]).  Sums, differences and
    comparisons of counts and of timestamps are exact in doubles and are
    written with the exact operations ([number_add], [number_ltb], ...);
    so are the mean of the response times, which is only rounded to an
    integer, and the products of a count by 1.2 and 0.8, which are only
    compared with a count.  Where the source multiplies or divides numbers
    that are not integers and uses the digits of the result (the review
    rate, [lat * 100], the haversine formula), the operations are those of
    doubles: the exact result rounded by [round64] ([double_add],
    [double_mul], ...).  The functions of [Math] that the engine supplies
    ([Math.sin], [Math.cos], [Math.sqrt], [Math.atan2]) are a parameter,
    the class [Math.Library]; what is used of them is stated in
    [Math.Laws].  The data service is kept in exact arithmetic, with its
    own [Math.sin] on the seeds as a variable.

    Time.  [Date.now()] is an argument [now] of every function that reads
    the clock. *)

From Stdlib Require Import ZArith QArith Qround Qpower Qabs Qreduction.
From Stdlib Require Import List Bool Ascii String.
From Stdlib Require Import Lia Lqa Permutation Sorted.
From Stdlib Require Import DecimalString DecimalPos DecimalZ.
Import ListNotations.

Set Implicit Arguments.

(* ================================================================== *)
(** * JavaScript numbers *)
(* ================================================================== *)

(** A JavaScript number: a finite value or one of the three special ones. *)
Inductive number : Type :=
| Fin (q : Q)
| Infinity
| NegInfinity
| NaN.

Definition Qlt_bool (x y : Q) : bool := negb (Qle_bool y x).

(** A count or another integer as a number. *)
Definition num (n : Z) : number := Fin (inject_Z n).

(** [array.length]. *)
Definition len {A} (l : list A) : Z := Z.of_nat (List.length l).

(** [ToNumber] of a property that may be absent: [undefined] gives [NaN]. *)
Definition to_number (r : option Q) : number :=
  match r with
  | Some q => Fin q
  | None => NaN
  end.

Definition number_neg (x : number) : number :=
  match x with
  | Fin q => Fin (- q)
  | Infinity => NegInfinity
  | NegInfinity => Infinity
  | NaN => NaN
  end.

Definition number_add (x y : number) : number :=
  match x, y with
  | NaN, _ | _, NaN => NaN
  | Fin a, Fin b => Fin (a + b)
  | Infinity, NegInfinity | NegInfinity, Infinity => NaN
  | Infinity, _ | _, Infinity => Infinity
  | NegInfinity, _ | _, NegInfinity => NegInfinity
  end.

Definition number_sub (x y : number) : number := number_add x (number_neg y).

(** The sign of an infinite product or quotient by a finite [q]. *)
Definition signed_infinity (positive : bool) : number :=
  if positive then Infinity else NegInfinity.

Definition number_mul (x y : number) : number :=
  match x, y with
  | NaN, _ | _, NaN => NaN
  | Fin a, Fin b => Fin (a * b)
  | Fin a, Infinity | Infinity, Fin a =>
      if Qeq_bool a 0 then NaN else signed_infinity (Qlt_bool 0 a)
  | Fin a, NegInfinity | NegInfinity, Fin a =>
      if Qeq_bool a 0 then NaN else signed_infinity (Qlt_bool a 0)
  | Infinity, Infinity | NegInfinity, NegInfinity => Infinity
  | Infinity, NegInfinity | NegInfinity, Infinity => NegInfinity
  end.

(** [x / y], with the IEEE results for a zero divisor (the zeros that occur
    are array lengths and counts, that is [+0]). *)
Definition number_div (x y : number) : number :=
  match x, y with
  | NaN, _ | _, NaN => NaN
  | Fin a, Fin b =>
      if Qeq_bool b 0 then
        if Qeq_bool a 0 then NaN else signed_infinity (Qlt_bool 0 a)
      else Fin (a / b)
  | Fin _, _ => Fin 0
  | Infinity, Fin b => signed_infinity (negb (Qlt_bool b 0))
  | NegInfinity, Fin b => signed_infinity (Qlt_bool b 0)
  | _, _ => NaN
  end.

(** [x < y]; every comparison with [NaN] is false. *)
Definition number_ltb (x y : number) : bool :=
  match x, y with
  | NaN, _ | _, NaN => false
  | Fin a, Fin b => Qlt_bool a b
  | _, NegInfinity => false
  | Infinity, _ => false
  | NegInfinity, _ => true
  | Fin _, Infinity => true
  end.

(** [x <= y]. *)
Definition number_leb (x y : number) : bool :=
  match x, y with
  | NaN, _ | _, NaN => false
  | Fin a, Fin b => Qle_bool a b
  | NegInfinity, _ => true
  | _, Infinity => true
  | _, _ => false
  end.

(** [x > y] is [y < x]. *)
Definition number_gtb (x y : number) : bool := number_ltb y x.

Definition is_Infinity (x : number) : bool :=
  match x with Infinity => true | _ => false end.

Definition is_NaN (x : number) : bool :=
  match x with NaN => true | _ => false end.

(* ================================================================== *)
(** * Doubles *)
(* ================================================================== *)

(** The binary64 numbers by their values.  There is one zero: the code
    modelled here never divides by a computed zero, and it prints, floors
    and compares [-0] as [0]. *)

(** The floor of the binary logarithm of a positive rational. *)
Definition Qlog2 (q : Q) : Z :=
  let k := (Z.log2 (Qnum q) - Z.log2 (Zpos (Qden q)))%Z in
  if Qle_bool (2 ^ k) q then k else (k - 1)%Z.

(** The nearest integer, the even one at a tie. *)
Definition round_half_even (q : Q) : Z :=
  let f := Qfloor q in
  match Qcompare (q - inject_Z f) (1 # 2) with
  | Lt => f
  | Gt => (f + 1)%Z
  | Eq => if Z.even f then f else (f + 1)%Z
  end.

(** The exponent of the unit in the last place of the doubles next to a
    positive [q]: 52 below its binary logarithm, and -1074 from the
    subnormal numbers down. *)
Definition ulp_exponent (q : Q) : Z := Z.max (Qlog2 q - 52) (-1074).

(** The double nearest to a positive [q], in lowest terms. *)
Definition round_positive (q : Q) : number :=
  let e := ulp_exponent q in
  let v := inject_Z (round_half_even (q / 2 ^ e)) * 2 ^ e in
  if Qle_bool (2 ^ 1024) v then Infinity else Fin (Qred v).

(** [round64 q]: the value of the binary64 number nearest to [q], the one
    with the even significand at a tie, and an infinity from [2 ^ 1024]
    on. *)
Definition round64 (q : Q) : number :=
  let q := Qred q in
  match Qcompare q 0 with
  | Eq => Fin 0
  | Gt => round_positive q
  | Lt => number_neg (round_positive (- q))
  end.

(** The value of a decimal literal of the source, such as [19.08]: the
    double closest to it. *)
Definition literal (q : Q) : Q :=
  match round64 q with
  | Fin v => v
  | _ => q
  end.

(** The result of an operation as a double. *)
Definition rounded (x : number) : number :=
  match x with
  | Fin q => round64 q
  | other => other
  end.

Definition double_add (x y : number) : number := rounded (number_add x y).
Definition double_sub (x y : number) : number := rounded (number_sub x y).
Definition double_mul (x y : number) : number := rounded (number_mul x y).
Definition double_div (x y : number) : number := rounded (number_div x y).

(* ================================================================== *)
(** * The functions of Math *)
(* ================================================================== *)

Module Math.

(** The functions of [Math] that the distance calls; they belong to the
    engine. *)
Class Library : Type := {
  sin : number -> number;
  cos : number -> number;
  sqrt : number -> number;
  atan2 : number -> number -> number
}.

(** [Math.PI]: the double nearest to the number pi. *)
Definition PI : number := Fin (884279719003555 # 281474976710656).

(** What is relied on: the values that ECMAScript prescribes at zero
    ([sin 0 = 0], [cos 0 = 1], [sqrt 0 = 0], [atan2 (0, x) = 0] for a
    positive [x]), the exact square root of 1, a sine that is odd and
    that does not exceed a small argument in magnitude, and a cosine of
    magnitude at most 1. *)
Class Laws (math : Library) : Prop := {
  sin_zero : sin (Fin 0) = Fin 0;
  sin_odd : forall x, sin (number_neg x) = number_neg (sin x);
  sin_small : forall q, Qabs q <= 2 ^ (-27) ->
              exists s, sin (Fin q) = Fin s /\ Qabs s <= Qabs q;
  cos_zero : cos (Fin 0) = Fin 1;
  cos_bounded : forall q, exists c, cos (Fin q) = Fin c /\ Qabs c <= 1;
  sqrt_zero : sqrt (Fin 0) = Fin 0;
  sqrt_one : sqrt (Fin 1) = Fin 1;
  atan2_zero : forall x, 0 < x -> atan2 (Fin 0) (Fin x) = Fin 0
}.

End Math.

(** A small library that meets [Math.Laws]: the first terms of the series
    of the sine, the cosine and the arc tangent on rationals, and the
    integer square root, each rounded to a double.  It stands in for the
    library of the engine in the examples. *)
Module ApproxMath.

(** [c0 + y (c1 + y (c2 + ...))]. *)
Fixpoint horner (cs : list Q) (y : Q) : Q :=
  match cs with
  | [] => 0
  | c :: cs' => c + y * horner cs' y
  end.

Definition factorial (n : nat) : Z :=
  fold_left Z.mul (map Z.of_nat (seq 1 n)) 1%Z.

Definition alternating (k : nat) : Q := if Nat.even k then 1 else - (1).

(** The first twelve terms of the series of the sine, the cosine and the arc
    tangent. *)
Definition sin_series (y : Q) : Q :=
  y * horner (map (fun k => alternating k
                            / inject_Z (factorial (2 * k + 1))) (seq 0 12))
             (y * y).

Definition cos_series (y : Q) : Q :=
  horner (map (fun k => alternating k / inject_Z (factorial (2 * k)))
              (seq 0 12))
         (y * y).

Definition atan_series (t : Q) : Q :=
  t * horner (map (fun k => alternating k
                            / inject_Z (Z.of_nat (2 * k + 1))) (seq 0 12))
             (t * t).

Definition clamp (v : Q) : Q :=
  if Qle_bool 1 v then 1 else if Qle_bool v (- (1)) then - (1) else v.

Definition sin (x : number) : number :=
  match x with
  | Fin q => if Qle_bool (Qabs q) (2 ^ (-27)) then Fin (Qred q)
             else round64 (clamp (sin_series q))
  | _ => NaN
  end.

Definition cos (x : number) : number :=
  match x with
  | Fin q => round64 (clamp (cos_series q))
  | _ => NaN
  end.

(** The square root of a positive rational to 64 binary places. *)
Definition sqrt_Q (q : Q) : Q :=
  let j := (64 - Qlog2 q / 2)%Z in
  inject_Z (Z.sqrt (Qfloor (q * 4 ^ j))) / 2 ^ j.

Definition sqrt (x : number) : number :=
  match x with
  | Fin q =>
      match Qcompare q 0 with
      | Lt => NaN
      | Eq => Fin 0
      | Gt => round64 (sqrt_Q q)
      end
  | Infinity => Infinity
  | _ => NaN
  end.

Definition pi : Q := 884279719003555 # 281474976710656.

(** The tangent of half the angle that has tangent [t]. *)
Definition half_angle (t : Q) : Q := t / (1 + sqrt_Q (1 + t * t)).

(** The arc tangent of a [t >= 0]. *)
Definition atan (t : Q) : Q :=
  if Qle_bool t 1 then 4 * atan_series (half_angle (half_angle t))
  else pi / 2 - 4 * atan_series (half_angle (half_angle (/ t))).

Definition atan2 (y x : number) : number :=
  match y, x with
  | Fin y, Fin x =>
      match Qcompare y 0, Qcompare x 0 with
      | Eq, Lt => Fin pi
      | Eq, _ => Fin 0
      | Gt, Eq => round64 (pi / 2)
      | Lt, Eq => round64 (- (pi / 2))
      | Gt, Gt => round64 (atan (y / x))
      | Lt, Gt => round64 (- atan (- y / x))
      | Gt, Lt => round64 (pi - atan (y / - x))
      | Lt, Lt => round64 (atan (y / x) - pi)
      end
  | _, _ => NaN
  end.

Definition library : Math.Library :=
  {| Math.sin := sin; Math.cos := cos; Math.sqrt := sqrt;
     Math.atan2 := atan2 |}.

End ApproxMath.

(* ================================================================== *)
(** * Rounding to integers and printing *)
(* ================================================================== *)

(** [Math.round]: the nearest integer, ties towards +Infinity. *)
Definition Math_round (x : number) : number :=
  match x with
  | Fin q => num (Qfloor (q + (1 # 2)))
  | other => other
  end.

(** [Math.ceil]. *)
Definition Math_ceil (x : number) : number :=
  match x with
  | Fin q => num (Qceiling q)
  | other => other
  end.

(** [Math.floor] of a finite value. *)
Definition Math_floor (q : Q) : Z := Qfloor q.

(** [Math.floor] of any number. *)
Definition Math_floor_number (x : number) : number :=
  match x with
  | Fin q => num (Math_floor q)
  | other => other
  end.

(** Decimal digits of a natural number. *)
Definition digits (n : Z) : string :=
  NilZero.string_of_uint (N.to_uint (Z.to_N n)).

(** [String(n)] for an integer [n] below 1e21 in magnitude. *)
Definition String_of_integer (n : Z) : string :=
  NilZero.string_of_int (Z.to_int n).

(** [String(x)] for a whole number below 1e21 in magnitude or one of the
    three special values.  (From 1e21 on the source prints an exponent;
    there, as here, different numbers have different strings.) *)
Definition String_of_number (x : number) : string :=
  match x with
  | Fin q => String_of_integer (Qfloor q)
  | Infinity => "Infinity"
  | NegInfinity => "-Infinity"
  | NaN => "NaN"
  end.

(** [x.toFixed(1)] on a non-negative finite value: with [n] the integer
    closest to [10 x] (the larger one at a tie), the digits of [n] with a
    point before the last one. *)
Definition tenths (q : Q) : Z := Qfloor (q * 10 + (1 # 2)).

Definition toFixed1_nonneg (q : Q) : string :=
  let n := tenths q in
  (digits (n / 10) ++ "." ++ digits (n mod 10))%string.

(** [x.toFixed(1)], for finite values below 1e21 in magnitude. *)
Definition toFixed1 (x : number) : string :=
  match x with
  | Fin q => if Qlt_bool q 0 then ("-" ++ toFixed1_nonneg (- q))%string
             else toFixed1_nonneg q
  | Infinity => "Infinity"
  | NegInfinity => "-Infinity"
  | NaN => "NaN"
  end.

(** [array.sort((a, b) => a - b)] on finite numbers: the ascending
    rearrangement, computed here by insertion. *)
Fixpoint insert_ascending (x : Q) (l : list Q) : list Q :=
  match l with
  | [] => [x]
  | y :: l' => if Qle_bool x y then x :: l else y :: insert_ascending x l'
  end.

Definition sort_ascending (l : list Q) : list Q :=
  fold_right insert_ascending [] l.

(** [new Set(keys)]: the keys in order of first insertion, each once. *)
Definition Set_add (s : list string) (k : string) : list string :=
  if existsb (String.eqb k) s then s else s ++ [k].

Definition Set_of (keys : list string) : list string :=
  fold_left Set_add keys [].

(* ================================================================== *)
(** * Data model *)
(* ================================================================== *)

Inductive ObservationType : Type := violation | risk | infrastructure.

Inductive Status : Type :=
| pending | under_review | acknowledged | resolved | dismissed.

Definition type_eqb (a b : ObservationType) : bool :=
  match a, b with
  | violation, violation | risk, risk | infrastructure, infrastructure => true
  | _, _ => false
  end.

Definition status_eqb (a b : Status) : bool :=
  match a, b with
  | pending, pending | under_review, under_review
  | acknowledged, acknowledged | resolved, resolved
  | dismissed, dismissed => true
  | _, _ => false
  end.

(** An observation record.  [response_time] is [None] when the property is
    absent ([undefined]). *)
Record Observation : Type := mkObservation {
  id : string;
  type : ObservationType;
  lat : Q;
  lng : Q;
  timestamp : Q;
  status : Status;
  response_time : option Q
}.

(** The lens: ["all"] or one observation type. *)
Inductive Lens : Type :=
| all
| only (t : ObservationType).

Definition Lens_eqb (a b : Lens) : bool :=
  match a, b with
  | all, all => true
  | only t, only u => type_eqb t u
  | _, _ => false
  end.

Inductive TimeWindowKey : Type := w24h | w7d | w30d | persistent.

Definition TimeWindowKey_eqb (a b : TimeWindowKey) : bool :=
  match a, b with
  | w24h, w24h | w7d, w7d | w30d, w30d | persistent, persistent => true
  | _, _ => false
  end.

Record TimeWindow : Type := mkTimeWindow { ms : number; label : string }.

Definition TIME_WINDOWS (k : TimeWindowKey) : TimeWindow :=
  match k with
  | w24h => mkTimeWindow (num (24 * 60 * 60 * 1000)) "24h"
  | w7d => mkTimeWindow (num (7 * 24 * 60 * 60 * 1000)) "7d"
  | w30d => mkTimeWindow (num (30 * 24 * 60 * 60 * 1000)) "30d"
  | persistent => mkTimeWindow Infinity "All"
  end.

Inductive PATTERN_MODE : Type := NONE | CITY_WIDE | LOCAL.

(** A point [[lat, lng]]. *)
Definition LatLng : Type := (Q * Q)%type.

Module MAP_CONFIG.
Definition center : LatLng := (19076 # 1000, 728777 # 10000).
Definition initialZoom : Q := 12.
Definition localPatternRadius : Q := 200.
End MAP_CONFIG.

(* ================================================================== *)
(** * StatsUtils (road.old.js) *)
(* ================================================================== *)

Module ByType.
Record t : Type := mk { violation : Z; risk : Z; infrastructure : Z }.
End ByType.

Module Stats.
Record t : Type := mk {
  total : Z;
  byType : ByType.t;
  avgResponseTime : number;
  reviewRate : string
}.
End Stats.

(** [o.response_time && o.response_time > 0]: the property is present, is
    not [0], and is positive. *)
Definition has_positive_response_time (o : Observation) : bool :=
  match response_time o with
  | Some q => negb (Qeq_bool q 0) && Qlt_bool 0 q
  | None => false
  end.

(** [list.reduce((acc, o) => acc + o.response_time, 0)]. *)
Definition sum_response_time (l : list Observation) : number :=
  fold_left (fun acc o => number_add acc (to_number (response_time o)))
            l (Fin 0).

Definition count_type (t : ObservationType) (l : list Observation) : Z :=
  len (filter (fun o => type_eqb (type o) t) l).

Definition count_reviewed (l : list Observation) : Z :=
  len (filter (fun o => negb (status_eqb (status o) pending)) l).

Module StatsUtils.

Definition calculateObservationStats (observations : list Observation)
  : Stats.t :=
  let total := len observations in
  if (total =? 0)%Z then
    Stats.mk 0 (ByType.mk 0 0 0) (Fin 0) "0.0"
  else
    let byType :=
      ByType.mk (count_type violation observations)
                (count_type risk observations)
                (count_type infrastructure observations) in
    let withResponseTime :=
      filter has_positive_response_time observations in
    let avgResponseTime :=
      if (0 <? len withResponseTime)%Z then
        Math_round (number_div (sum_response_time withResponseTime)
                               (num (len withResponseTime)))
      else Fin 0 in
    let reviewed := count_reviewed observations in
    let reviewRate :=
      if (0 <? total)%Z then
        toFixed1 (double_mul (double_div (num reviewed) (num total))
                             (num 100))
      else "0.0"%string in
    Stats.mk total byType avgResponseTime reviewRate.

End StatsUtils.

(* ================================================================== *)
(** * The statistics of App.js *)
(* ================================================================== *)

Module App.

(** [o.response_time] used as a condition: present and not [0]. *)
Definition truthy_response_time (o : Observation) : bool :=
  match response_time o with
  | Some q => negb (Qeq_bool q 0)
  | None => false
  end.

(** [calculateStats] over the [filteredData] it closes over. *)
Definition calculateStats (filteredData : list Observation) : Stats.t :=
  let total := len filteredData in
  let byType :=
    ByType.mk (count_type violation filteredData)
              (count_type risk filteredData)
              (count_type infrastructure filteredData) in
  let avgResponseTime :=
    number_div
      (sum_response_time (filter truthy_response_time filteredData))
      (num (len (filter truthy_response_time filteredData))) in
  let reviewRate :=
    toFixed1 (double_mul
                (double_div (num (count_reviewed filteredData)) (num total))
                (num 100)) in
  Stats.mk total byType (Math_round avgResponseTime) reviewRate.

(** [timeMap[timeFilter]] of [filterObservations]. *)
Definition timeMap (k : TimeWindowKey) : number :=
  match k with
  | w24h => num (24 * 60 * 60 * 1000)
  | w7d => num (7 * 24 * 60 * 60 * 1000)
  | w30d => num (30 * 24 * 60 * 60 * 1000)
  | persistent => Infinity
  end.

(** [filterObservations] of App.js: the lens filter, then the window test
    on every observation, the persistent window included. *)
Definition filterObservations (observations : list Observation)
    (lens : Lens) (timeFilter : TimeWindowKey) (now : Q)
  : list Observation :=
  let filtered := observations in
  let filtered :=
    match lens with
    | all => filtered
    | only t => filter (fun obs => type_eqb (type obs) t) filtered
    end in
  filter (fun obs =>
            number_ltb (number_sub (Fin now) (Fin (timestamp obs)))
                       (timeMap timeFilter))
         filtered.

(** [getMarkerRadius] of App.js, on the zoom level of the component. *)
Definition getMarkerRadius (zoomLevel : Q) : Z :=
  if Qle_bool zoomLevel 10 then 8
  else if Qle_bool zoomLevel 13 then 6
  else 5.

End App.

(* ================================================================== *)
(** * MapUtils *)
(* ================================================================== *)

Inductive ClusterSize : Type := large | medium | small.

Module Dimensions.
Record t : Type := mk { width : Z; height : Z; fontSize : string }.
End Dimensions.

Module MapUtils.

Definition getClusterSize (count : Z) : ClusterSize :=
  if (count >? 50)%Z then large
  else if (count >? 10)%Z then medium
  else small.

Definition getClusterDimensions (size : ClusterSize) : Dimensions.t :=
  match size with
  | large => Dimensions.mk 50 50 "16px"
  | medium => Dimensions.mk 40 40 "14px"
  | small => Dimensions.mk 32 32 "12px"
  end.

Section Distance.

Context {math : Math.Library}.

(** Distance between two points in metres (haversine formula). *)
Definition getDistance (lat1 lng1 lat2 lng2 : Q) : number :=
  let R := num 6371000 in
  let phi1 := double_div (double_mul (Fin lat1) Math.PI) (num 180) in
  let phi2 := double_div (double_mul (Fin lat2) Math.PI) (num 180) in
  let dphi :=
    double_div (double_mul (double_sub (Fin lat2) (Fin lat1)) Math.PI)
               (num 180) in
  let dlambda :=
    double_div (double_mul (double_sub (Fin lng2) (Fin lng1)) Math.PI)
               (num 180) in
  let a :=
    double_add
      (double_mul (Math.sin (double_div dphi (num 2)))
                  (Math.sin (double_div dphi (num 2))))
      (double_mul
         (double_mul (double_mul (Math.cos phi1) (Math.cos phi2))
                     (Math.sin (double_div dlambda (num 2))))
         (Math.sin (double_div dlambda (num 2)))) in
  let c :=
    double_mul (num 2)
               (Math.atan2 (Math.sqrt a)
                           (Math.sqrt (double_sub (num 1) a))) in
  double_mul R c.

End Distance.

(** One step of the [forEach] that widens the box to a point. *)
Definition widen (box : Q * Q * Q * Q) (p : Observation) : Q * Q * Q * Q :=
  let '(minLat, maxLat, minLng, maxLng) := box in
  let minLat := if Qlt_bool (lat p) minLat then lat p else minLat in
  let maxLat := if Qlt_bool maxLat (lat p) then lat p else maxLat in
  let minLng := if Qlt_bool (lng p) minLng then lng p else minLng in
  let maxLng := if Qlt_bool maxLng (lng p) then lng p else maxLng in
  (minLat, maxLat, minLng, maxLng).

(** The bounding box [[minLat, minLng], [maxLat, maxLng]] of the points,
    [None] ([null]) for no point. *)
Definition getBoundsForPoints (points : list Observation)
  : option (LatLng * LatLng) :=
  match points with
  | [] => None
  | p0 :: _ =>
      let '(minLat, maxLat, minLng, maxLng) :=
        fold_left widen points (lat p0, lat p0, lng p0, lng p0) in
      Some ((minLat, minLng), (maxLat, maxLng))
  end.

(** The radius of a marker at a zoom level. *)
Definition getMarkerRadius (zoomLevel : Q) : Z :=
  if Qle_bool zoomLevel 10 then 6
  else if Qle_bool zoomLevel 13 then 5
  else 4.

(** [weights[status] || 1]. *)
Definition getMarkerWeight (status : Status) : Z :=
  match status with
  | pending => 1
  | under_review => 2
  | acknowledged => 2
  | resolved => 3
  | dismissed => 1
  end.

End MapUtils.

(** The cluster icon of the marker layer: the tier of a child count and its
    pixel preset. *)
Definition sizeTier (count : Z) : ClusterSize * Dimensions.t :=
  let size := MapUtils.getClusterSize count in
  let dims := MapUtils.getClusterDimensions size in
  (size, dims).

(* ================================================================== *)
(** * PatternUtils *)
(* ================================================================== *)

Inductive Trend : Type := stable | increasing | declining.

Module CityWideStats.
Record t : Type := mk {
  total : Z;
  affectedZones : Z;
  trend : Trend;
  recentCount : Z
}.
End CityWideStats.

Module LocalStats.
Record t : Type := mk {
  count : Z;
  timeSpanDays : number;
  trend : Trend
}.
End LocalStats.

(** The key of the zone of an observation:
    [`${Math.floor(obs.lat * 100)}_${Math.floor(obs.lng * 100)}`]. *)
Definition zone_key (obs : Observation) : string :=
  (String_of_number
     (Math_floor_number (double_mul (Fin (lat obs)) (num 100)))
   ++ "_"
   ++ String_of_number
        (Math_floor_number (double_mul (Fin (lng obs)) (num 100))))%string.

(** The classification shared by the two statistics. *)
Definition classify_trend (recentCount olderCount : Z) : Trend :=
  let trend := stable in
  if number_gtb (num recentCount) (number_mul (num olderCount) (Fin (12 # 10)))
  then increasing
  else if number_ltb (num recentCount)
                     (number_mul (num olderCount) (Fin (8 # 10)))
  then declining
  else trend.

(** [now - timeWindowMs / 2]. *)
Definition midpoint_of (now : Q) (timeWindowMs : number) : number :=
  number_sub (Fin now) (number_div timeWindowMs (Fin 2)).

Definition count_recent (midpoint : number) (l : list Observation) : Z :=
  len (filter (fun obs => number_gtb (Fin (timestamp obs)) midpoint) l).

Definition count_older (midpoint : number) (l : list Observation) : Z :=
  len (filter (fun obs => number_leb (Fin (timestamp obs)) midpoint) l).

Module PatternUtils.

Definition getMatchingObservations (observations : list Observation)
    (referenceObservation : Observation) : list Observation :=
  filter (fun obs => type_eqb (type obs) (type referenceObservation))
         observations.

Section Nearby.

Context {math : Math.Library}.

Definition getNearbyObservations (observations : list Observation)
    (centerLat centerLng radiusMeters : Q) : list Observation :=
  filter (fun obs =>
            let distance :=
              MapUtils.getDistance centerLat centerLng (lat obs) (lng obs) in
            number_leb distance (Fin radiusMeters))
         observations.

End Nearby.

Definition calculateCityWideStats (observations : list Observation)
    (timeWindowMs : number) (now : Q) : CityWideStats.t :=
  let uniqueZones := len (Set_of (map zone_key observations)) in
  let midpoint := midpoint_of now timeWindowMs in
  let recentCount := count_recent midpoint observations in
  let olderCount := count_older midpoint observations in
  let trend := classify_trend recentCount olderCount in
  CityWideStats.mk (len observations) uniqueZones trend recentCount.

Definition calculateLocalStats (observations : list Observation)
    (timeWindowMs : number) (now : Q) : option LocalStats.t :=
  if (len observations =? 0)%Z then None
  else
    let timestamps := sort_ascending (map timestamp observations) in
    let timeSpan :=
      number_sub
        (to_number (nth_error timestamps (List.length timestamps - 1)))
        (to_number (nth_error timestamps 0)) in
    let timeSpanDays :=
      Math_ceil (number_div timeSpan (num (1000 * 60 * 60 * 24))) in
    let midpoint := midpoint_of now timeWindowMs in
    let recentCount := count_recent midpoint observations in
    let olderCount := count_older midpoint observations in
    let trend := classify_trend recentCount olderCount in
    Some (LocalStats.mk (len observations) timeSpanDays trend).

End PatternUtils.

(** The analysis of [handleCityWidePattern]: the matching observations of
    the filtered set and their statistics. *)
Definition cityWide (reference : Observation) (filtered : list Observation)
    (windowMs : number) (now : Q)
  : list Observation * CityWideStats.t :=
  let matchingObs := PatternUtils.getMatchingObservations filtered reference in
  let stats := PatternUtils.calculateCityWideStats matchingObs windowMs now in
  (matchingObs, stats).

Section LocalAnalysis.

Context {math : Math.Library}.

(** The analysis of [handleLocalPattern]: the observations of the reference
    type within the radius, and their statistics ([None] is [null]). *)
Definition local (reference : Observation) (filtered : list Observation)
    (radiusMeters : Q) (windowMs : number) (now : Q)
  : list Observation * option LocalStats.t :=
  let nearbyObs :=
    PatternUtils.getNearbyObservations
      (filter (fun obs => type_eqb (type obs) (type reference)) filtered)
      (lat reference) (lng reference) radiusMeters in
  let stats := PatternUtils.calculateLocalStats nearbyObs windowMs now in
  (nearbyObs, stats).

End LocalAnalysis.

(* ================================================================== *)
(** * FilterEngine: the memoised [filteredData] *)
(* ================================================================== *)

(** [filteredData] of the component, with [Date.now()] as the argument
    [now]. *)
Definition filteredData (observations : list Observation) (lens : Lens)
    (timeFilter : TimeWindowKey) (now : Q) : list Observation :=
  let filtered := observations in
  let filtered :=
    match lens with
    | all => filtered
    | only t => filter (fun obs => type_eqb (type obs) t) filtered
    end in
  let timeWindow := TIME_WINDOWS timeFilter in
  if negb (is_Infinity (ms timeWindow)) then
    filter (fun obs =>
              number_ltb (number_sub (Fin now) (Fin (timestamp obs)))
                         (ms timeWindow))
           filtered
  else filtered.

(** The tests of the specification: the lens test and the window test. *)
Definition lens_admits (lens : Lens) (o : Observation) : Prop :=
  lens = all \/ lens = only (type o).

Definition window_admits (span : number) (now : Q) (o : Observation) : Prop :=
  match span with
  | Fin ms => (now - timestamp o < ms)%Q
  | Infinity => True
  | _ => False
  end.

Definition lens_admitsb (lens : Lens) (o : Observation) : bool :=
  match lens with
  | all => true
  | only t => type_eqb (type o) t
  end.

Definition window_admitsb (span : number) (now : Q) (o : Observation) : bool :=
  match span with
  | Fin ms => Qlt_bool (now - timestamp o) ms
  | Infinity => true
  | _ => false
  end.

(** Order on spans, [Infinity] being the largest. *)
Definition span_le (s1 s2 : number) : Prop :=
  match s1, s2 with
  | Fin a, Fin b => (a <= b)%Q
  | Fin _, Infinity => True
  | Infinity, Infinity => True
  | _, _ => False
  end.

(** The data the statistics are computed from. *)
Definition dataToUse (visibleObservations filteredData : list Observation)
  : list Observation :=
  if (len visibleObservations >? 0)%Z then visibleObservations
  else filteredData.

(** The memoised [stats] of the component. *)
Definition stats (visibleObservations filteredData : list Observation)
  : Stats.t :=
  StatsUtils.calculateObservationStats
    (dataToUse visibleObservations filteredData).

(* ================================================================== *)
(** * The map surface *)
(* ================================================================== *)

(** Geographic bounds as the map reports them. *)
Module LatLngBounds.
Record t : Type := mk { south : Q; west : Q; north : Q; east : Q }.

(** [bounds.contains([lat, lng])], the boundary included. *)
Definition contains (b : t) (p : LatLng) : bool :=
  Qle_bool (south b) (fst p) && Qle_bool (fst p) (north b)
  && Qle_bool (west b) (snd p) && Qle_bool (snd p) (east b).
End LatLngBounds.

(** The operations of the map widget that the component calls. *)
Class LeafletMap (M : Type) : Type := {
  getCenter : M -> LatLng;
  getZoom : M -> Q;
  getBounds : M -> LatLngBounds.t;
  setView : LatLng -> Q -> M -> M;
  fitBounds : LatLng * LatLng -> M -> M
}.

(** What the component relies on: a view that was set is the view read. *)
Class LeafletMapLaws (M : Type) (leaflet : LeafletMap M) : Prop := {
  getCenter_setView : forall c z m, getCenter (setView c z m) = c;
  getZoom_setView : forall c z m, getZoom (setView c z m) = z
}.

(** A map that is its centre and its zoom: it shows one degree around the
    centre, and fits bounds by centring on their south-west corner. *)
Module PlainMap.
Record t : Type := mk { center : LatLng; zoom : Q }.

Definition bounds_of (m : t) : LatLngBounds.t :=
  LatLngBounds.mk (fst (center m) - 1) (snd (center m) - 1)
                  (fst (center m) + 1) (snd (center m) + 1).
End PlainMap.

#[export] Instance PlainMap_LeafletMap : LeafletMap PlainMap.t := {
  getCenter := PlainMap.center;
  getZoom := PlainMap.zoom;
  getBounds := PlainMap.bounds_of;
  setView := fun c z _ => PlainMap.mk c z;
  fitBounds := fun b m => PlainMap.mk (fst b) (PlainMap.zoom m)
}.

(* ================================================================== *)
(** * The component: state, handlers and effects *)
(* ================================================================== *)

Inductive PatternStats : Type :=
| CityWideStatsOf (s : CityWideStats.t)
| LocalStatsOf (s : option LocalStats.t).

Module PatternData.
Record t : Type := mk {
  type : ObservationType;
  observations : list Observation;
  stats : PatternStats;
  center : option LatLng
}.
End PatternData.

Module SavedMapState.
Record t : Type := mk {
  center : LatLng;
  zoom : Q;
  selectedObservation : option Observation
}.
End SavedMapState.

(** The proximity circle drawn in local mode: centre and radius. *)
Definition Circle : Type := (LatLng * Q)%type.

Section Component.

Context {M : Type} {leaflet : LeafletMap M} {math : Math.Library}.

(** The corpus, generated once. *)
Variable observations : list Observation.

(** The state of [RoadCommonsTransparency]: its [useState] cells, the
    memoised [filteredData] (field [filtered]), the two refs that the
    handlers read, and whether the [moveend] and [zoomend] listeners of the
    viewport tracker are registered on the map (field [listening]). *)
Record State : Type := mkState {
  lens : Lens;
  timeFilter : TimeWindowKey;
  zoomLevel : Q;
  selectedObservation : option Observation;
  expandedDetail : bool;
  sidebarOpen : bool;
  visibleObservations : list Observation;
  patternMode : PATTERN_MODE;
  patternData : option PatternData.t;
  savedMapState : option SavedMapState.t;
  mapInstance : option M;
  localPatternCircle : option Circle;
  filtered : list Observation;
  listening : bool
}.

(** State at mount; [now] is the instant of the first render. *)
Definition initialState (now : Q) : State :=
  mkState all w30d MAP_CONFIG.initialZoom None false true [] NONE None None
          None None (filteredData observations all w30d now) false.

Definition with_selection (s : State) (sel : option Observation)
    (expanded : bool) : State :=
  mkState (lens s) (timeFilter s) (zoomLevel s) sel expanded (sidebarOpen s)
          (visibleObservations s) (patternMode s) (patternData s)
          (savedMapState s) (mapInstance s) (localPatternCircle s)
          (filtered s) (listening s).

Definition with_filter (s : State) (l : Lens) (w : TimeWindowKey)
    (data : list Observation) : State :=
  mkState l w (zoomLevel s) (selectedObservation s) (expandedDetail s)
          (sidebarOpen s) (visibleObservations s) (patternMode s)
          (patternData s) (savedMapState s) (mapInstance s)
          (localPatternCircle s) data (listening s).

Definition with_visible (s : State) (visible : list Observation) : State :=
  mkState (lens s) (timeFilter s) (zoomLevel s) (selectedObservation s)
          (expandedDetail s) (sidebarOpen s) visible (patternMode s)
          (patternData s) (savedMapState s) (mapInstance s)
          (localPatternCircle s) (filtered s) (listening s).

Definition with_map (s : State) (map : option M) (zoomLevel' : Q) : State :=
  mkState (lens s) (timeFilter s) zoomLevel' (selectedObservation s)
          (expandedDetail s) (sidebarOpen s) (visibleObservations s)
          (patternMode s) (patternData s) (savedMapState s) map
          (localPatternCircle s) (filtered s) (listening s).

Definition with_listening (s : State) (registered : bool) : State :=
  mkState (lens s) (timeFilter s) (zoomLevel s) (selectedObservation s)
          (expandedDetail s) (sidebarOpen s) (visibleObservations s)
          (patternMode s) (patternData s) (savedMapState s) (mapInstance s)
          (localPatternCircle s) (filtered s) registered.

(** The effect that checks whether the selected observation is still in
    the filtered dataset. *)
Definition deselect_check (s : State) : State :=
  match selectedObservation s with
  | Some sel =>
      if negb (existsb (fun obs => String.eqb (id obs) (id sel))
                       (filtered s))
      then with_selection s None false
      else s
  | None => s
  end.

(** [prev.length === visible.length &&
     prev.every((obs, idx) => obs.id === visible[idx]?.id)]. *)
Definition same_ids (prev visible : list Observation) : bool :=
  (len prev =? len visible)%Z
  && forallb (fun p => String.eqb (id (fst p)) (id (snd p)))
             (combine prev visible).

(** [updateVisibleObservations] of the viewport tracker: the filtered
    observations inside the bounds of the map, kept only when they differ
    from the previous ones. *)
Definition updateVisibleObservations (s : State) : State :=
  match mapInstance s with
  | None => s
  | Some map =>
      let bounds := getBounds map in
      let visible :=
        filter (fun obs => LatLngBounds.contains bounds (lat obs, lng obs))
               (filtered s) in
      if same_ids (visibleObservations s) visible then s
      else with_visible s visible
  end.

(** The effect of the viewport tracker, which runs when [filteredData]
    has changed: without a map it returns at once; with one it registers
    [updateVisibleObservations] for [moveend] and [zoomend] and calls
    it. *)
Definition trackViewport (s : State) : State :=
  match mapInstance s with
  | None => s
  | Some _ => updateVisibleObservations (with_listening s true)
  end.

(** [setLens(value)] and the recomputation of [filteredData] at the next
    render, at instant [now]; a value equal to the current one changes
    nothing. *)
Definition setLens (s : State) (value : Lens) (now : Q) : State :=
  if Lens_eqb value (lens s) then s
  else trackViewport
         (with_filter s value (timeFilter s)
                      (filteredData observations value (timeFilter s) now)).

Definition setTimeFilter (s : State) (value : TimeWindowKey) (now : Q)
  : State :=
  if TimeWindowKey_eqb value (timeFilter s) then s
  else trackViewport
         (with_filter s (lens s) value
                      (filteredData observations (lens s) value now)).

(** The click handler of the marker of [obs]. *)
Definition markerClick (s : State) (obs : Observation) : State :=
  match patternMode s with
  | NONE =>
      mkState (lens s) (timeFilter s) (zoomLevel s) (Some obs) false true
              (visibleObservations s) (patternMode s) (patternData s)
              (savedMapState s) (mapInstance s) (localPatternCircle s)
              (filtered s) (listening s)
  | _ => s
  end.

(** [onBack] of the detail view. *)
Definition onBack (s : State) : State := with_selection s None false.

Definition onToggleExpanded (s : State) : State :=
  with_selection s (selectedObservation s) (negb (expandedDetail s)).

Definition handleCityWidePattern (s : State) (now : Q) : State :=
  match selectedObservation s, mapInstance s with
  | Some sel, Some map =>
      let saved :=
        SavedMapState.mk (getCenter map) (getZoom map) (Some sel) in
      let matchingObs :=
        PatternUtils.getMatchingObservations (filtered s) sel in
      let timeWindowMs := ms (TIME_WINDOWS (timeFilter s)) in
      let stats :=
        PatternUtils.calculateCityWideStats matchingObs timeWindowMs now in
      let map' :=
        match MapUtils.getBoundsForPoints matchingObs with
        | Some bounds => fitBounds bounds map
        | None => map
        end in
      mkState (lens s) (timeFilter s) (zoomLevel s) None false
              (sidebarOpen s) (visibleObservations s) CITY_WIDE
              (Some (PatternData.mk (type sel) matchingObs
                                    (CityWideStatsOf stats) None))
              (Some saved) (Some map') (localPatternCircle s) (filtered s)
              (listening s)
  | _, _ => s
  end.

Definition handleLocalPattern (s : State) (now : Q) : State :=
  match selectedObservation s, mapInstance s with
  | Some sel, Some map =>
      let saved :=
        SavedMapState.mk (getCenter map) (getZoom map) (Some sel) in
      let nearbyObs :=
        PatternUtils.getNearbyObservations
          (filter (fun obs => type_eqb (type obs) (type sel)) (filtered s))
          (lat sel) (lng sel) MAP_CONFIG.localPatternRadius in
      let timeWindowMs := ms (TIME_WINDOWS (timeFilter s)) in
      let stats :=
        PatternUtils.calculateLocalStats nearbyObs timeWindowMs now in
      let map' := setView (lat sel, lng sel) (getZoom map) map in
      let circle := ((lat sel, lng sel), MAP_CONFIG.localPatternRadius) in
      mkState (lens s) (timeFilter s) (zoomLevel s) None false
              (sidebarOpen s) (visibleObservations s) LOCAL
              (Some (PatternData.mk (type sel) nearbyObs
                                    (LocalStatsOf stats)
                                    (Some (lat sel, lng sel))))
              (Some saved) (Some map') (Some circle) (filtered s)
              (listening s)
  | _, _ => s
  end.

Definition handleClearPatternMode (s : State) : State :=
  match mapInstance s, savedMapState s with
  | Some map, Some saved =>
      let map' :=
        setView (SavedMapState.center saved) (SavedMapState.zoom saved)
                map in
      mkState (lens s) (timeFilter s) (zoomLevel s)
              (SavedMapState.selectedObservation saved) (expandedDetail s)
              (sidebarOpen s) (visibleObservations s) NONE None None
              (Some map') None (filtered s) (listening s)
  | _, _ => s
  end.

(** The map is created once, when the library has loaded. *)
Definition mapInit (s : State) (map : M) : State :=
  match mapInstance s with
  | None => with_map s (Some map) (zoomLevel s)
  | Some _ => s
  end.

(** The user pans or zooms: the map is now [map]; its [zoom] listener
    runs, and the listeners of the viewport tracker if they are
    registered. *)
Definition mapMoved (s : State) (map : M) : State :=
  match mapInstance s with
  | None => s
  | Some _ =>
      let moved := with_map s (Some map) (getZoom map) in
      if listening s then updateVisibleObservations moved else moved
  end.

Inductive Event : Type :=
| SetLens (value : Lens) (now : Q)
| SetTimeFilter (value : TimeWindowKey) (now : Q)
| MarkerClick (index : nat)
| Back
| ToggleExpanded
| CityWidePattern (now : Q)
| LocalPattern (now : Q)
| ClearPattern
| MapInit (map : M)
| MapMoved (map : M).

(** The handler of an event.  Markers exist for the observations of the
    filtered set, addressed here by their position in it. *)
Definition handle (s : State) (e : Event) : State :=
  match e with
  | SetLens value now => setLens s value now
  | SetTimeFilter value now => setTimeFilter s value now
  | MarkerClick index =>
      match nth_error (filtered s) index with
      | Some obs => markerClick s obs
      | None => s
      end
  | Back => onBack s
  | ToggleExpanded => onToggleExpanded s
  | CityWidePattern now => handleCityWidePattern s now
  | LocalPattern now => handleLocalPattern s now
  | ClearPattern => handleClearPatternMode s
  | MapInit map => mapInit s map
  | MapMoved map => mapMoved s map
  end.

(** One interaction: the handler, then the effects of the render that
    follows. *)
Definition step (s : State) (e : Event) : State :=
  deselect_check (handle s e).

Definition run (s : State) (es : list Event) : State :=
  fold_left step es s.

(** The states the component can be in once its effects have run. *)
Inductive reachable : State -> Prop :=
| reachable_init : forall now, reachable (deselect_check (initialState now))
| reachable_step : forall s e, reachable s -> reachable (step s e).

(** The view of the map together with the selection. *)
Definition view_triple (s : State)
  : option (LatLng * Q) * option Observation :=
  (option_map (fun m => (getCenter m, getZoom m)) (mapInstance s),
   selectedObservation s).

Definition is_filter_change (e : Event) : bool :=
  match e with
  | SetLens _ _ | SetTimeFilter _ _ => true
  | _ => false
  end.

(** The selected observation, if any, has its identifier in the filtered
    set: the condition that [deselect_check] tests. *)
Definition selection_listed (s : State) : Prop :=
  match selectedObservation s with
  | Some sel =>
      existsb (fun obs => String.eqb (id obs) (id sel)) (filtered s) = true
  | None => True
  end.

(** Pattern mode and saved view go together, and a pattern mode has a map
    and no selection. *)
Definition mode_consistent (s : State) : Prop :=
  match patternMode s with
  | NONE => savedMapState s = None
  | _ => savedMapState s <> None /\ selectedObservation s = None
         /\ mapInstance s <> None
  end.

(** Everything the state refers to comes from the corpus. *)
Definition from_corpus (s : State) : Prop :=
  incl (filtered s) observations
  /\ (forall o, selectedObservation s = Some o -> In o observations)
  /\ (forall saved o, savedMapState s = Some saved ->
        SavedMapState.selectedObservation saved = Some o ->
        In o observations).

Definition invariant (s : State) : Prop :=
  selection_listed s /\ mode_consistent s /\ from_corpus s.

End Component.


(* ================================================================== *)
(** * Notions of the specification *)
(* ================================================================== *)

(** The response times that enter the average: present and positive. *)
Definition positive_response_times (S : list Observation) : list Q :=
  flat_map (fun o => match response_time o with
                     | Some q => if Qlt_bool 0 q then [q] else []
                     | None => []
                     end) S.

Definition Qsum (l : list Q) : Q := fold_right Qplus 0%Q l.

(** The mean of a non-empty list. *)
Definition mean (l : list Q) : Q := (Qsum l / inject_Z (len l))%Q.

(** The review rate in percent: reviewed over total, times 100, the
    quotient and the product being those of doubles. *)
Definition review_percentage (S : list Observation) : number :=
  double_mul (double_div (num (count_reviewed S)) (num (len S))) (num 100).

(** The grid cell of an observation: [(floor(lat*100), floor(lng*100))],
    the products being those of doubles. *)
Definition grid_cell (o : Observation) : number * number :=
  (Math_floor_number (double_mul (Fin (lat o)) (num 100)),
   Math_floor_number (double_mul (Fin (lng o)) (num 100))).

Definition number_eq_dec (x y : number) : {x = y} + {x <> y}.
Proof.
  decide equality. decide equality; [apply Pos.eq_dec | apply Z.eq_dec].
Defined.

Definition cell_eq_dec (a b : number * number) : {a = b} + {a <> b}.
Proof. decide equality; apply number_eq_dec. Defined.

(** The distinct grid cells occupied by a set of observations. *)
Definition distinct_cells (l : list Observation) : list (number * number) :=
  nodup cell_eq_dec (map grid_cell l).



(** The absence of a character in a string. *)
Fixpoint no_char (c : Ascii.ascii) (s : string) : bool :=
  match s with
  | EmptyString => true
  | String a s' => negb (Ascii.eqb a c) && no_char c s'
  end.

Section SpecDistance.
Context {math : Math.Library}.

(** Degrees to radians. *)
Definition radians (degrees : number) : number :=
  double_div (double_mul degrees Math.PI) (num 180).

(** The sine of half an angle. *)
Definition sin_half (angle : number) : number :=
  Math.sin (double_div angle (num 2)).

(** The haversine of the central angle between two points:
    [sin^2 (dphi / 2) + cos phi1 * cos phi2 * sin^2 (dlambda / 2)],
    the products taken from left to right. *)
Definition haversine (phi1 phi2 dphi dlambda : number) : number :=
  double_add
    (double_mul (sin_half dphi) (sin_half dphi))
    (double_mul
       (double_mul (double_mul (Math.cos phi1) (Math.cos phi2))
                   (sin_half dlambda))
       (sin_half dlambda)).

(** The central angle that has the haversine [a]. *)
Definition central_angle (a : number) : number :=
  double_mul (num 2)
             (Math.atan2 (Math.sqrt a) (Math.sqrt (double_sub (num 1) a))).

Definition earth_radius : number := num 6371000.

(** The great-circle distance in metres on the sphere of radius
    6,371,000 m, by the haversine formula, in double arithmetic. *)
Definition haversine_distance (lat1 lng1 lat2 lng2 : Q) : number :=
  double_mul earth_radius
    (central_angle
       (haversine (radians (Fin lat1)) (radians (Fin lat2))
                  (radians (double_sub (Fin lat2) (Fin lat1)))
                  (radians (double_sub (Fin lng2) (Fin lng1))))).

(** The distance between two observations, in metres. *)
Definition distanceMeters (a b : Observation) : number :=
  haversine_distance (lat a) (lng a) (lat b) (lng b).

End SpecDistance.

(** A latitude in degrees. *)
Definition valid_latitude (lat : Q) : Prop := (-90 <= lat <= 90)%Q.

(** Two numbers with the same value. *)
Definition number_eq (x y : number) : Prop :=
  match x, y with
  | Fin a, Fin b => (a == b)%Q
  | Infinity, Infinity | NegInfinity, NegInfinity | NaN, NaN => True
  | _, _ => False
  end.

(** One day in milliseconds. *)
Definition one_day : Q := 86400000.

(* ================================================================== *)
(** * A small corpus for the examples *)
(* ================================================================== *)

Module Sample.

(** The instant of the examples, and one hour in milliseconds. *)
Definition now : Q := 1700000000000.
Definition hour : Q := 3600000.

Definition obs_0 : Observation :=
  mkObservation "obs_0000" violation (19076 # 1000) (728777 # 10000)
                (now - 2 * hour) resolved (Some 3%Q).

Definition obs_1 : Observation :=
  mkObservation "obs_0001" violation (190176 # 10000) (728561 # 10000)
                (now - 72 * hour) pending None.

Definition obs_2 : Observation :=
  mkObservation "obs_0002" risk (190896 # 10000) (728656 # 10000)
                (now - 400 * hour) acknowledged (Some 4%Q).

Definition observations : list Observation := [obs_0; obs_1; obs_2].

(** An observation far beyond the latitudes: its [lat * Math.PI]
    overflows. *)
Definition obs_far : Observation :=
  mkObservation "obs_far" violation (2 ^ 1023) 0 (now - 2 * hour) resolved
                (Some 3%Q).

Definition map : PlainMap.t := PlainMap.mk MAP_CONFIG.center 12.

(** The map is ready and the first marker has been clicked. *)
Definition selected : @State PlainMap.t :=
  run (math := ApproxMath.library) observations
      (deselect_check (initialState observations now))
      [MapInit map; MarkerClick 0].

End Sample.

(* ================================================================== *)
(** * Further notions of the component *)
(* ================================================================== *)

(** [isViewportFiltered] of the component. *)
Definition isViewportFiltered (visibleObservations filteredData
                               : list Observation) : bool :=
  (len visibleObservations >? 0)%Z
  && negb (len visibleObservations =? len filteredData)%Z.

Section ComponentInvariants.

Context {M : Type} {leaflet : LeafletMap M}.

(** The corpus, generated once. *)
Variable observations : list Observation.

(** What goes with each pattern mode: no pattern data and no circle
    without a mode; city-wide data without centre or circle in city-wide
    mode; local data with its centre, and the circle around it, in local
    mode. *)
Definition pattern_shape (s : @State M) : Prop :=
  match patternMode s with
  | NONE => patternData s = None /\ localPatternCircle s = None
  | CITY_WIDE =>
      (exists pd st, patternData s = Some pd
                     /\ PatternData.stats pd = CityWideStatsOf st
                     /\ PatternData.center pd = None)
      /\ localPatternCircle s = None
  | LOCAL =>
      exists pd st c,
        patternData s = Some pd
        /\ PatternData.stats pd = LocalStatsOf st
        /\ PatternData.center pd = Some c
        /\ localPatternCircle s = Some (c, MAP_CONFIG.localPatternRadius)
  end.

(** The pattern data are about the saved selection: the observations all
    have the type of the pattern and come from the corpus, the saved
    selection has that type and, when it is at a latitude, it is one of
    them and the statistics are not [null]. *)
Definition pattern_reference (s : @State M) : Prop :=
  forall pd, patternData s = Some pd ->
    Forall (fun o => type o = PatternData.type pd)
           (PatternData.observations pd)
    /\ incl (PatternData.observations pd) observations
    /\ exists saved ref,
         savedMapState s = Some saved
         /\ SavedMapState.selectedObservation saved = Some ref
         /\ type ref = PatternData.type pd
         /\ (valid_latitude (lat ref) ->
             In ref (PatternData.observations pd)
             /\ PatternData.stats pd <> LocalStatsOf None).


(** The fields that only the three pattern handlers write. *)
Definition pattern_fields (s : @State M)
  : PATTERN_MODE * option PatternData.t * option SavedMapState.t
    * option Circle :=
  (patternMode s, patternData s, savedMapState s, localPatternCircle s).


(** The observations of the filtered set inside the bounds of a map. *)
Definition in_bounds (map : M) (data : list Observation)
  : list Observation :=
  filter (fun obs => LatLngBounds.contains (getBounds map) (lat obs, lng obs))
         data.

End ComponentInvariants.

Module SampleStates.

(** The sample state after "analyze city-wide". *)
Definition in_city_wide : @State PlainMap.t :=
  step (math := ApproxMath.library) Sample.observations Sample.selected
       (CityWidePattern Sample.now).

(** The sample state after "analyze nearby". *)
Definition in_local : @State PlainMap.t :=
  step (math := ApproxMath.library) Sample.observations Sample.selected
       (LocalPattern Sample.now).

(** A corpus of one observation beyond the latitudes: the map is ready,
    the marker has been clicked and "analyze nearby" chosen. *)
Definition far_local : @State PlainMap.t :=
  run (math := ApproxMath.library) [Sample.obs_far]
      (deselect_check (initialState [Sample.obs_far] Sample.now))
      [MapInit Sample.map; MarkerClick 0; LocalPattern Sample.now].

End SampleStates.

(* ================================================================== *)
(** * TimeUtils *)
(* ================================================================== *)

Module TimeUtils.

(** [getDaysAgo(timestamp)], with [Date.now()] as [now]. *)
Definition getDaysAgo (timestamp now : Q) : Z :=
  let diff := (now - timestamp)%Q in
  if Qlt_bool diff 0 then 0%Z
  else Math_floor (diff / inject_Z (1000 * 60 * 60 * 24)).

Definition formatRelativeTime (timestamp now : Q) : string :=
  let daysAgo := getDaysAgo timestamp now in
  if (daysAgo =? 0)%Z then "Today"%string
  else if (daysAgo =? 1)%Z then "1 day ago"%string
  else (String_of_integer daysAgo ++ " days ago")%string.

End TimeUtils.

(* ================================================================== *)
(** * The data layer: seeded mock observations *)
(* ================================================================== *)

(** [s.padStart(targetLength, pad)] for a padding of one character. *)
Fixpoint repeat_char (c : ascii) (n : nat) : string :=
  match n with
  | O => EmptyString
  | S n' => String c (repeat_char c n')
  end.

Definition padStart (targetLength : nat) (pad : ascii) (s : string)
  : string :=
  (repeat_char pad (targetLength - String.length s) ++ s)%string.

Module Media.
Inductive kind : Type := image | video.
Record t : Type := mk { type : kind; url : string; metadataStripped : bool }.
End Media.

(** An observation as the data service makes it: the fields of
    [Observation] and the fields that only the detail view shows. *)
Module MockObservation.
Record t : Type := mk {
  observation : Observation;
  description : string;
  reviewed_at : Q;
  media : option Media.t;
  hasMultipleMedia : bool
}.
End MockObservation.

Module ObservationDataService.

Section Seeded.

(** [Math.sin] on the seeds, and [Date.now()] at the time the observation
    of an index is made. *)
Variable Math_sin : Z -> Q.
Variable Date_now : nat -> Q.

(** The fixed seed. *)
Definition seed : Z := 12345.

(** [seededRandom()]: the value and the incremented seed. *)
Definition seededRandom (seed : Z) : Q * Z :=
  let x := (Math_sin seed * 10000)%Q in
  ((x - inject_Z (Math_floor x))%Q, (seed + 1)%Z).

Definition types : list ObservationType := [violation; risk; infrastructure].

Definition statuses : list Status :=
  [under_review; acknowledged; resolved; dismissed; pending].

(** The base locations as [(lat, lng)]. *)
Definition baseLocations : list LatLng :=
  [ (19076 # 1000, 728777 # 10000);
    (190176 # 10000, 728561 # 10000);
    (190896 # 10000, 728656 # 10000);
    (191136 # 10000, 728697 # 10000);
    (192183 # 10000, 729781 # 10000) ].

(** The sample media: [(type, url)], or [None] for [null]. *)
Definition sampleMedia : list (option (Media.kind * string)) :=
  [ Some (Media.image,
      "https://images.unsplash.com/photo-1449824913935-59a10b8d2000?w=400"
        %string);
    Some (Media.image,
      "https://images.unsplash.com/photo-1502877338535-766e1452684a?w=400"
        %string);
    Some (Media.image,
      "https://images.unsplash.com/photo-1486299267070-83823f5448dd?w=400"
        %string);
    Some (Media.video, "https://www.w3schools.com/html/mov_bbb.mp4"%string);
    Some (Media.image,
      "https://images.unsplash.com/photo-1568605117036-5fe5e7bab0b7?w=400"
        %string);
    None;
    None ].

(** [array[Math.floor(r * array.length)]]; [None] is [undefined]. *)
Definition pick {A} (array : list A) (r : Q) : option A :=
  let index := Math_floor (r * inject_Z (len array)) in
  if (index <? 0)%Z then None else nth_error array (Z.to_nat index).

(** [`obs_${String(i).padStart(4, "0")}`]. *)
Definition observation_id (i : nat) : string :=
  ("obs_" ++ padStart 4 "0" (digits (Z.of_nat i)))%string.

(** The callback of [Array.from] at index [i]: the observation and the
    seed after its ten draws.  The result is [None] where the source
    fails or leaves the data model: a base location that is [undefined]
    (reading its [lat] throws), or a type or a status that is [undefined].
    A medium that is [null] or [undefined] gives [null]. *)
Definition generateOne (i : nat) (seed : Z)
  : option (MockObservation.t * Z) :=
  let '(r, seed) := seededRandom seed in
  let baseLocation := pick baseLocations r in
  let '(r, seed) := seededRandom seed in
  let media := pick sampleMedia r in
  let '(r, seed) := seededRandom seed in
  let timestamp := (Date_now i - r * 30 * 24 * 60 * 60 * 1000)%Q in
  let '(r, seed) := seededRandom seed in
  let type := pick types r in
  let '(r_lat, seed) := seededRandom seed in
  let '(r_lng, seed) := seededRandom seed in
  let '(r, seed) := seededRandom seed in
  let status := pick statuses r in
  let '(r, seed) := seededRandom seed in
  let reviewed_at := (timestamp + r * 15 * 24 * 60 * 60 * 1000)%Q in
  let '(r, seed) := seededRandom seed in
  let response_time := inject_Z (Math_floor (r * 14) + 1) in
  let '(r, seed) := seededRandom seed in
  let hasMultipleMedia := Qlt_bool (7 # 10) r in
  match baseLocation, type, status with
  | Some baseLocation, Some type, Some status =>
      Some
        (MockObservation.mk
           (mkObservation
              (observation_id i)
              type
              (fst baseLocation + (r_lat - (1 # 2)) * (5 # 100))
              (snd baseLocation + (r_lng - (1 # 2)) * (5 # 100))
              timestamp
              status
              (Some response_time))
           "Observed behavior pattern"
           reviewed_at
           (match media with
            | Some (Some (kind, url)) => Some (Media.mk kind url true)
            | _ => None
            end)
           hasMultipleMedia,
         seed)
  | _, _, _ => None
  end.

(** [Array.from({ length: count }, callback)] from index [i] on. *)
Fixpoint generateFrom (count i : nat) (seed : Z)
  : option (list MockObservation.t * Z) :=
  match count with
  | O => Some ([], seed)
  | S count' =>
      match generateOne i seed with
      | Some (obs, seed') =>
          match generateFrom count' (S i) seed' with
          | Some (rest, seed'') => Some (obs :: rest, seed'')
          | None => None
          end
      | None => None
      end
  end.

(** [generateMockObservations(count)] and the seed it leaves. *)
Definition generateMockObservations (count : nat) (seed : Z)
  : option (list MockObservation.t * Z) :=
  generateFrom count 0 seed.

(** What holds of the observation made at index [i]. *)
Definition generated_at (i : nat) (m : MockObservation.t) : Prop :=
  let o := MockObservation.observation m in
  id o = observation_id i
  /\ (exists k : Z, response_time o = Some (inject_Z k) /\ (1 <= k <= 14)%Z)
  /\ (Date_now i - 30 * one_day < timestamp o <= Date_now i)%Q
  /\ (timestamp o <= MockObservation.reviewed_at m
      < timestamp o + 15 * one_day)%Q
  /\ (exists base, In base baseLocations
        /\ (fst base - (25 # 1000) <= lat o < fst base + (25 # 1000))%Q
        /\ (snd base - (25 # 1000) <= lng o < snd base + (25 # 1000))%Q)
  /\ match MockObservation.media m with
     | Some attachment => Media.metadataStripped attachment = true
     | None => True
     end.

End Seeded.

End ObservationDataService.

(* ================================================================== *)
(** * The markers of the map *)
(* ================================================================== *)

Module THEME.
Definition black : string := "#000000".
Definition white : string := "#FFFFFF".
End THEME.

(** The options of [L.circleMarker]. *)
Module MarkerOptions.
Record t : Type := mk {
  position : LatLng;
  radius : Z;
  color : string;
  fillColor : string;
  fillOpacity : Q;
  weight : Z;
  opacity : Q;
  zIndex : Z
}.
End MarkerOptions.

Section Markers.

Context {M : Type}.

(** [patternData.observations.some((o) => o.id === obs.id)]. *)
Definition some_id (l : list Observation) (obs : Observation) : bool :=
  existsb (fun o => String.eqb (id o) (id obs)) l.

(** [selectedObservation?.id === obs.id]. *)
Definition isSelected (s : @State M) (obs : Observation) : bool :=
  match selectedObservation s with
  | Some sel => String.eqb (id sel) (id obs)
  | None => false
  end.

(** Whether the marker of [obs] is emphasised; [None] outside the pattern
    modes, where the markers keep their own style. *)
Definition isEmphasized (s : @State M) (obs : Observation) : option bool :=
  match patternMode s, patternData s with
  | CITY_WIDE, Some pd => Some (type_eqb (type obs) (PatternData.type pd))
  | LOCAL, Some pd => Some (some_id (PatternData.observations pd) obs)
  | _, _ => None
  end.

(** The marker that the effect makes for an observation of the filtered
    set. *)
Definition markerOptions (s : @State M) (obs : Observation)
  : MarkerOptions.t :=
  let isSelected := isSelected s obs in
  let fillOpacity := (9 # 10)%Q in
  let strokeOpacity := 1%Q in
  let weight := MapUtils.getMarkerWeight (status obs) in
  let '(fillOpacity, strokeOpacity, weight) :=
    match isEmphasized s obs with
    | Some isEmphasized =>
        (if isEmphasized then (9 # 10)%Q else (3 # 10)%Q,
         if isEmphasized then 1%Q else (3 # 10)%Q,
         if isEmphasized then (weight + 1)%Z else 1%Z)
    | None => (fillOpacity, strokeOpacity, weight)
    end in
  MarkerOptions.mk (lat obs, lng obs)
                   (MapUtils.getMarkerRadius (zoomLevel s))
                   THEME.black
                   (if isSelected then THEME.black else THEME.white)
                   fillOpacity weight strokeOpacity
                   (if isSelected then 1000 else 1)%Z.

(** The markers of the layer, one per filtered observation. *)
Definition markers (s : @State M) : list MarkerOptions.t :=
  map (markerOptions s) (filtered s).

(** The number of markers drawn as selected. *)
Definition selected_markers (s : @State M) : Z :=
  len (filter (fun m => (MarkerOptions.zIndex m =? 1000)%Z) (markers s)).

End Markers.
(* ================================================================== *)
(** * Basic facts about the number layer and the enumerations *)
(* ================================================================== *)

Lemma Qlt_bool_iff (x y : Q) : Qlt_bool x y = true <-> (x < y)%Q.
Proof.
  unfold Qlt_bool. rewrite negb_true_iff.
  split; intro H.
  - apply Qnot_le_lt. intro Hle. apply Qle_bool_iff in Hle. congruence.
  - destruct (Qle_bool y x) eqn:E; [|reflexivity].
    apply Qle_bool_iff in E. exfalso. apply (Qlt_not_le _ _ H E).
Qed.

Lemma Qlt_bool_false_iff (x y : Q) : Qlt_bool x y = false <-> (y <= x)%Q.
Proof.
  unfold Qlt_bool. rewrite negb_false_iff. apply Qle_bool_iff.
Qed.

Lemma type_eqb_eq (a b : ObservationType) : type_eqb a b = true <-> a = b.
Proof. destruct a, b; simpl; split; congruence. Qed.

Lemma status_eqb_eq (a b : Status) : status_eqb a b = true <-> a = b.
Proof. destruct a, b; simpl; split; congruence. Qed.

Lemma Lens_eqb_eq (a b : Lens) : Lens_eqb a b = true <-> a = b.
Proof.
  destruct a as [|t], b as [|u]; simpl; try (split; congruence).
  rewrite type_eqb_eq. split; congruence.
Qed.

Lemma TimeWindowKey_eqb_eq (a b : TimeWindowKey) :
  TimeWindowKey_eqb a b = true <-> a = b.
Proof. destruct a, b; simpl; split; congruence. Qed.

Lemma len_nonneg {A} (l : list A) : (0 <= len l)%Z.
Proof. unfold len. lia. Qed.

Lemma len_zero_iff {A} (l : list A) : len l = 0%Z <-> l = [].
Proof.
  unfold len. destruct l; simpl; split; try congruence; try lia.
Qed.

Lemma filter_filter {A} (f g : A -> bool) (l : list A) :
  filter g (filter f l) = filter (fun x => f x && g x) l.
Proof.
  induction l as [|x l IH]; simpl; [reflexivity|].
  destruct (f x); simpl; [destruct (g x)|]; now rewrite IH.
Qed.

Lemma filter_true {A} (l : list A) : filter (fun _ => true) l = l.
Proof. induction l; simpl; congruence. Qed.

(* ================================================================== *)
(** * FilterEngine *)
(* ================================================================== *)

Lemma lens_admitsb_iff (lens : Lens) (o : Observation) :
  lens_admitsb lens o = true <-> lens_admits lens o.
Proof.
  unfold lens_admits. destruct lens as [|t]; simpl.
  - split; auto.
  - rewrite type_eqb_eq. split.
    + intros ->. now right.
    + intros [E|E]; [discriminate | congruence].
Qed.

Lemma window_admitsb_iff (span : number) (now : Q) (o : Observation) :
  window_admitsb span now o = true <-> window_admits span now o.
Proof.
  destruct span; simpl; try (split; [discriminate | tauto]).
  - apply Qlt_bool_iff.
  - split; auto.
Qed.

(** [filteredData] is one pass of [filter] with the two tests. *)
Lemma filteredData_filter (corpus : list Observation) (lens : Lens)
    (w : TimeWindowKey) (now : Q) :
  filteredData corpus lens w now =
  filter (fun o => lens_admitsb lens o
                   && window_admitsb (ms (TIME_WINDOWS w)) now o) corpus.
Proof.
  unfold filteredData.
  destruct lens as [|t]; destruct w; simpl;
    rewrite ?filter_filter; try reflexivity;
    try (apply filter_ext; intro; now rewrite andb_true_r).
  symmetry; apply filter_true.
Qed.

Lemma filteredData_In (corpus : list Observation) (lens : Lens)
    (w : TimeWindowKey) (now : Q) (o : Observation) :
  In o (filteredData corpus lens w now) <->
  In o corpus /\ lens_admits lens o
  /\ window_admits (ms (TIME_WINDOWS w)) now o.
Proof.
  rewrite filteredData_filter, filter_In, andb_true_iff.
  now rewrite lens_admitsb_iff, window_admitsb_iff.
Qed.


Lemma window_admits_mono (s1 s2 : number) (now : Q) (o : Observation) :
  span_le s1 s2 -> window_admits s1 now o -> window_admits s2 now o.
Proof.
  destruct s1, s2; simpl; try tauto. intros; lra.
Qed.


(** C7.  Window monotonicity: when the span of [w1] is at most the span of
    [w2], every observation kept under [w1] is kept under [w2], for the same
    corpus, lens and instant. *)
Theorem C7_window_monotone (corpus : list Observation) (lens : Lens)
    (w1 w2 : TimeWindowKey) (now : Q) :
  span_le (ms (TIME_WINDOWS w1)) (ms (TIME_WINDOWS w2)) ->
  incl (filteredData corpus lens w1 now) (filteredData corpus lens w2 now).
Proof.
  intros Hle o Ho. apply filteredData_In in Ho. apply filteredData_In.
  destruct Ho as (Hc & Hl & Hw). eauto using window_admits_mono.
Qed.

(* ================================================================== *)
(** * ClusterSizer *)
(* ================================================================== *)

(** C8.  The tier of a count is large above 50, medium above 10 and up to
    50, and small otherwise; the pixel presets are 50, 40 and 32; and the
    tiers of 51, 11 and 10 are large, medium and small. *)
Theorem C8_sizeTier (count : Z) :
  ((50 < count)%Z /\ fst (sizeTier count) = large
   \/ (10 < count <= 50)%Z /\ fst (sizeTier count) = medium
   \/ (count <= 10)%Z /\ fst (sizeTier count) = small)
  /\ snd (sizeTier count) =
       match fst (sizeTier count) with
       | large => Dimensions.mk 50 50 "16px"
       | medium => Dimensions.mk 40 40 "14px"
       | small => Dimensions.mk 32 32 "12px"
       end
  /\ fst (sizeTier 51) = large
  /\ fst (sizeTier 11) = medium
  /\ fst (sizeTier 10) = small.
Proof.
  split; [|split; [|repeat split]].
  - unfold sizeTier, MapUtils.getClusterSize; simpl.
    destruct (count >? 50)%Z eqn:E1; [left; split; [lia|reflexivity]|].
    destruct (count >? 10)%Z eqn:E2; right; [left|right];
      (split; [lia|reflexivity]).
  - unfold sizeTier; simpl.
    now destruct (MapUtils.getClusterSize count).
Qed.

(* ================================================================== *)
(** * Doubles *)
(* ================================================================== *)

Section Rounding.

Local Open Scope Q_scope.

Lemma two_power_pos (z : Z) : 0 < 2 ^ z.
Proof. apply Qpower_0_lt. reflexivity. Qed.

Lemma two_power_plus (n m : Z) : 2 ^ (n + m) == 2 ^ n * 2 ^ m.
Proof. apply Qpower_plus. discriminate. Qed.

Lemma two_power_minus (n m : Z) : 2 ^ (n - m) == 2 ^ n / 2 ^ m.
Proof. apply Qpower_minus. discriminate. Qed.

Lemma two_power_le (n m : Z) : (n <= m)%Z -> 2 ^ n <= 2 ^ m.
Proof. intro H. apply Qpower_le_compat_l; [exact H | discriminate]. Qed.

Lemma two_power_le_inv (n m : Z) : 2 ^ n <= 2 ^ m -> (n <= m)%Z.
Proof. intro H. apply (Qpower_le_compat_l_inv 2); [exact H | reflexivity]. Qed.

Lemma two_power_Z (n : Z) : (0 <= n)%Z -> inject_Z (2 ^ n) == 2 ^ n.
Proof. intro H. apply (Zpower_Qpower 2 n H). Qed.

(** The binary logarithm is not above the number. *)
Lemma Qlog2_le (q : Q) : 0 < q -> 2 ^ Qlog2 q <= q.
Proof.
  intro Hq. unfold Qlog2.
  set (k := (Z.log2 (Qnum q) - Z.log2 (Z.pos (Qden q)))%Z).
  destruct (Qle_bool (2 ^ k) q) eqn:E; [now apply Qle_bool_iff|].
  destruct q as [n d]. cbn [Qnum Qden] in k.
  assert (Hn : (0 < n)%Z) by (unfold Qlt in Hq; simpl in Hq; lia).
  pose proof (Z.log2_spec n Hn) as [Ha _].
  pose proof (Z.log2_spec (Z.pos d) (Pos2Z.is_pos d)) as [_ Hb].
  pose proof (Z.log2_nonneg n) as Ha0.
  pose proof (Z.log2_nonneg (Z.pos d)) as Hb0.
  replace (k - 1)%Z with (Z.log2 n - Z.succ (Z.log2 (Z.pos d)))%Z
    by (unfold k; lia).
  rewrite two_power_minus, <- !two_power_Z by lia.
  rewrite (Qmake_Qdiv n d).
  assert (Hd : 0 < inject_Z (Z.pos d)) by reflexivity.
  assert (Hp : 0 < inject_Z (2 ^ Z.succ (Z.log2 (Z.pos d)))).
  { rewrite two_power_Z by lia. apply two_power_pos. }
  apply Qle_shift_div_l; [exact Hd|].
  unfold Qdiv. rewrite <- Qmult_assoc, (Qmult_comm (/ _)), Qmult_assoc.
  apply Qle_shift_div_r; [exact Hp|].
  rewrite <- !inject_Z_mult, <- Zle_Qle. nia.
Qed.

(** ** The nearest integer *)

Lemma round_half_even_comp (p q : Q) :
  p == q -> round_half_even p = round_half_even q.
Proof.
  intro E. unfold round_half_even. rewrite (Qfloor_comp _ _ E).
  now rewrite E.
Qed.

Lemma round_half_even_integer (n : Z) : round_half_even (inject_Z n) = n.
Proof.
  unfold round_half_even. rewrite Qfloor_Z.
  assert (E : inject_Z n - inject_Z n == 0) by ring.
  rewrite E. reflexivity.
Qed.

Lemma round_half_even_bounds (q : Q) :
  (Qfloor q <= round_half_even q <= Qfloor q + 1)%Z.
Proof.
  unfold round_half_even.
  destruct (Qcompare _ _); [destruct (Z.even _)| |]; lia.
Qed.

(** The nearest integer does not pass an integer bound. *)
Lemma round_half_even_le (q : Q) (n : Z) :
  q <= inject_Z n -> (round_half_even q <= n)%Z.
Proof.
  intro H.
  pose proof (Qfloor_le q) as Hf. pose proof (Qlt_floor q) as Hl.
  assert (Hfn : (Qfloor q <= n)%Z).
  { rewrite <- (Qfloor_Z n). now apply Qfloor_resp_le. }
  destruct (Z.eq_dec (Qfloor q) n) as [E|NE].
  - assert (Eq : q == inject_Z n).
    { rewrite E in Hf. apply Qle_antisym; assumption. }
    rewrite (round_half_even_comp Eq). rewrite round_half_even_integer. lia.
  - pose proof (round_half_even_bounds q). lia.
Qed.

Lemma round_half_even_nonneg (q : Q) : 0 <= q -> (0 <= round_half_even q)%Z.
Proof.
  intro H. pose proof (round_half_even_bounds q) as [Hb _].
  assert (H0 : (0 <= Qfloor q)%Z).
  { change 0%Z with (Qfloor 0). now apply Qfloor_resp_le. }
  lia.
Qed.

(** Up to one half, the nearest integer is 0. *)
Lemma round_half_even_zero (q : Q) :
  0 <= q -> q <= 1 # 2 -> round_half_even q = 0%Z.
Proof.
  intros H0 H1.
  assert (Hf : Qfloor q = 0%Z).
  { pose proof (Qfloor_le q) as Hf. pose proof (Qlt_floor q) as Hl.
    assert (Hlo : (0 <= Qfloor q)%Z).
    { change 0%Z with (Qfloor 0). now apply Qfloor_resp_le. }
    assert (Hhi : (Qfloor q <= Qfloor (1 # 2))%Z)
      by now apply Qfloor_resp_le.
    change (Qfloor (1 # 2)) with 0%Z in Hhi. lia. }
  unfold round_half_even. rewrite Hf.
  destruct (Qcompare (q - inject_Z 0) (1 # 2)) eqn:E; try reflexivity.
  apply Qgt_alt in E. change (inject_Z 0) with 0 in E. lra.
Qed.

(** ** Rounding to a double *)

Lemma round64_comp (p q : Q) : p == q -> round64 p = round64 q.
Proof.
  intro E. unfold round64. now rewrite (Qred_complete _ _ E).
Qed.

Lemma Qopp_opp_eq (q : Q) : - - q = q.
Proof.
  destruct q as [n d]. unfold Qopp. simpl. now rewrite Z.opp_involutive.
Qed.

Lemma number_neg_involutive (x : number) : number_neg (number_neg x) = x.
Proof. destruct x; simpl; try reflexivity. now rewrite Qopp_opp_eq. Qed.

Lemma Qcompare_opp_0 (q : Q) : Qcompare (- q) 0 = CompOpp (Qcompare q 0).
Proof.
  destruct q as [n d]. unfold Qcompare, Qopp. simpl.
  rewrite !Z.mul_1_r. destruct n; reflexivity.
Qed.

(** Rounding is symmetric. *)
Lemma round64_opp (q : Q) : round64 (- q) = number_neg (round64 q).
Proof.
  unfold round64. rewrite Qred_opp, Qcompare_opp_0.
  destruct (Qcompare (Qred q) 0); simpl.
  - reflexivity.
  - now rewrite number_neg_involutive.
  - now rewrite Qopp_opp_eq.
Qed.

Lemma round64_zero (q : Q) : q == 0 -> round64 q = Fin 0.
Proof. intro E. now rewrite (round64_comp E). Qed.

(** A positive number up to a bound on the grid of its last place is
    rounded to a finite double up to that bound. *)
Lemma round_positive_grid (q b : Q) (z : Z) :
  0 < q -> q <= b -> b == inject_Z z * 2 ^ ulp_exponent q -> b < 2 ^ 1024 ->
  exists v, round_positive q = Fin v /\ 0 <= v <= b.
Proof.
  intros Hq Hb Hz Hmax. unfold round_positive.
  set (e := ulp_exponent q) in *.
  pose proof (two_power_pos e) as He.
  assert (Hm : (round_half_even (q / 2 ^ e) <= z)%Z).
  { apply round_half_even_le. apply Qle_shift_div_r; [exact He|].
    now rewrite <- Hz. }
  assert (Hm0 : (0 <= round_half_even (q / 2 ^ e))%Z).
  { apply round_half_even_nonneg. apply Qle_shift_div_l; [exact He|]. lra. }
  set (m := round_half_even (q / 2 ^ e)) in *.
  assert (Hv : 0 <= inject_Z m * 2 ^ e <= b).
  { rewrite Hz. rewrite Zle_Qle in Hm, Hm0. change (inject_Z 0) with 0 in Hm0.
    split; nra. }
  destruct (Qle_bool (2 ^ 1024) (inject_Z m * 2 ^ e)) eqn:E.
  - apply Qle_bool_iff in E. lra.
  - eexists. split; [reflexivity|]. now rewrite Qred_correct.
Qed.

(** Below half of the smallest double, rounding gives 0. *)
Lemma round_positive_underflow (q : Q) :
  0 < q -> q <= 2 ^ (-1075) -> round_positive q = Fin 0.
Proof.
  intros Hq Hu. unfold round_positive.
  assert (He : ulp_exponent q = (-1074)%Z).
  { unfold ulp_exponent. pose proof (Qlog2_le Hq) as Hl.
    assert (Hle : 2 ^ Qlog2 q <= 2 ^ (-1075)) by lra.
    apply two_power_le_inv in Hle. lia. }
  rewrite He.
  assert (Hm : round_half_even (q / 2 ^ (-1074)) = 0%Z).
  { apply round_half_even_zero.
    - apply Qle_shift_div_l; [apply two_power_pos | lra].
    - apply Qle_shift_div_r; [apply two_power_pos|].
      assert (E : (1 # 2) * 2 ^ (-1074) == 2 ^ (-1075)).
      { change (1 # 2) with (2 ^ (-1)). rewrite <- two_power_plus.
        reflexivity. }
      now rewrite E. }
  rewrite Hm. reflexivity.
Qed.

(** Up to a power of two, rounding stays finite and up to that power. *)
Lemma round_positive_power (q : Q) (k : Z) :
  0 < q -> q <= 2 ^ k -> (k < 1024)%Z ->
  exists v, round_positive q = Fin v /\ 0 <= v <= 2 ^ k.
Proof.
  intros Hq Hk Hmax.
  destruct (Z_le_gt_dec (ulp_exponent q) k) as [Hle|Hgt].
  - apply round_positive_grid with (z := (2 ^ (k - ulp_exponent q))%Z);
      try assumption.
    + rewrite two_power_Z by lia. rewrite <- two_power_plus.
      now replace (k - ulp_exponent q + ulp_exponent q)%Z with k by lia.
    + apply Qpower_lt_compat_l; [exact Hmax | reflexivity].
  - assert (He : ulp_exponent q = (-1074)%Z).
    { unfold ulp_exponent in *. pose proof (Qlog2_le Hq) as Hl.
      assert (Hle : 2 ^ Qlog2 q <= 2 ^ k) by lra.
      apply two_power_le_inv in Hle. lia. }
    assert (Hu : q <= 2 ^ (-1075)).
    { apply Qle_trans with (2 ^ k); [exact Hk|].
      apply two_power_le. lia. }
    rewrite (round_positive_underflow Hq Hu).
    exists 0. split; [reflexivity|].
    pose proof (two_power_pos k). lra.
Qed.

(** Up to an integer below [2 ^ 53], rounding stays up to that integer. *)
Lemma round_positive_integer (q : Q) (n : Z) :
  0 < q -> q <= inject_Z n -> (n < 2 ^ 53)%Z ->
  exists v, round_positive q = Fin v /\ 0 <= v <= inject_Z n.
Proof.
  intros Hq Hn Hmax.
  assert (Hlt : inject_Z n < 2 ^ 53).
  { rewrite <- two_power_Z by lia. now rewrite <- Zlt_Qlt. }
  assert (He : (ulp_exponent q <= 0)%Z).
  { unfold ulp_exponent. pose proof (Qlog2_le Hq) as Hl.
    assert (Hle : 2 ^ Qlog2 q <= 2 ^ 53) by lra.
    apply two_power_le_inv in Hle.
    destruct (Z.eq_dec (Qlog2 q) 53) as [E|NE]; [|lia].
    rewrite E in Hl. lra. }
  apply round_positive_grid with (z := (n * 2 ^ (- ulp_exponent q))%Z);
    try assumption.
  - rewrite inject_Z_mult, two_power_Z by lia.
    rewrite <- Qmult_assoc, <- two_power_plus.
    replace (- ulp_exponent q + ulp_exponent q)%Z with 0%Z by lia.
    change (2 ^ 0) with 1. ring.
  - apply Qlt_trans with (2 ^ 53); [exact Hlt|]. reflexivity.
Qed.

Lemma Qred_pos (q : Q) : 0 < q -> Qcompare (Qred q) 0 = Gt.
Proof. intro H. apply Qgt_alt. now rewrite Qred_correct. Qed.

Lemma round64_positive (q : Q) : 0 < q -> round64 q = round_positive (Qred q).
Proof. intro H. unfold round64. now rewrite (Qred_pos H). Qed.

(** In magnitude up to a power of two, rounding is finite and stays up to
    that power. *)
Lemma round64_power (q : Q) (k : Z) :
  Qabs q <= 2 ^ k -> (k < 1024)%Z ->
  exists v, round64 q = Fin v /\ Qabs v <= 2 ^ k.
Proof.
  intros Hk Hmax. apply Qabs_Qle_condition in Hk.
  pose proof (two_power_pos k) as Hp.
  destruct (Q_dec q 0) as [[Hneg|Hpos]|Hz].
  - assert (Hq : 0 < - q) by lra.
    assert (Hqk : Qred (- q) <= 2 ^ k) by (rewrite Qred_correct; lra).
    assert (Hq' : 0 < Qred (- q)) by now rewrite Qred_correct.
    destruct (round_positive_power Hq' Hqk Hmax) as (v & Hv & Hv0 & Hvk).
    exists (- v). split.
    + rewrite <- (Qopp_opp_eq q), round64_opp, (round64_positive Hq), Hv.
      reflexivity.
    + apply Qabs_Qle_condition. lra.
  - assert (Hqk : Qred q <= 2 ^ k) by (rewrite Qred_correct; lra).
    assert (Hq' : 0 < Qred q) by now rewrite Qred_correct.
    destruct (round_positive_power Hq' Hqk Hmax) as (v & Hv & Hv0 & Hvk).
    exists v. split; [now rewrite (round64_positive Hpos)|].
    apply Qabs_Qle_condition. lra.
  - exists 0. split; [now apply round64_zero|].
    apply Qabs_Qle_condition. lra.
Qed.


(** Between 0 and an integer below [2 ^ 53], rounding stays there. *)
Lemma round64_integer (q : Q) (n : Z) :
  0 <= q -> q <= inject_Z n -> (n < 2 ^ 53)%Z ->
  exists v, round64 q = Fin v /\ 0 <= v <= inject_Z n.
Proof.
  intros H0 Hn Hmax.
  destruct (Qle_lt_or_eq _ _ H0) as [Hpos|Hz].
  - assert (Hq' : 0 < Qred q) by now rewrite Qred_correct.
    assert (Hqn : Qred q <= inject_Z n) by now rewrite Qred_correct.
    rewrite (round64_positive Hpos).
    now apply round_positive_integer.
  - exists 0. split; [apply round64_zero; now symmetry|]. lra.
Qed.

End Rounding.

(** ** Some doubles *)

(** The double closest to one tenth. *)
Example literal_tenth :
  literal (1 # 10) = 3602879701896397 # 36028797018963968.
Proof. vm_compute. reflexivity. Qed.

(** In doubles [19.08 * 100] is [1907.9999999999998], in cell 1907, and
    [19.02 * 100] is [1902], in cell 1902. *)
Example floor_of_double_product :
  Math_floor_number (double_mul (Fin (literal (1908 # 100))) (num 100))
  = num 1907
  /\ Math_floor_number (double_mul (Fin (literal (1902 # 100))) (num 100))
     = num 1902.
Proof. split; vm_compute; reflexivity. Qed.

(** In doubles [(23 / 80) * 100] is [28.749999999999996], printed with
    one decimal as [28.7]. *)
Example toFixed1_of_double_percentage :
  toFixed1 (double_mul (double_div (num 23) (num 80)) (num 100))
  = "28.7"%string.
Proof. vm_compute. reflexivity. Qed.

(** Overflow gives [Infinity], and half of the smallest subnormal
    rounds to 0. *)
Example round64_extremes :
  round64 (2 ^ 1024) = Infinity /\ round64 (2 ^ (-1075)) = Fin 0.
Proof. split; vm_compute; reflexivity. Qed.

(* ================================================================== *)
(** * StatsCalculator *)
(* ================================================================== *)

Lemma Math_round_nearest (q : Q) :
  (q - (1 # 2) < inject_Z (Qfloor (q + (1 # 2))) <= q + (1 # 2))%Q.
Proof.
  pose proof (Qfloor_le (q + (1 # 2))) as Hle.
  pose proof (Qlt_floor (q + (1 # 2))) as Hlt.
  rewrite inject_Z_plus in Hlt. split; [|exact Hle].
  change (inject_Z 1) with 1%Q in Hlt. lra.
Qed.

(** The digit sent after the point is the integer closest to ten times the
    value. *)
Lemma tenths_nearest (q : Q) :
  (q * 10 - (1 # 2) < inject_Z (tenths q) <= q * 10 + (1 # 2))%Q.
Proof. apply Math_round_nearest. Qed.

Lemma has_positive_response_time_iff (o : Observation) :
  has_positive_response_time o = true <->
  exists q, response_time o = Some q /\ (0 < q)%Q.
Proof.
  unfold has_positive_response_time.
  destruct (response_time o) as [q|].
  - rewrite andb_true_iff, negb_true_iff, Qlt_bool_iff. split.
    + intros [_ Hq]. eauto.
    + intros (q' & [= <-] & Hq). split; [|exact Hq].
      destruct (Qeq_bool q 0) eqn:E; [|reflexivity].
      apply Qeq_bool_iff in E. lra.
  - split; [discriminate | intros (q & Hq & _); discriminate].
Qed.

Lemma positive_response_times_filter (S : list Observation) :
  positive_response_times (filter has_positive_response_time S) =
  positive_response_times S.
Proof.
  induction S as [|o S IH]; simpl; [reflexivity|].
  unfold has_positive_response_time at 1.
  destruct (response_time o) as [q|] eqn:E; simpl.
  - destruct (Qlt_bool 0 q) eqn:Hq.
    + assert (Hz : Qeq_bool q 0 = false).
      { destruct (Qeq_bool q 0) eqn:Ez; [|reflexivity].
        apply Qeq_bool_iff in Ez. apply Qlt_bool_iff in Hq. lra. }
      rewrite Hz. simpl. rewrite E, Hq. simpl. now rewrite IH.
    + rewrite andb_false_r. exact IH.
  - exact IH.
Qed.

Lemma positive_response_times_length (S : list Observation) :
  len (positive_response_times S) = len (filter has_positive_response_time S).
Proof.
  unfold len. f_equal.
  induction S as [|o S IH]; simpl; [reflexivity|].
  unfold has_positive_response_time at 1.
  destruct (response_time o) as [q|]; simpl; [|exact IH].
  destruct (Qlt_bool 0 q) eqn:Hq; simpl.
  - assert (Hz : Qeq_bool q 0 = false).
    { destruct (Qeq_bool q 0) eqn:Ez; [|reflexivity].
      apply Qeq_bool_iff in Ez. apply Qlt_bool_iff in Hq. lra. }
    rewrite Hz. simpl. now rewrite IH.
  - rewrite andb_false_r. exact IH.
Qed.

(** The [reduce] over observations that all carry a positive response time
    is the finite sum of those times. *)
Lemma sum_response_time_finite (S : list Observation) (acc : Q) :
  Forall (fun o => has_positive_response_time o = true) S ->
  exists q, fold_left (fun a o => number_add a (to_number (response_time o)))
                      S (Fin acc) = Fin q
            /\ (q == acc + Qsum (positive_response_times S))%Q.
Proof.
  revert acc. induction S as [|o S IH]; intros acc HS; simpl.
  - exists acc. split; [reflexivity|]. simpl. lra.
  - inversion HS as [|? ? Ho HS']; subst.
    apply has_positive_response_time_iff in Ho.
    destruct Ho as (q & Eq & Hq). rewrite Eq. simpl.
    apply Qlt_bool_iff in Hq. rewrite Hq. simpl.
    destruct (IH (acc + q)%Q HS') as (r & Hr & Hrq).
    exists r. split; [exact Hr|]. rewrite Hrq. lra.
Qed.

Lemma filter_Forall {A} (f : A -> bool) (l : list A) :
  Forall (fun x => f x = true) (filter f l).
Proof. apply Forall_forall. intros x Hx. now apply filter_In in Hx. Qed.

Lemma inject_Z_nonzero (n : Z) : n <> 0%Z -> Qeq_bool (inject_Z n) 0 = false.
Proof.
  intro Hn. destruct (Qeq_bool (inject_Z n) 0) eqn:E; [|reflexivity].
  apply Qeq_bool_iff in E. unfold Qeq, inject_Z in E. simpl in E. lia.
Qed.

Lemma number_div_finite (a : Q) (n : Z) :
  n <> 0%Z -> number_div (Fin a) (num n) = Fin (a / inject_Z n).
Proof.
  intro Hn. unfold num, number_div. now rewrite inject_Z_nonzero.
Qed.

Lemma count_reviewed_bounds (S : list Observation) :
  (0 <= count_reviewed S <= len S)%Z.
Proof.
  unfold count_reviewed, len. split; [lia|].
  apply inj_le, filter_length_le.
Qed.

Lemma reviewed_fraction_range (S : list Observation) :
  S <> [] ->
  (0 <= inject_Z (count_reviewed S) / inject_Z (len S) <= 1)%Q.
Proof.
  intro HS.
  pose proof (count_reviewed_bounds S) as [H0 H1].
  assert (Hlen : (0 < len S)%Z).
  { pose proof (len_nonneg S). pose proof (len_zero_iff S). 
    destruct (Z.eq_dec (len S) 0); [tauto | lia]. }
  assert (Hl : (0 < inject_Z (len S))%Q) by (unfold Qlt, inject_Z; simpl; lia).
  assert (Hr0 : (0 <= inject_Z (count_reviewed S))%Q)
    by (unfold Qle, inject_Z; simpl; lia).
  assert (Hr1 : (inject_Z (count_reviewed S) <= inject_Z (len S))%Q)
    by (unfold Qle, inject_Z; simpl; lia).
  split.
  - apply Qle_shift_div_l; [exact Hl | lra].
  - apply Qle_shift_div_r; [exact Hl | lra].
Qed.

(** The percentage of a non-empty set is a double between 0 and 100. *)
Lemma review_percentage_range (S : list Observation) :
  S <> [] ->
  exists p, review_percentage S = Fin p /\ (0 <= p <= 100)%Q.
Proof.
  intro HS. unfold review_percentage.
  assert (Hlen : len S <> 0%Z) by now rewrite len_zero_iff.
  unfold double_div. change (num (count_reviewed S))
    with (Fin (inject_Z (count_reviewed S))).
  rewrite number_div_finite by exact Hlen. cbn [rounded].
  destruct (reviewed_fraction_range HS) as [Hf0 Hf1].
  destruct (@round64_integer _ 1 Hf0 Hf1) as (v & Hv & Hv0 & Hv1); [lia|].
  rewrite Hv. unfold double_mul, num. cbn [number_mul rounded].
  change (inject_Z 1) with 1%Q in Hv1.
  assert (Hp0 : (0 <= v * inject_Z 100)%Q)
    by (change (inject_Z 100) with 100%Q; lra).
  assert (Hp1 : (v * inject_Z 100 <= inject_Z 100)%Q)
    by (change (inject_Z 100) with 100%Q; lra).
  destruct (@round64_integer _ 100 Hp0 Hp1) as (p & Hp & Hpr); [lia|].
  exists p. split; [exact Hp | exact Hpr].
Qed.

(** A string with a decimal point is not the string ["NaN"]. *)
Lemma pointed_not_NaN (s1 s2 : string) :
  (s1 ++ "." ++ s2)%string <> "NaN"%string.
Proof.
  destruct s1 as [|c1 [|c2 [|c3 [|c4 s1]]]]; simpl; intro E;
    inversion E.
Qed.

Lemma toFixed1_nonneg_not_NaN (q : Q) : toFixed1_nonneg q <> "NaN"%string.
Proof. apply pointed_not_NaN. Qed.

(** [StatsUtils.calculateObservationStats] meets the contract of the
    aggregate: the average is [0] without a positive response time and the
    rounded mean otherwise, the review rate is ["0.0"] for the empty set and
    the percentage, as doubles give it, with one decimal otherwise, and
    neither is ever [NaN]. *)
Lemma StatsUtils_calculateObservationStats_guarded (S : list Observation) :
  Stats.total (StatsUtils.calculateObservationStats S) = len S
  /\ Stats.avgResponseTime (StatsUtils.calculateObservationStats S) =
       match positive_response_times S with
       | [] => Fin 0
       | l => num (Qfloor (mean l + (1 # 2)))
       end
  /\ Stats.reviewRate (StatsUtils.calculateObservationStats S) =
       match S with
       | [] => "0.0"%string
       | _ => toFixed1 (review_percentage S)
       end
  /\ is_NaN (Stats.avgResponseTime (StatsUtils.calculateObservationStats S))
     = false
  /\ Stats.reviewRate (StatsUtils.calculateObservationStats S)
     <> "NaN"%string.
Proof.
  assert (Havg : Stats.avgResponseTime (StatsUtils.calculateObservationStats S)
                 = match positive_response_times S with
                   | [] => Fin 0
                   | l => num (Qfloor (mean l + (1 # 2)))
                   end).
  { unfold StatsUtils.calculateObservationStats.
    destruct (len S =? 0)%Z eqn:E0.
    - apply Z.eqb_eq, len_zero_iff in E0. subst S. reflexivity.
    - cbv zeta. cbn [Stats.avgResponseTime].
      rewrite <- positive_response_times_length.
      rewrite <- (positive_response_times_filter S).
      destruct (sum_response_time_finite 0 (filter_Forall
                  has_positive_response_time S)) as (q & Hq & Hqs).
      unfold sum_response_time. rewrite Hq.
      rewrite (positive_response_times_filter S) in *.
      destruct (positive_response_times S) as [|r l] eqn:El;
        [reflexivity|].
      remember (r :: l) as rs eqn:Ers.
      assert (Hpos : (0 < len rs)%Z) by (subst rs; unfold len; simpl; lia).
      rewrite (proj2 (Z.ltb_lt _ _) Hpos).
      rewrite number_div_finite by lia.
      unfold Math_round, num. do 2 f_equal.
      apply Qfloor_comp. unfold mean. rewrite Hqs.
      rewrite Qplus_0_l. reflexivity. }
  assert (Hrate : Stats.reviewRate (StatsUtils.calculateObservationStats S)
                  = match S with
                    | [] => "0.0"%string
                    | _ => toFixed1 (review_percentage S)
                    end).
  { unfold StatsUtils.calculateObservationStats.
    destruct S as [|o S']; [reflexivity|].
    remember (o :: S') as S eqn:ES.
    assert (Hlen : (0 < len S)%Z) by (subst; unfold len; simpl; lia).
    replace (len S =? 0)%Z with false by (symmetry; apply Z.eqb_neq; lia).
    cbv zeta. cbn [Stats.reviewRate].
    now rewrite (proj2 (Z.ltb_lt _ _) Hlen). }
  split; [|split; [exact Havg|split; [exact Hrate|split]]].
  - unfold StatsUtils.calculateObservationStats.
    destruct (len S =? 0)%Z eqn:E0; simpl; [|reflexivity].
    apply Z.eqb_eq in E0. now rewrite E0.
  - rewrite Havg. now destruct (positive_response_times S).
  - rewrite Hrate. destruct S as [|o S']; [discriminate|].
    destruct (@review_percentage_range (o :: S')) as (p & Hp & Hp0 & _);
      [discriminate|].
    rewrite Hp. unfold toFixed1.
    apply Qlt_bool_false_iff in Hp0. rewrite Hp0.
    apply toFixed1_nonneg_not_NaN.
Qed.

(** C1.  [calculateStats] of App.js divides without a guard: on the empty
    filtered set its average response time is [NaN] and its review rate is
    the string ["NaN"]; on a set without any response time the average is
    [NaN] as well. *)
Theorem C1_App_calculateStats_NaN :
  Stats.avgResponseTime (App.calculateStats []) = NaN
  /\ Stats.reviewRate (App.calculateStats []) = "NaN"%string
  /\ Stats.avgResponseTime
       (App.calculateStats
          [mkObservation "obs_0" risk 19 72 0 pending None]) = NaN.
Proof. repeat split. Qed.

(* ================================================================== *)
(** * The statistics shown: viewport or filtered set *)
(* ================================================================== *)

Lemma calculateObservationStats_total (S : list Observation) :
  Stats.total (StatsUtils.calculateObservationStats S) = len S.
Proof. apply StatsUtils_calculateObservationStats_guarded. Qed.

(** C10.  The statistics are those of the visible observations when there
    is at least one, and those of the whole filtered set when there is
    none: with no visible observation the total shown is the size of the
    filtered set. *)
Theorem C10_stats_fall_back (visible filtered : list Observation) :
  (visible <> [] /\
     stats visible filtered = StatsUtils.calculateObservationStats visible
   \/ visible = [] /\
     stats visible filtered = StatsUtils.calculateObservationStats filtered)
  /\ stats [] filtered = StatsUtils.calculateObservationStats filtered
  /\ Stats.total (stats [] filtered) = len filtered.
Proof.
  split; [|split].
  - destruct visible as [|o visible]; [right|left]; split;
      try reflexivity; discriminate.
  - reflexivity.
  - apply calculateObservationStats_total.
Qed.

(* ================================================================== *)
(** * PatternAnalyzer: city-wide *)
(* ================================================================== *)

(** ** The keys of the zone set name the grid cells one to one *)

Lemma no_underscore_uint (d : Decimal.uint) :
  no_char "_"%char (NilEmpty.string_of_uint d) = true.
Proof. induction d; simpl; auto. Qed.

Lemma no_underscore_integer (n : Z) :
  no_char "_"%char (String_of_integer n) = true.
Proof.
  unfold String_of_integer, NilZero.string_of_int, NilZero.string_of_uint.
  destruct (Z.to_int n) as [d|d]; destruct d; simpl;
    auto using no_underscore_uint.
Qed.

(** The decimal digits of an integer have no letter [I] or [N]: they are
    not the name of a special value. *)
Lemma no_letter_uint (d : Decimal.uint) :
  no_char "I"%char (NilEmpty.string_of_uint d) = true
  /\ no_char "N"%char (NilEmpty.string_of_uint d) = true.
Proof. induction d; simpl; tauto. Qed.

Lemma no_letter_integer (n : Z) :
  no_char "I"%char (String_of_integer n) = true
  /\ no_char "N"%char (String_of_integer n) = true.
Proof.
  unfold String_of_integer, NilZero.string_of_int, NilZero.string_of_uint.
  destruct (Z.to_int n) as [d|d]; destruct d; simpl;
    auto using no_letter_uint.
Qed.

Lemma integer_not_special (n : Z) :
  String_of_integer n <> "Infinity"%string
  /\ String_of_integer n <> "-Infinity"%string
  /\ String_of_integer n <> "NaN"%string.
Proof.
  destruct (no_letter_integer n) as [HI HN].
  repeat split; intro E; rewrite E in *; discriminate.
Qed.

Lemma append_separator_inj (c : Ascii.ascii) (s1 s2 t1 t2 : string) :
  no_char c s1 = true -> no_char c s2 = true ->
  (s1 ++ String c t1)%string = (s2 ++ String c t2)%string ->
  s1 = s2 /\ t1 = t2.
Proof.
  revert s2. induction s1 as [|a s1 IH]; intros [|b s2] H1 H2 E; simpl in *.
  - inversion E. auto.
  - inversion E; subst. rewrite Ascii.eqb_refl in H2. discriminate.
  - inversion E; subst. rewrite Ascii.eqb_refl in H1. discriminate.
  - inversion E; subst.
    apply andb_true_iff in H1 as [_ H1]. apply andb_true_iff in H2 as [_ H2].
    destruct (IH s2 H1 H2 H3) as [-> ->]. auto.
Qed.

Lemma to_int_not_nil (n : Z) :
  Z.to_int n <> Decimal.Pos Decimal.Nil /\
  Z.to_int n <> Decimal.Neg Decimal.Nil.
Proof.
  destruct n as [|p|p]; simpl; split; try discriminate;
    intro E; inversion E as [E'];
    pose proof (DecimalPos.Unsigned.to_uint_nonnil p); congruence.
Qed.

Lemma String_of_integer_inj (a b : Z) :
  String_of_integer a = String_of_integer b -> a = b.
Proof.
  unfold String_of_integer. intro E.
  apply DecimalZ.to_int_inj.
  destruct (to_int_not_nil a) as [Ha1 Ha2].
  destruct (to_int_not_nil b) as [Hb1 Hb2].
  pose proof (NilZero.isi _ Ha1 Ha2) as Ia.
  pose proof (NilZero.isi _ Hb1 Hb2) as Ib.
  rewrite E in Ia. congruence.
Qed.

Lemma String_of_floor_finite (a : Q) :
  String_of_number (Math_floor_number (Fin a)) = String_of_integer (Qfloor a).
Proof.
  unfold Math_floor_number, Math_floor, num, String_of_number.
  now rewrite Qfloor_Z.
Qed.

(** The string of a floor names it: a whole number by its digits, a special
    value by its name. *)
Lemma String_of_floor_inj (x y : number) :
  String_of_number (Math_floor_number x)
  = String_of_number (Math_floor_number y) ->
  Math_floor_number x = Math_floor_number y.
Proof.
  destruct x as [a| | |], y as [b| | |];
    rewrite ?String_of_floor_finite;
    cbn [Math_floor_number String_of_number]; intro E;
    try reflexivity; try discriminate;
    try (destruct (integer_not_special (Qfloor a)) as (H1 & H2 & H3);
         congruence);
    try (destruct (integer_not_special (Qfloor b)) as (H1 & H2 & H3);
         congruence).
  apply String_of_integer_inj in E. unfold Math_floor. now rewrite E.
Qed.

Lemma no_underscore_floor (x : number) :
  no_char "_"%char (String_of_number (Math_floor_number x)) = true.
Proof.
  destruct x; [|reflexivity..].
  rewrite String_of_floor_finite. apply no_underscore_integer.
Qed.

(** Two observations have the same key exactly when they are in the same
    grid cell. *)
Lemma zone_key_inj (a b : Observation) :
  zone_key a = zone_key b -> grid_cell a = grid_cell b.
Proof.
  unfold zone_key, grid_cell. intro E.
  apply append_separator_inj in E; auto using no_underscore_floor.
  destruct E as [Ea Eb].
  apply String_of_floor_inj in Ea, Eb. congruence.
Qed.

Lemma grid_cell_zone_key (a b : Observation) :
  grid_cell a = grid_cell b -> zone_key a = zone_key b.
Proof. unfold zone_key, grid_cell. intros [= -> ->]. reflexivity. Qed.

(** ** The set of keys *)

Lemma existsb_eqb_In (k : string) (s : list string) :
  existsb (String.eqb k) s = true <-> In k s.
Proof.
  rewrite existsb_exists. split.
  - intros (x & Hx & E). apply String.eqb_eq in E. now subst.
  - intro Hk. exists k. split; [exact Hk | apply String.eqb_refl].
Qed.

Lemma Set_add_In (s : list string) (k x : string) :
  In x (Set_add s k) <-> In x s \/ x = k.
Proof.
  unfold Set_add. destruct (existsb (String.eqb k) s) eqn:E.
  - apply existsb_eqb_In in E. split; [tauto|]. intros [Hx| ->]; auto.
  - rewrite in_app_iff. simpl. intuition.
Qed.

Lemma Set_add_NoDup (s : list string) (k : string) :
  NoDup s -> NoDup (Set_add s k).
Proof.
  intro Hs. unfold Set_add. destruct (existsb (String.eqb k) s) eqn:E; auto.
  apply NoDup_app; auto.
  - constructor; [simpl; tauto | constructor].
  - intros x Hx [<-|[]]. apply existsb_eqb_In in Hx. congruence.
Qed.

Lemma Set_fold_spec (keys acc : list string) :
  NoDup acc ->
  NoDup (fold_left Set_add keys acc)
  /\ forall x, In x (fold_left Set_add keys acc) <-> In x acc \/ In x keys.
Proof.
  revert acc. induction keys as [|k keys IH]; intros acc Hacc; simpl.
  - split; [exact Hacc | tauto].
  - destruct (IH (Set_add acc k) (Set_add_NoDup k Hacc)) as [Hn Hin].
    split; [exact Hn|]. intro x. rewrite Hin, Set_add_In. intuition.
Qed.

(** The distinct values of a function and of another one that separates
    the same elements are as many. *)
Lemma nodup_length_separate {A B C}
    (decB : forall x y : B, {x = y} + {x <> y})
    (decC : forall x y : C, {x = y} + {x <> y})
    (f : A -> B) (g : A -> C) (l : list A) :
  (forall a b, f a = f b <-> g a = g b) ->
  List.length (nodup decB (map f l)) = List.length (nodup decC (map g l)).
Proof.
  intro Hfg. induction l as [|x l IH]; [reflexivity|].
  cbn [map nodup].
  assert (Hin : In (f x) (map f l) <-> In (g x) (map g l)).
  { rewrite !in_map_iff. split; intros (y & E & Hy); exists y;
      (split; [apply Hfg; exact E | exact Hy]). }
  destruct (in_dec decB (f x) (map f l)) as [Hf|Hf];
    destruct (in_dec decC (g x) (map g l)) as [Hg|Hg];
    cbn [List.length]; try tauto; now rewrite IH.
Qed.

(** The size of the set of keys is the number of distinct cells. *)
Lemma Set_of_zone_keys_size (l : list Observation) :
  len (Set_of (map zone_key l)) = len (distinct_cells l).
Proof.
  unfold len. f_equal.
  destruct (Set_fold_spec (map zone_key l) (NoDup_nil string)) as [Hn Hin].
  fold (Set_of (map zone_key l)) in Hn, Hin.
  transitivity (List.length (nodup string_dec (map zone_key l))).
  - apply Permutation_length, NoDup_Permutation.
    + exact Hn.
    + apply NoDup_nodup.
    + intro k. rewrite Hin, nodup_In. simpl. tauto.
  - unfold distinct_cells. apply nodup_length_separate.
    intros a b. split; [apply zone_key_inj | apply grid_cell_zone_key].
Qed.

(** ** The two halves of the window and the trend *)






(** With no older observation, any positive recent count is increasing. *)
Lemma classify_trend_no_older (recentCount : positive) :
  classify_trend (Z.pos recentCount) 0 = increasing.
Proof. reflexivity. Qed.


(* ================================================================== *)
(** * PatternAnalyzer: local *)
(* ================================================================== *)

(** ** The ascending sort *)











Section LocalPatternFacts.

Context {math : Math.Library}.

(** [getDistance] computes the haversine distance of the specification. *)
Lemma getDistance_haversine (lat1 lng1 lat2 lng2 : Q) :
  MapUtils.getDistance lat1 lng1 lat2 lng2
  = haversine_distance lat1 lng1 lat2 lng2.
Proof.
  unfold MapUtils.getDistance, haversine_distance, central_angle, haversine,
    sin_half, radians, earth_radius.
  cbv zeta. reflexivity.
Qed.

Lemma local_filter (reference : Observation) (filtered : list Observation)
    (radiusMeters : Q) (windowMs : number) (now : Q) :
  fst (local reference filtered radiusMeters windowMs now)
  = filter (fun o => type_eqb (type o) (type reference)
                     && number_leb (distanceMeters reference o)
                                   (Fin radiusMeters))
           filtered.
Proof.
  unfold local, PatternUtils.getNearbyObservations. cbn [fst].
  rewrite filter_filter. apply filter_ext. intro o.
  unfold distanceMeters. now rewrite getDistance_haversine.
Qed.


End LocalPatternFacts.

(* ================================================================== *)
(** * SpatialMath *)
(* ================================================================== *)

Section DoubleArithmetic.

Local Open Scope Q_scope.






Lemma number_eq_refl (x : number) : number_eq x x.
Proof. destruct x; simpl; auto. reflexivity. Qed.









End DoubleArithmetic.

Section DistanceFacts.

Local Open Scope Q_scope.

Context {math : Math.Library} {laws : Math.Laws math}.





Lemma double_mul_zero_r (q : Q) : double_mul (Fin q) (Fin 0) = Fin 0.
Proof. unfold double_mul. simpl. apply round64_zero. ring. Qed.

Lemma double_div_zero (c : Z) :
  c <> 0%Z -> double_div (Fin 0) (num c) = Fin 0.
Proof.
  intro Hc. unfold double_div, num, number_div.
  assert (E : Qeq_bool (inject_Z c) 0 = false).
  { destruct (Qeq_bool (inject_Z c) 0) eqn:E; [|reflexivity].
    apply Qeq_bool_iff in E. unfold Qeq in E. simpl in E. lia. }
  rewrite E. simpl. apply round64_zero. unfold Qdiv. ring.
Qed.

Lemma radians_zero : radians (Fin 0) = Fin 0.
Proof. reflexivity. Qed.

Lemma sin_half_zero : sin_half (Fin 0) = Fin 0.
Proof.
  unfold sin_half. rewrite double_div_zero by discriminate.
  apply Math.sin_zero.
Qed.

Lemma central_angle_zero : central_angle (Fin 0) = Fin 0.
Proof.
  unfold central_angle. rewrite Math.sqrt_zero.
  change (double_sub (num 1) (Fin 0)) with (Fin 1).
  rewrite Math.sqrt_one, Math.atan2_zero by reflexivity.
  reflexivity.
Qed.

(** The radians of a latitude are finite. *)
Lemma radians_finite (lat : Q) :
  valid_latitude lat -> exists p, radians (Fin lat) = Fin p.
Proof.
  unfold valid_latitude. intro Hlat. unfold radians, double_mul, Math.PI. simpl.
  set (pi := 884279719003555 # 281474976710656).
  assert (Hpi : 0 <= pi <= 4) by (split; unfold Qle; simpl; lia).
  assert (Hm : Qabs (lat * pi) <= 2 ^ 9).
  { apply Qabs_Qle_condition. change (2 ^ 9) with 512. split; nra. }
  destruct (round64_power _ Hm) as (p & Hp & Hpk); [lia|].
  rewrite Hp. unfold double_div, num. simpl.
  assert (Hd : Qabs (p / inject_Z 180) <= 2 ^ 9).
  { apply Qabs_Qle_condition in Hpk. apply Qabs_Qle_condition.
    change (2 ^ 9) with 512 in *. change (inject_Z 180) with 180.
    split.
    - apply Qle_shift_div_l; [reflexivity | lra].
    - apply Qle_shift_div_r; [reflexivity | lra]. }
  destruct (round64_power _ Hd) as (r & Hr & _); [lia|].
  exists r. exact Hr.
Qed.

(** Between a point and itself the haversine is 0. *)
Lemma haversine_self (lat : Q) :
  valid_latitude lat ->
  haversine (radians (Fin lat)) (radians (Fin lat)) (Fin 0) (Fin 0) = Fin 0.
Proof.
  intro Hlat. destruct (radians_finite Hlat) as (p & Hp).
  unfold haversine. rewrite Hp, sin_half_zero.
  destruct (Math.cos_bounded p) as (c & Hc & Hc1). rewrite Hc.
  assert (Hcc : Qabs (c * c) <= 2 ^ 0).
  { apply Qabs_Qle_condition in Hc1. apply Qabs_Qle_condition.
    change (2 ^ 0) with 1. split; nra. }
  change (double_mul (Fin c) (Fin c)) with (round64 (c * c)).
  destruct (round64_power _ Hcc) as (r & Hr & _); [lia|].
  rewrite Hr, !double_mul_zero_r. reflexivity.
Qed.

Lemma double_sub_self (a b : Q) :
  a == b -> double_sub (Fin a) (Fin b) = Fin 0.
Proof. intro E. unfold double_sub. simpl. apply round64_zero. lra. Qed.

(** The distance from a point to itself is 0. *)
Lemma haversine_distance_self (lat1 lng1 lat2 lng2 : Q) :
  valid_latitude lat1 -> lat1 == lat2 -> lng1 == lng2 ->
  haversine_distance lat1 lng1 lat2 lng2 = Fin 0.
Proof.
  intros Hlat Elat Elng. unfold haversine_distance.
  rewrite (@double_sub_self lat2 lat1), (@double_sub_self lng2 lng1)
    by (symmetry; assumption).
  rewrite radians_zero.
  assert (E2 : radians (Fin lat2) = radians (Fin lat1)).
  { unfold radians, double_mul. simpl. f_equal.
    apply round64_comp. now rewrite Elat. }
  rewrite E2, (haversine_self Hlat), central_angle_zero. reflexivity.
Qed.


End DistanceFacts.

(** ** The approximate library meets the laws *)

Section ApproxMathFacts.

Local Open Scope Q_scope.

Lemma Qabs_opp_eq (q : Q) : Qabs (- q) = Qabs q.
Proof.
  destruct q as [n d]. unfold Qabs, Qopp. simpl. now rewrite Z.abs_opp.
Qed.

Lemma horner_comp (cs : list Q) (x y : Q) :
  x == y -> ApproxMath.horner cs x == ApproxMath.horner cs y.
Proof.
  intro E. induction cs as [|c cs IH]; simpl; [reflexivity|].
  now rewrite IH, E.
Qed.

Lemma sin_series_opp (q : Q) :
  ApproxMath.sin_series (- q) == - ApproxMath.sin_series q.
Proof.
  unfold ApproxMath.sin_series.
  assert (E : - q * - q == q * q) by ring.
  rewrite (horner_comp _ E). ring.
Qed.

Lemma clamp_range (v : Q) : Qabs (ApproxMath.clamp v) <= 2 ^ 0.
Proof.
  unfold ApproxMath.clamp. change (2 ^ 0) with 1.
  destruct (Qle_bool 1 v) eqn:E1; [discriminate|].
  destruct (Qle_bool v (- (1))) eqn:E2; [discriminate|].
  apply Qabs_Qle_condition. split.
  - apply Qlt_le_weak, Qnot_le_lt. intro H. apply Qle_bool_iff in H.
    congruence.
  - apply Qlt_le_weak, Qnot_le_lt. intro H. apply Qle_bool_iff in H.
    congruence.
Qed.

Lemma Qle_bool_false (x y : Q) : Qle_bool x y = false <-> y < x.
Proof.
  split.
  - intro E. apply Qnot_le_lt. intro H. apply Qle_bool_iff in H. congruence.
  - intro H. destruct (Qle_bool x y) eqn:E; [|reflexivity].
    apply Qle_bool_iff in E. lra.
Qed.

Lemma clamp_opp (u v : Q) :
  u == - v -> ApproxMath.clamp u == - ApproxMath.clamp v.
Proof.
  intro E. unfold ApproxMath.clamp.
  destruct (Qle_bool 1 v) eqn:V1; [apply Qle_bool_iff in V1
                                  | apply Qle_bool_false in V1];
  destruct (Qle_bool v (- (1))) eqn:V2; [apply Qle_bool_iff in V2
                                        | apply Qle_bool_false in V2
                                        | apply Qle_bool_iff in V2
                                        | apply Qle_bool_false in V2];
  destruct (Qle_bool 1 u) eqn:U1; [apply Qle_bool_iff in U1
                                  | apply Qle_bool_false in U1
                                  | apply Qle_bool_iff in U1
                                  | apply Qle_bool_false in U1
                                  | apply Qle_bool_iff in U1
                                  | apply Qle_bool_false in U1
                                  | apply Qle_bool_iff in U1
                                  | apply Qle_bool_false in U1];
  destruct (Qle_bool u (- (1))) eqn:U2;
    try apply Qle_bool_iff in U2; try apply Qle_bool_false in U2;
    lra.
Qed.

Lemma ApproxMath_laws : Math.Laws ApproxMath.library.
Proof.
  constructor; cbn [Math.sin Math.cos Math.sqrt Math.atan2
                    ApproxMath.library].
  - reflexivity.
  - intros [q| | |]; try reflexivity.
    cbn [number_neg ApproxMath.sin]. rewrite Qabs_opp_eq.
    destruct (Qle_bool (Qabs q) (2 ^ (-27))).
    + cbn [number_neg]. now rewrite Qred_opp.
    + rewrite <- round64_opp. apply round64_comp, clamp_opp, sin_series_opp.
  - intros q Hq. unfold ApproxMath.sin.
    apply Qle_bool_iff in Hq. rewrite Hq.
    exists (Qred q). split; [reflexivity|]. rewrite Qred_correct. lra.
  - vm_compute. reflexivity.
  - intro q. unfold ApproxMath.cos.
    destruct (round64_power _ (clamp_range (ApproxMath.cos_series q)))
      as (c & Hc & Hc1); [lia|].
    exists c. split; [exact Hc | exact Hc1].
  - reflexivity.
  - vm_compute. reflexivity.
  - intros x Hx. unfold ApproxMath.atan2.
    change (Qcompare 0 0) with Eq.
    apply Qgt_alt in Hx. now rewrite Hx.
Qed.

End ApproxMathFacts.


(** With the approximate library [getDistance(19.076, 72.8777, 19.0176,
    72.8561)] is the double [6879.212538014381]. *)
Example getDistance_of_literals :
  @MapUtils.getDistance ApproxMath.library
    (literal (19076 # 1000)) (literal (728777 # 10000))
    (literal (190176 # 10000)) (literal (728561 # 10000))
  = Fin (1890943543872315 # 274877906944).
Proof. vm_compute. reflexivity. Qed.

(** At the latitude [2 ^ 1023], a double, [lat * Math.PI] overflows to
    [Infinity], whose cosine is [NaN]: the distance from the point to
    itself is [NaN], and the point is not within any radius of itself. *)
Example getDistance_beyond_latitudes :
  @MapUtils.getDistance ApproxMath.library (2 ^ 1023) 0 (2 ^ 1023) 0 = NaN
  /\ forall radiusMeters : Q,
       number_leb (@MapUtils.getDistance ApproxMath.library
                     (2 ^ 1023) 0 (2 ^ 1023) 0)
                  (Fin radiusMeters)
       = false.
Proof.
  assert (E : @MapUtils.getDistance ApproxMath.library
                (2 ^ 1023) 0 (2 ^ 1023) 0 = NaN)
    by (vm_compute; reflexivity).
  split; [exact E|]. intro r. rewrite E. reflexivity.
Qed.



(* ================================================================== *)
(** * PatternModeController and the selection *)
(* ================================================================== *)

Section ComponentFacts.

Context {M : Type} {leaflet : LeafletMap M} {math : Math.Library}.
Variable observations : list Observation.

Abbreviation St := (@State M).
Abbreviation Ev := (@Event M).

Local Ltac case_state s :=
  destruct s as [lens0 tf0 zl0 sel0 exp0 sb0 vis0 pm0 pd0 sv0 map0 circ0
                 fil0 lis0].

(** ** The effect *)

Lemma deselect_check_listed (s : St) : selection_listed (deselect_check s).
Proof.
  unfold deselect_check, selection_listed.
  destruct (selectedObservation s) as [sel|] eqn:E; [|now rewrite E].
  destruct (existsb _ (filtered s)) eqn:Ex; simpl.
  - now rewrite E.
  - case_state s. exact I.
Qed.

Lemma deselect_check_fixed (s : St) :
  selection_listed s -> deselect_check s = s.
Proof.
  unfold deselect_check, selection_listed.
  destruct (selectedObservation s) as [sel|]; [|reflexivity].
  now intros ->.
Qed.

(** The effect keeps the selection or clears it together with the
    expanded flag, and touches nothing else. *)
Lemma deselect_check_cases (s : St) :
  deselect_check s = s \/ deselect_check s = with_selection s None false.
Proof.
  unfold deselect_check.
  destruct (selectedObservation s) as [sel|]; [|now left].
  destruct (existsb _ (filtered s)); simpl; auto.
Qed.

Lemma with_selection_none_consistent (s : St) :
  mode_consistent s -> mode_consistent (with_selection s None false).
Proof.
  case_state s. unfold mode_consistent; simpl.
  destruct pm0; tauto.
Qed.

Lemma with_selection_none_from_corpus (s : St) :
  from_corpus observations s ->
  from_corpus observations (with_selection s None false).
Proof.
  case_state s. unfold from_corpus; simpl.
  intros (Hf & Hs & Hv). repeat split; auto. discriminate.
Qed.

Lemma deselect_check_invariant (s : St) :
  mode_consistent s -> from_corpus observations s ->
  invariant observations (deselect_check s).
Proof.
  intros Hm Hc. split; [apply deselect_check_listed|].
  destruct (deselect_check_cases s) as [-> | ->]; split;
    auto using with_selection_none_consistent,
               with_selection_none_from_corpus.
Qed.

(** ** The viewport tracker touches the visible set only *)

Lemma updateVisibleObservations_visible (s : St) :
  exists visible, updateVisibleObservations s = with_visible s visible.
Proof.
  unfold updateVisibleObservations.
  destruct (mapInstance s) as [map|].
  - destruct (same_ids _ _); [|eauto].
    exists (visibleObservations s). now case_state s.
  - exists (visibleObservations s). now case_state s.
Qed.

Lemma trackViewport_visible (s : St) :
  exists visible registered,
    trackViewport s = with_visible (with_listening s registered) visible.
Proof.
  unfold trackViewport. destruct (mapInstance s) as [map|] eqn:E.
  - destruct (updateVisibleObservations_visible (with_listening s true))
      as [v ->].
    now exists v, true.
  - exists (visibleObservations s), (listening s). now case_state s.
Qed.

Lemma moved_visible (s t : St) :
  exists visible,
    (if listening s then updateVisibleObservations t else t)
    = with_visible t visible.
Proof.
  destruct (listening s).
  - apply updateVisibleObservations_visible.
  - exists (visibleObservations t). now case_state t.
Qed.

Lemma with_visible_consistent (s : St) (v : list Observation) :
  mode_consistent s -> mode_consistent (with_visible s v).
Proof. now case_state s. Qed.

Lemma with_visible_from_corpus (s : St) (v : list Observation) :
  from_corpus observations s -> from_corpus observations (with_visible s v).
Proof. now case_state s. Qed.

Lemma filteredData_incl (lens : Lens) (w : TimeWindowKey) (now : Q) :
  incl (filteredData observations lens w now) observations.
Proof. intros o Ho. now apply filteredData_In in Ho. Qed.

(** ** Every handler keeps the mode and the provenance consistent *)

Lemma handle_consistent (s : St) (e : Ev) :
  mode_consistent s -> mode_consistent (handle observations s e).
Proof.
  intro Hm. destruct e as [l now|w now|i| | |now|now| |map|map]; simpl.
  - unfold setLens. destruct (Lens_eqb l (lens s)); [exact Hm|].
    destruct (trackViewport_visible
                (with_filter s l (timeFilter s)
                   (filteredData observations l (timeFilter s) now)))
      as (v & registered & ->).
    apply with_visible_consistent. now case_state s.
  - unfold setTimeFilter.
    destruct (TimeWindowKey_eqb w (timeFilter s)); [exact Hm|].
    destruct (trackViewport_visible
                (with_filter s (lens s) w
                   (filteredData observations (lens s) w now)))
      as (v & registered & ->).
    apply with_visible_consistent. now case_state s.
  - destruct (nth_error (filtered s) i) as [obs|]; [|exact Hm].
    unfold markerClick. destruct (patternMode s) eqn:E; try exact Hm.
    case_state s. unfold mode_consistent in *. simpl in *.
    now subst pm0.
  - now apply with_selection_none_consistent.
  - unfold onToggleExpanded. case_state s. exact Hm.
  - unfold handleCityWidePattern.
    destruct (selectedObservation s) as [sel|]; [|exact Hm].
    destruct (mapInstance s) as [map|]; [|exact Hm].
    unfold mode_consistent; simpl. repeat split; discriminate.
  - unfold handleLocalPattern.
    destruct (selectedObservation s) as [sel|]; [|exact Hm].
    destruct (mapInstance s) as [map|]; [|exact Hm].
    unfold mode_consistent; simpl. repeat split; discriminate.
  - unfold handleClearPatternMode.
    destruct (mapInstance s) as [map|]; [|exact Hm].
    destruct (savedMapState s) as [saved|]; [|exact Hm].
    reflexivity.
  - unfold mapInit. destruct (mapInstance s) eqn:E; [exact Hm|].
    case_state s. unfold mode_consistent in *. simpl in *.
    subst map0. destruct pm0; tauto.
  - unfold mapMoved. destruct (mapInstance s) eqn:E; [|exact Hm].
    cbv zeta.
    destruct (moved_visible s
                (with_map s (Some map) (getZoom map))) as [v ->].
    apply with_visible_consistent.
    case_state s. unfold mode_consistent in *. simpl in *.
    destruct pm0; intuition discriminate.
Qed.

Lemma handle_from_corpus (s : St) (e : Ev) :
  from_corpus observations s ->
  from_corpus observations (handle observations s e).
Proof.
  intros Hc. destruct e as [l now|w now|i| | |now|now| |map|map]; simpl.
  - unfold setLens. destruct (Lens_eqb l (lens s)); [exact Hc|].
    destruct (trackViewport_visible
                (with_filter s l (timeFilter s)
                   (filteredData observations l (timeFilter s) now)))
      as (v & registered & ->).
    apply with_visible_from_corpus.
    case_state s. destruct Hc as (Hf & Hs & Hv).
    split; [apply filteredData_incl | split; assumption].
  - unfold setTimeFilter.
    destruct (TimeWindowKey_eqb w (timeFilter s)); [exact Hc|].
    destruct (trackViewport_visible
                (with_filter s (lens s) w
                   (filteredData observations (lens s) w now)))
      as (v & registered & ->).
    apply with_visible_from_corpus.
    case_state s. destruct Hc as (Hf & Hs & Hv).
    split; [apply filteredData_incl | split; assumption].
  - destruct (nth_error (filtered s) i) as [obs|] eqn:En; [|exact Hc].
    unfold markerClick. destruct (patternMode s); try exact Hc.
    apply nth_error_In in En.
    case_state s. destruct Hc as (Hf & Hs & Hv). simpl in *.
    split; [exact Hf | split; [|exact Hv]].
    intros o [= <-]. now apply Hf.
  - now apply with_selection_none_from_corpus.
  - unfold onToggleExpanded. case_state s. exact Hc.
  - unfold handleCityWidePattern.
    destruct (selectedObservation s) as [sel|] eqn:Es; [|exact Hc].
    destruct (mapInstance s) as [map|]; [|exact Hc].
    destruct Hc as (Hf & Hs & Hv).
    split; [exact Hf | split; simpl]; [discriminate|].
    intros saved o [= <-]. simpl. intros [= <-]. now apply Hs.
  - unfold handleLocalPattern.
    destruct (selectedObservation s) as [sel|] eqn:Es; [|exact Hc].
    destruct (mapInstance s) as [map|]; [|exact Hc].
    destruct Hc as (Hf & Hs & Hv).
    split; [exact Hf | split; simpl]; [discriminate|].
    intros saved o [= <-]. simpl. intros [= <-]. now apply Hs.
  - unfold handleClearPatternMode.
    destruct (mapInstance s) as [map|]; [|exact Hc].
    destruct (savedMapState s) as [saved|] eqn:Ev; [|exact Hc].
    destruct Hc as (Hf & Hs & Hv).
    split; [exact Hf | split; simpl]; [|discriminate].
    intros o Ho. eapply Hv; eauto.
  - unfold mapInit. destruct (mapInstance s); [exact Hc|].
    now case_state s.
  - unfold mapMoved. destruct (mapInstance s); [|exact Hc].
    cbv zeta.
    destruct (moved_visible s
                (with_map s (Some map) (getZoom map))) as [v ->].
    apply with_visible_from_corpus. now case_state s.
Qed.

Lemma initialState_invariant (now : Q) :
  invariant observations
    (deselect_check (@initialState M observations now)).
Proof.
  apply deselect_check_invariant.
  - reflexivity.
  - split; [apply filteredData_incl | split; discriminate].
Qed.

(** Every state the component reaches satisfies the invariant. *)
Lemma reachable_invariant (s : St) :
  reachable observations s -> invariant observations s.
Proof.
  induction 1 as [now|s e Hr (Hl & Hm & Hc)].
  - apply initialState_invariant.
  - apply deselect_check_invariant;
      auto using handle_consistent, handle_from_corpus.
Qed.

Lemma reachable_run (now : Q) (es : list Ev) :
  reachable observations
    (run observations
         (deselect_check (@initialState M observations now)) es).
Proof.
  unfold run.
  assert (G : forall s, reachable observations s ->
              reachable observations (fold_left (step observations) es s)).
  { induction es as [|e es IH]; intros s Hs; simpl; [exact Hs|].
    apply IH. now constructor. }
  apply G. constructor.
Qed.

(** ** Selection and filtered set *)

Lemma unique_id_member (l : list Observation) (a b : Observation) :
  NoDup (map id l) -> In a l -> In b l -> id a = id b -> a = b.
Proof.
  induction l as [|x l IH]; simpl; [tauto|].
  intros Hn Ha Hb E. inversion Hn as [|? ? Hx Hn']; subst.
  destruct Ha as [<-|Ha], Hb as [<-|Hb]; auto.
  - exfalso. apply Hx. rewrite E. now apply in_map.
  - exfalso. apply Hx. rewrite <- E. now apply in_map.
Qed.

Lemma listed_member (l : list Observation) (o : Observation) :
  NoDup (map id observations) -> incl l observations ->
  In o observations ->
  existsb (fun obs => String.eqb (id obs) (id o)) l = true -> In o l.
Proof.
  intros Hn Hl Ho Hex. apply existsb_exists in Hex.
  destruct Hex as (obs & Hobs & E). apply String.eqb_eq in E.
  assert (obs = o) by (eapply unique_id_member; eauto).
  now subst.
Qed.

(** The effect clears a selection that the filtered set has lost. *)
Lemma deselect_check_clears (t : St) (o : Observation) :
  NoDup (map id observations) -> from_corpus observations t ->
  selectedObservation t = Some o -> ~ In o (filtered t) ->
  selectedObservation (deselect_check t) = None
  /\ expandedDetail (deselect_check t) = false.
Proof.
  intros Hn (Hf & Hs & _) Ho Hnot. unfold deselect_check. rewrite Ho.
  destruct (existsb _ (filtered t)) eqn:Ex; simpl.
  - exfalso. apply Hnot. apply listed_member; auto.
  - now case_state t.
Qed.

Lemma filter_change_keeps_selection (s : St) (e : Ev) :
  is_filter_change e = true ->
  selectedObservation (handle observations s e) = selectedObservation s.
Proof.
  destruct e as [l now|w now|i| | |now|now| |map|map]; try discriminate;
    intros _; simpl.
  - unfold setLens. destruct (Lens_eqb l (lens s)); [reflexivity|].
    destruct (trackViewport_visible
                (with_filter s l (timeFilter s)
                   (filteredData observations l (timeFilter s) now)))
      as (v & registered & ->).
    now case_state s.
  - unfold setTimeFilter.
    destruct (TimeWindowKey_eqb w (timeFilter s)); [reflexivity|].
    destruct (trackViewport_visible
                (with_filter s (lens s) w
                   (filteredData observations (lens s) w now)))
      as (v & registered & ->).
    now case_state s.
Qed.

(** C9.  In every state the component reaches, with unique identifiers
    in the corpus, the selected observation is absent or a member of the
    filtered set; and when a change of lens or of time window leaves the
    selected observation outside the new filtered set, the interaction
    ends with no selection and with the expanded-detail flag reset. *)
Theorem C9_selection_in_filtered (s : St) :
  NoDup (map id observations) ->
  reachable observations s ->
  (selectedObservation s = None
   \/ exists o, selectedObservation s = Some o /\ In o (filtered s))
  /\ (forall (e : Ev) (o : Observation),
        is_filter_change e = true ->
        selectedObservation s = Some o ->
        ~ In o (filtered (handle observations s e)) ->
        selectedObservation (step observations s e) = None
        /\ expandedDetail (step observations s e) = false).
Proof.
  intros Hn Hr.
  destruct (reachable_invariant Hr) as (Hl & Hm & Hc).
  split.
  - destruct (selectedObservation s) as [o|] eqn:Eo; [right|now left].
    exists o. split; [reflexivity|].
    unfold selection_listed in Hl. rewrite Eo in Hl.
    destruct Hc as (Hf & Hs & _). apply listed_member; auto.
  - intros e o He Ho Hnot. unfold step.
    apply deselect_check_clears with (o := o); auto.
    + now apply handle_from_corpus.
    + now rewrite filter_change_keeps_selection.
Qed.

(** ** Entering and leaving a pattern mode *)

Lemma handleClearPatternMode_none (s : St) :
  savedMapState s = None -> handleClearPatternMode s = s.
Proof.
  intro E. unfold handleClearPatternMode. rewrite E.
  now destruct (mapInstance s).
Qed.

Lemma step_ClearPattern_none (s : St) :
  reachable observations s -> patternMode s = NONE ->
  step observations s ClearPattern = s.
Proof.
  intros Hr Hnone.
  destruct (reachable_invariant Hr) as (Hl & Hm & Hc).
  unfold mode_consistent in Hm. rewrite Hnone in Hm.
  unfold step. simpl handle. rewrite handleClearPatternMode_none by exact Hm.
  now apply deselect_check_fixed.
Qed.

Lemma deselect_check_mode (s : St) :
  patternMode (deselect_check s) = patternMode s.
Proof.
  destruct (deselect_check_cases s) as [-> | ->]; [reflexivity|].
  now case_state s.
Qed.

(** Clearing the pattern leaves the controller without pattern mode, from
    every reachable state, and clearing twice is clearing once. *)
Lemma step_ClearPattern_idempotent (s : St) :
  reachable observations s ->
  patternMode (step observations s ClearPattern) = NONE
  /\ step observations (step observations s ClearPattern) ClearPattern
     = step observations s ClearPattern.
Proof.
  intro Hr.
  assert (Hmode : patternMode (step observations s ClearPattern) = NONE).
  { destruct (reachable_invariant Hr) as (Hl & Hm & Hc).
    unfold step. rewrite deselect_check_mode. simpl handle.
    unfold handleClearPatternMode, mode_consistent in *.
    destruct (patternMode s) eqn:Ep.
    - rewrite Hm. now destruct (mapInstance s).
    - destruct Hm as (Hs & _ & Hmap).
      destruct (mapInstance s); [|congruence].
      destruct (savedMapState s); [reflexivity | congruence].
    - destruct Hm as (Hs & _ & Hmap).
      destruct (mapInstance s); [|congruence].
      destruct (savedMapState s); [reflexivity | congruence]. }
  split; [exact Hmode|].
  apply step_ClearPattern_none; [now constructor | exact Hmode].
Qed.

(** C6.  From a reachable state without pattern mode: entering the
    city-wide mode with a selected observation and a map saves the view
    and clears the selection; clearing the pattern right after the entry
    gives back the centre, the zoom and the selection of before the entry
    and leaves the controller without mode, data or saved view; and
    clearing the pattern without a pattern mode changes nothing. *)
Theorem C6_enter_then_clear (s : St) (now : Q) :
  LeafletMapLaws leaflet ->
  reachable observations s ->
  patternMode s = NONE ->
  (forall sel map,
      selectedObservation s = Some sel -> mapInstance s = Some map ->
      patternMode (step observations s (CityWidePattern now)) = CITY_WIDE
      /\ selectedObservation (step observations s (CityWidePattern now))
         = None
      /\ savedMapState (step observations s (CityWidePattern now))
         = Some (SavedMapState.mk (getCenter map) (getZoom map) (Some sel)))
  /\ (patternMode (step observations s (CityWidePattern now)) = CITY_WIDE ->
      view_triple (step observations
                        (step observations s (CityWidePattern now))
                        ClearPattern)
      = view_triple s
      /\ patternMode (step observations
                           (step observations s (CityWidePattern now))
                           ClearPattern) = NONE
      /\ patternData (step observations
                           (step observations s (CityWidePattern now))
                           ClearPattern) = None
      /\ savedMapState (step observations
                             (step observations s (CityWidePattern now))
                             ClearPattern) = None)
  /\ handleClearPatternMode s = s
  /\ step observations s ClearPattern = s.
Proof.
  intros Laws Hr Hnone.
  destruct (reachable_invariant Hr) as (Hl & Hm & Hc).
  assert (Hsaved : savedMapState s = None).
  { unfold mode_consistent in Hm. now rewrite Hnone in Hm. }
  assert (Hclear : handleClearPatternMode s = s)
    by now apply handleClearPatternMode_none.
  assert (Henter : forall sel map,
    selectedObservation s = Some sel -> mapInstance s = Some map ->
    step observations s (CityWidePattern now)
    = handleCityWidePattern s now
    /\ patternMode (handleCityWidePattern s now) = CITY_WIDE
    /\ selectedObservation (handleCityWidePattern s now) = None
    /\ savedMapState (handleCityWidePattern s now)
       = Some (SavedMapState.mk (getCenter map) (getZoom map) (Some sel))).
  { intros sel map Es Emap. unfold step. simpl handle.
    unfold handleCityWidePattern. rewrite Es, Emap.
    split; [|repeat split]. apply deselect_check_fixed. exact I. }
  split; [|split; [|split]].
  - intros sel map Es Emap.
    destruct (Henter sel map Es Emap) as (-> & H1 & H2 & H3). auto.
  - intro Hcw.
    destruct (selectedObservation s) as [sel|] eqn:Es;
      [destruct (mapInstance s) as [map|] eqn:Emap|].
    + destruct (Henter sel map eq_refl eq_refl) as (-> & _).
      unfold selection_listed in Hl. rewrite Es in Hl.
      unfold step. simpl handle.
      unfold handleCityWidePattern, handleClearPatternMode.
      rewrite Es, Emap.
      cbn -[deselect_check PatternUtils.calculateCityWideStats].
      rewrite deselect_check_fixed
        by (unfold selection_listed; simpl; exact Hl).
      unfold view_triple; simpl.
      rewrite Emap, Es. simpl.
      rewrite getCenter_setView, getZoom_setView. auto.
    + exfalso. unfold step in Hcw. simpl handle in Hcw.
      unfold handleCityWidePattern in Hcw. rewrite Es, Emap in Hcw.
      rewrite deselect_check_fixed in Hcw by exact Hl. congruence.
    + exfalso. unfold step in Hcw. simpl handle in Hcw.
      unfold handleCityWidePattern in Hcw. rewrite Es in Hcw.
      rewrite deselect_check_fixed in Hcw by exact Hl. congruence.
  - exact Hclear.
  - now apply step_ClearPattern_none.
Qed.

End ComponentFacts.

(* ================================================================== *)
(** * Worked examples *)
(* ================================================================== *)

Example filteredData_sample_24h :
  filteredData Sample.observations all w24h Sample.now = [Sample.obs_0].
Proof. reflexivity. Qed.

Example filteredData_sample_risk :
  filteredData Sample.observations (only risk) persistent Sample.now
  = [Sample.obs_2].
Proof. reflexivity. Qed.

Example stats_sample :
  StatsUtils.calculateObservationStats Sample.observations
  = Stats.mk 3 (ByType.mk 2 1 0) (num 4) "66.7".
Proof. reflexivity. Qed.

Example stats_empty :
  StatsUtils.calculateObservationStats []
  = Stats.mk 0 (ByType.mk 0 0 0) (Fin 0) "0.0".
Proof. reflexivity. Qed.

Example trend_12_8 : classify_trend 12 8 = increasing.
Proof. reflexivity. Qed.

Example trend_8_12 : classify_trend 8 12 = declining.
Proof. reflexivity. Qed.

Example trend_10_10 : classify_trend 10 10 = stable.
Proof. reflexivity. Qed.

Example cityWide_sample_7d :
  cityWide Sample.obs_0 Sample.observations
           (ms (TIME_WINDOWS w7d)) Sample.now
  = ([Sample.obs_0; Sample.obs_1], CityWideStats.mk 2 2 increasing 2).
Proof. reflexivity. Qed.

Example cityWide_sample_24h :
  snd (cityWide Sample.obs_0 Sample.observations
                (ms (TIME_WINDOWS w24h)) Sample.now)
  = CityWideStats.mk 2 2 stable 1.
Proof. reflexivity. Qed.

Example calculateLocalStats_sample :
  PatternUtils.calculateLocalStats [Sample.obs_0; Sample.obs_1]
                                   (ms (TIME_WINDOWS w7d)) Sample.now
  = Some (LocalStats.mk 2 (num 3) increasing).
Proof. reflexivity. Qed.

Example zone_key_sample : zone_key Sample.obs_0 = "1907_7287"%string.
Proof. reflexivity. Qed.

Example sample_selected :
  selectedObservation Sample.selected = Some Sample.obs_0
  /\ patternMode Sample.selected = NONE.
Proof. split; reflexivity. Qed.

(* ================================================================== *)
(** * Instances of the conditional theorems *)
(* ================================================================== *)

#[export] Instance PlainMap_laws : LeafletMapLaws PlainMap_LeafletMap.
Proof. split; reflexivity. Qed.

Section ClaimInstances.

(** The instances are taken with the approximate library. *)
#[local] Existing Instance ApproxMath.library.

Lemma Sample_ids_unique : NoDup (map id Sample.observations).
Proof.
  repeat constructor; simpl; intuition discriminate.
Qed.

Lemma Sample_selected_reachable :
  reachable Sample.observations Sample.selected.
Proof. apply reachable_run. Qed.

Lemma C7_window_monotone_witness :
  span_le (ms (TIME_WINDOWS w24h)) (ms (TIME_WINDOWS w7d))
  /\ incl (filteredData Sample.observations all w24h Sample.now)
          (filteredData Sample.observations all w7d Sample.now).
Proof.
  assert (Hle : span_le (ms (TIME_WINDOWS w24h)) (ms (TIME_WINDOWS w7d))).
  { simpl. unfold Qle. simpl. lia. }
  split; [exact Hle|].
  exact (C7_window_monotone Sample.observations all w24h w7d Sample.now Hle).
Defined.

Lemma C9_selection_in_filtered_witness :
  NoDup (map id Sample.observations)
  /\ reachable Sample.observations Sample.selected
  /\ (selectedObservation Sample.selected = None
      \/ exists o, selectedObservation Sample.selected = Some o
                   /\ In o (filtered Sample.selected))
  /\ (forall (e : Event) (o : Observation),
        is_filter_change e = true ->
        selectedObservation Sample.selected = Some o ->
        ~ In o (filtered (handle Sample.observations Sample.selected e)) ->
        selectedObservation (step Sample.observations Sample.selected e)
        = None
        /\ expandedDetail (step Sample.observations Sample.selected e)
           = false).
Proof.
  split; [exact Sample_ids_unique|].
  split; [exact Sample_selected_reachable|].
  exact (C9_selection_in_filtered Sample_ids_unique
           Sample_selected_reachable).
Defined.

Lemma C6_enter_then_clear_witness :
  LeafletMapLaws PlainMap_LeafletMap
  /\ reachable Sample.observations Sample.selected
  /\ patternMode Sample.selected = NONE
  /\ view_triple
       (step Sample.observations
             (step Sample.observations Sample.selected
                   (CityWidePattern Sample.now))
             ClearPattern)
     = view_triple Sample.selected
  /\ step Sample.observations Sample.selected ClearPattern = Sample.selected.
Proof.
  split; [exact PlainMap_laws|].
  split; [exact Sample_selected_reachable|].
  split; [reflexivity|].
  destruct (C6_enter_then_clear Sample.now PlainMap_laws
              Sample_selected_reachable eq_refl)
    as (Henter & Hclear & _ & Hnoop).
  split; [|exact Hnoop].
  apply Hclear.
  exact (proj1 (Henter Sample.obs_0 Sample.map eq_refl eq_refl)).
Defined.

End ClaimInstances.

(* ================================================================== *)
(** * Further properties of the statistics *)
(* ================================================================== *)

Lemma count_type_partition (l : list Observation) :
  (count_type violation l + count_type risk l + count_type infrastructure l
   = len l)%Z.
Proof.
  unfold count_type, len.
  induction l as [|o l IH]; [reflexivity|].
  cbn [filter]. destruct (type o); cbn [type_eqb List.length];
    rewrite ?Nat2Z.inj_succ; lia.
Qed.

(** The three per-type counts add up to the total, in the statistics of
    both files, and the total is the size of the set. *)
Theorem byType_sums_to_total (S : list Observation) :
  (ByType.violation (Stats.byType (StatsUtils.calculateObservationStats S))
   + ByType.risk (Stats.byType (StatsUtils.calculateObservationStats S))
   + ByType.infrastructure
       (Stats.byType (StatsUtils.calculateObservationStats S))
   = Stats.total (StatsUtils.calculateObservationStats S))%Z
  /\ Stats.total (StatsUtils.calculateObservationStats S) = len S
  /\ (ByType.violation (Stats.byType (App.calculateStats S))
      + ByType.risk (Stats.byType (App.calculateStats S))
      + ByType.infrastructure (Stats.byType (App.calculateStats S))
      = Stats.total (App.calculateStats S))%Z
  /\ Stats.total (App.calculateStats S) = len S.
Proof.
  split; [|split; [apply calculateObservationStats_total|split]].
  - unfold StatsUtils.calculateObservationStats.
    destruct (len S =? 0)%Z eqn:E; simpl; [reflexivity|].
    apply count_type_partition.
  - apply count_type_partition.
  - reflexivity.
Qed.

Lemma Qfloor_between (x : Q) (lo hi : Z) :
  (inject_Z lo <= x)%Q -> (x < inject_Z hi + 1)%Q ->
  (lo <= Qfloor x <= hi)%Z.
Proof.
  intros Hlo Hhi. split.
  - rewrite <- (Qfloor_Z lo). now apply Qfloor_resp_le.
  - pose proof (Qfloor_le x) as Hf.
    assert (Hlt : (inject_Z (Qfloor x) < inject_Z (hi + 1))%Q).
    { rewrite inject_Z_plus. change (inject_Z 1) with 1%Q. lra. }
    rewrite <- Zlt_Qlt in Hlt. lia.
Qed.

Lemma digits_100_0 : toFixed1_nonneg 100 = "100.0"%string.
Proof. reflexivity. Qed.

Lemma toFixed1_nonneg_comp (p q : Q) :
  (p == q)%Q -> toFixed1_nonneg p = toFixed1_nonneg q.
Proof.
  intro E. unfold toFixed1_nonneg, tenths.
  assert (Hf : Qfloor (p * 10 + (1 # 2)) = Qfloor (q * 10 + (1 # 2))).
  { apply Qfloor_comp. now rewrite E. }
  now rewrite Hf.
Qed.

Lemma len_pos_nonempty {A} (l : list A) : l <> [] -> (0 < len l)%Z.
Proof. destruct l; [congruence|]. intros _. unfold len. simpl. lia. Qed.

Lemma review_percentage_all (S : list Observation) :
  S <> [] -> count_reviewed S = len S -> review_percentage S = Fin 100.
Proof.
  intros HS Hall. unfold review_percentage. rewrite Hall.
  assert (Hlen : len S <> 0%Z) by now rewrite len_zero_iff.
  unfold double_div. change (num (len S)) with (Fin (inject_Z (len S))) at 1.
  rewrite number_div_finite by exact Hlen. cbn [rounded].
  assert (E : (inject_Z (len S) / inject_Z (len S) == 1)%Q).
  { field. unfold Qeq, inject_Z; simpl. lia. }
  rewrite (round64_comp E). reflexivity.
Qed.

Lemma review_percentage_none (S : list Observation) :
  S <> [] -> count_reviewed S = 0%Z -> review_percentage S = Fin 0.
Proof.
  intros HS Hnone. unfold review_percentage. rewrite Hnone.
  assert (Hlen : len S <> 0%Z) by now rewrite len_zero_iff.
  unfold double_div. change (num 0) with (Fin 0).
  rewrite number_div_finite by exact Hlen. cbn [rounded].
  assert (E : (0 / inject_Z (len S) == 0)%Q).
  { field. unfold Qeq, inject_Z; simpl. lia. }
  rewrite (round64_comp E). reflexivity.
Qed.

(** On a non-empty set the percentage of reviewed observations, as doubles
    give it (the quotient rounded, then the product by 100 rounded), is a
    number [p] between 0 and 100, and the review rate is the number of
    tenths closest to [p] (from 0 to 1000, that is 0.0 to 100.0) printed
    with one decimal; it is "100.0" when every observation is reviewed and
    "0.0" when none is. *)
Theorem reviewRate_range (S : list Observation) :
  S <> [] ->
  exists (p : Q) (n : Z),
    review_percentage S = Fin p
    /\ (0 <= p <= 100)%Q
    /\ (0 <= n <= 1000)%Z
    /\ Stats.reviewRate (StatsUtils.calculateObservationStats S)
       = (digits (n / 10) ++ "." ++ digits (n mod 10))%string
    /\ (p * 10 - (1 # 2) < inject_Z n <= p * 10 + (1 # 2))%Q
    /\ (count_reviewed S = len S ->
        Stats.reviewRate (StatsUtils.calculateObservationStats S)
        = "100.0"%string)
    /\ (count_reviewed S = 0%Z ->
        Stats.reviewRate (StatsUtils.calculateObservationStats S)
        = "0.0"%string).
Proof.
  intro HS.
  destruct (StatsUtils_calculateObservationStats_guarded S)
    as (_ & _ & Hrate & _).
  assert (Hr : Stats.reviewRate (StatsUtils.calculateObservationStats S)
               = toFixed1 (review_percentage S)).
  { rewrite Hrate. destruct S; [congruence | reflexivity]. }
  destruct (review_percentage_range HS) as (p & Hp & Hp0 & Hp1).
  exists p, (tenths p).
  split; [exact Hp|]. split; [split; assumption|].
  assert (Hfix : toFixed1 (Fin p) = toFixed1_nonneg p).
  { unfold toFixed1. apply Qlt_bool_false_iff in Hp0. now rewrite Hp0. }
  split; [|split; [|split; [apply tenths_nearest|split]]].
  - unfold tenths. apply Qfloor_between.
    + change (inject_Z 0) with 0%Q. lra.
    + change (inject_Z 1000) with 1000%Q. lra.
  - now rewrite Hr, Hp, Hfix.
  - intro Hall. now rewrite Hr, (review_percentage_all HS Hall).
  - intro Hnone. now rewrite Hr, (review_percentage_none HS Hnone).
Qed.

Lemma reviewRate_range_witness :
  Sample.observations <> []
  /\ exists (p : Q) (n : Z),
    review_percentage Sample.observations = Fin p
    /\ (0 <= p <= 100)%Q
    /\ (0 <= n <= 1000)%Z
    /\ Stats.reviewRate
         (StatsUtils.calculateObservationStats Sample.observations)
       = (digits (n / 10) ++ "." ++ digits (n mod 10))%string
    /\ (p * 10 - (1 # 2) < inject_Z n <= p * 10 + (1 # 2))%Q
    /\ (count_reviewed Sample.observations = len Sample.observations ->
        Stats.reviewRate
          (StatsUtils.calculateObservationStats Sample.observations)
        = "100.0"%string)
    /\ (count_reviewed Sample.observations = 0%Z ->
        Stats.reviewRate
          (StatsUtils.calculateObservationStats Sample.observations)
        = "0.0"%string).
Proof.
  assert (H : Sample.observations <> []) by discriminate.
  split; [exact H|]. exact (reviewRate_range H).
Defined.

Lemma Qsum_bounds (l : list Q) (lo hi : Q) :
  Forall (fun q => (lo <= q <= hi)%Q) l ->
  (lo * inject_Z (len l) <= Qsum l <= hi * inject_Z (len l))%Q.
Proof.
  induction 1 as [|q l [Hq0 Hq1] Hl IH].
  - unfold len; simpl. change (inject_Z 0) with 0%Q. lra.
  - assert (E : (inject_Z (len (q :: l)) == inject_Z (len l) + 1)%Q).
    { unfold len. simpl List.length. rewrite Nat2Z.inj_succ.
      unfold Z.succ. rewrite inject_Z_plus. reflexivity. }
    simpl Qsum. rewrite E. lra.
Qed.

Lemma mean_bounds (l : list Q) (lo hi : Q) :
  l <> [] -> Forall (fun q => (lo <= q <= hi)%Q) l ->
  (lo <= mean l <= hi)%Q.
Proof.
  intros Hne Hall. pose proof (Qsum_bounds Hall) as [H0 H1].
  pose proof (len_pos_nonempty Hne) as Hlen.
  assert (Hl : (0 < inject_Z (len l))%Q) by (unfold Qlt, inject_Z; simpl; lia).
  unfold mean. split.
  - apply Qle_shift_div_l; [exact Hl | exact H0].
  - apply Qle_shift_div_r; [exact Hl | exact H1].
Qed.



Lemma truthy_is_positive (S : list Observation) :
  Forall (fun o => match response_time o with
                   | Some q => (0 <= q)%Q
                   | None => True
                   end) S ->
  filter App.truthy_response_time S = filter has_positive_response_time S.
Proof.
  intro Hall. apply filter_ext_in. intros o Ho.
  rewrite Forall_forall in Hall. specialize (Hall o Ho).
  unfold App.truthy_response_time, has_positive_response_time.
  destruct (response_time o) as [q|]; [|reflexivity].
  destruct (Qeq_bool q 0) eqn:E; [reflexivity|]. simpl. symmetry.
  apply Qlt_bool_iff. apply Qeq_bool_neq in E.
  destruct (Qle_lt_or_eq _ _ Hall) as [Hlt|Heq]; [exact Hlt|].
  exfalso. apply E. now symmetry.
Qed.

(** The statistics of App.js and of road.old.js agree on every set that
    has a positive response time and no negative one: the two guards of
    road.old.js only matter where App.js divides by zero. *)
Theorem calculateStats_agree (S : list Observation) :
  positive_response_times S <> [] ->
  Forall (fun o => match response_time o with
                   | Some q => (0 <= q)%Q
                   | None => True
                   end) S ->
  App.calculateStats S = StatsUtils.calculateObservationStats S.
Proof.
  intros Hne Hall.
  assert (HS : S <> []) by (intro E; subst; now apply Hne).
  pose proof (len_pos_nonempty HS) as Hlen.
  assert (Hw : (0 < len (filter has_positive_response_time S))%Z).
  { rewrite <- positive_response_times_length. now apply len_pos_nonempty. }
  unfold App.calculateStats, StatsUtils.calculateObservationStats.
  rewrite (truthy_is_positive Hall).
  replace (len S =? 0)%Z with false by (symmetry; apply Z.eqb_neq; lia).
  rewrite (proj2 (Z.ltb_lt _ _) Hlen), (proj2 (Z.ltb_lt _ _) Hw).
  reflexivity.
Qed.

Lemma calculateStats_agree_witness :
  positive_response_times Sample.observations <> []
  /\ Forall (fun o => match response_time o with
                      | Some q => (0 <= q)%Q
                      | None => True
                      end) Sample.observations
  /\ App.calculateStats Sample.observations
     = StatsUtils.calculateObservationStats Sample.observations.
Proof.
  assert (Hne : positive_response_times Sample.observations <> [])
    by discriminate.
  assert (Hall : Forall (fun o => match response_time o with
                                  | Some q => (0 <= q)%Q
                                  | None => True
                                  end) Sample.observations).
  { repeat constructor; simpl; unfold Qle; simpl; lia. }
  split; [exact Hne|]. split; [exact Hall|].
  exact (@calculateStats_agree Sample.observations Hne Hall).
Defined.

(* ================================================================== *)
(** * Further properties of the filter *)
(* ================================================================== *)

(** The filter of App.js and the memoised filter of road.old.js keep the
    same observations in the same order: testing the persistent window
    against [Infinity] keeps everything, as skipping the test does. *)
Theorem filterObservations_filteredData (corpus : list Observation)
    (lens : Lens) (w : TimeWindowKey) (now : Q) :
  App.filterObservations corpus lens w now = filteredData corpus lens w now.
Proof.
  unfold App.filterObservations, filteredData.
  destruct w; try reflexivity.
  simpl. apply filter_true.
Qed.

Lemma filter_idempotent {A} (f : A -> bool) (l : list A) :
  filter f (filter f l) = filter f l.
Proof.
  rewrite filter_filter. apply filter_ext. intro x. now destruct (f x).
Qed.

(** Filtering is stable and narrowing: applying the filter again to its
    own result changes nothing, the lens ["all"] with the persistent window
    keeps the whole corpus, and a type lens keeps exactly the observations
    of that type that the lens ["all"] keeps under the same window. *)
Theorem filteredData_compose (corpus : list Observation) (lens : Lens)
    (w : TimeWindowKey) (now : Q) (t : ObservationType) :
  filteredData (filteredData corpus lens w now) lens w now
    = filteredData corpus lens w now
  /\ filteredData corpus all persistent now = corpus
  /\ filteredData corpus (only t) w now
     = filter (fun o => type_eqb (type o) t) (filteredData corpus all w now)
  /\ incl (filteredData corpus lens w now) corpus.
Proof.
  split; [|split; [|split]].
  - rewrite !filteredData_filter. apply filter_idempotent.
  - reflexivity.
  - rewrite !filteredData_filter, filter_filter. apply filter_ext.
    intro o. simpl. apply andb_comm.
  - intros o Ho. now apply filteredData_In in Ho.
Qed.

(* ================================================================== *)
(** * Further properties of MapUtils *)
(* ================================================================== *)

(** What the [forEach] of [getBoundsForPoints] keeps true: the box only
    widens, it encloses the points seen, and each side is a side of the
    initial box or the coordinate of a point seen. *)
Lemma widen_fold (points : list Observation) (a0 b0 c0 d0 : Q) :
  exists a b c d,
    fold_left MapUtils.widen points (a0, b0, c0, d0) = (a, b, c, d)
    /\ (a <= a0)%Q /\ (b0 <= b)%Q /\ (c <= c0)%Q /\ (d0 <= d)%Q
    /\ Forall (fun p => (a <= lat p <= b)%Q /\ (c <= lng p <= d)%Q) points
    /\ (a = a0 \/ exists p, In p points /\ lat p = a)
    /\ (b = b0 \/ exists p, In p points /\ lat p = b)
    /\ (c = c0 \/ exists p, In p points /\ lng p = c)
    /\ (d = d0 \/ exists p, In p points /\ lng p = d).
Proof.
  revert a0 b0 c0 d0.
  induction points as [|p points IH]; intros a0 b0 c0 d0.
  - exists a0, b0, c0, d0. simpl.
    repeat split; auto; lra.
  - simpl fold_left.
    set (a1 := if Qlt_bool (lat p) a0 then lat p else a0).
    set (b1 := if Qlt_bool b0 (lat p) then lat p else b0).
    set (c1 := if Qlt_bool (lng p) c0 then lng p else c0).
    set (d1 := if Qlt_bool d0 (lng p) then lng p else d0).
    assert (Ha : (a1 <= a0 /\ a1 <= lat p)%Q /\ (a1 = a0 \/ a1 = lat p)).
    { unfold a1. destruct (Qlt_bool (lat p) a0) eqn:E.
      - apply Qlt_bool_iff in E. split; [split; lra | auto].
      - apply Qlt_bool_false_iff in E. split; [split; lra | auto]. }
    assert (Hb : (b0 <= b1 /\ lat p <= b1)%Q /\ (b1 = b0 \/ b1 = lat p)).
    { unfold b1. destruct (Qlt_bool b0 (lat p)) eqn:E.
      - apply Qlt_bool_iff in E. split; [split; lra | auto].
      - apply Qlt_bool_false_iff in E. split; [split; lra | auto]. }
    assert (Hc : (c1 <= c0 /\ c1 <= lng p)%Q /\ (c1 = c0 \/ c1 = lng p)).
    { unfold c1. destruct (Qlt_bool (lng p) c0) eqn:E.
      - apply Qlt_bool_iff in E. split; [split; lra | auto].
      - apply Qlt_bool_false_iff in E. split; [split; lra | auto]. }
    assert (Hd : (d0 <= d1 /\ lng p <= d1)%Q /\ (d1 = d0 \/ d1 = lng p)).
    { unfold d1. destruct (Qlt_bool d0 (lng p)) eqn:E.
      - apply Qlt_bool_iff in E. split; [split; lra | auto].
      - apply Qlt_bool_false_iff in E. split; [split; lra | auto]. }
    destruct (IH a1 b1 c1 d1)
      as (a & b & c & d & Hf & Ha' & Hb' & Hc' & Hd' & Hall
          & Ea & Eb & Ec & Ed).
    exists a, b, c, d. split; [exact Hf|].
    destruct Ha as [[Ha1 Ha2] Ha3], Hb as [[Hb1 Hb2] Hb3],
             Hc as [[Hc1 Hc2] Hc3], Hd as [[Hd1 Hd2] Hd3].
    repeat split; try lra.
    + constructor; [repeat split; lra | exact Hall].
    + destruct Ea as [-> | (q & Hq & E)]; [|right; exists q; simpl; auto].
      destruct Ha3 as [-> | ->]; [now left|]. right. exists p. simpl. auto.
    + destruct Eb as [-> | (q & Hq & E)]; [|right; exists q; simpl; auto].
      destruct Hb3 as [-> | ->]; [now left|]. right. exists p. simpl. auto.
    + destruct Ec as [-> | (q & Hq & E)]; [|right; exists q; simpl; auto].
      destruct Hc3 as [-> | ->]; [now left|]. right. exists p. simpl. auto.
    + destruct Ed as [-> | (q & Hq & E)]; [|right; exists q; simpl; auto].
      destruct Hd3 as [-> | ->]; [now left|]. right. exists p. simpl. auto.
Qed.

(** [getBoundsForPoints] returns [null] for no point only; otherwise the
    box it returns contains every point, boundary included, and is tight:
    each of its four sides is the coordinate of one of the points. *)
Theorem getBoundsForPoints_encloses (points : list Observation) :
  points = [] /\ MapUtils.getBoundsForPoints points = None
  \/ exists minLat minLng maxLat maxLng,
       MapUtils.getBoundsForPoints points
       = Some ((minLat, minLng), (maxLat, maxLng))
       /\ Forall (fun p =>
                    LatLngBounds.contains
                      (LatLngBounds.mk minLat minLng maxLat maxLng)
                      (lat p, lng p) = true) points
       /\ (exists p, In p points /\ lat p = minLat)
       /\ (exists p, In p points /\ lat p = maxLat)
       /\ (exists p, In p points /\ lng p = minLng)
       /\ (exists p, In p points /\ lng p = maxLng).
Proof.
  destruct points as [|p0 rest]; [left; split; reflexivity|]. right.
  destruct (widen_fold (p0 :: rest) (lat p0) (lat p0) (lng p0) (lng p0))
    as (a & b & c & d & Hf & _ & _ & _ & _ & Hall & Ea & Eb & Ec & Ed).
  exists a, c, b, d. unfold MapUtils.getBoundsForPoints. rewrite Hf.
  split; [reflexivity|].
  assert (Hp0 : In p0 (p0 :: rest)) by now left.
  split; [|repeat split].
  - eapply Forall_impl; [|exact Hall].
    intros p [[H1 H2] [H3 H4]]. unfold LatLngBounds.contains. simpl.
    apply Qle_bool_iff in H1, H2, H3, H4. now rewrite H1, H2, H3, H4.
  - destruct Ea as [-> | ?]; eauto.
  - destruct Eb as [-> | ?]; eauto.
  - destruct Ec as [-> | ?]; eauto.
  - destruct Ed as [-> | ?]; eauto.
Qed.

(* ================================================================== *)
(** * Further properties of PatternUtils *)
(* ================================================================== *)

Lemma midpoint_not_NaN (now : Q) (windowMs : number) :
  is_NaN windowMs = false -> is_NaN (midpoint_of now windowMs) = false.
Proof. destruct windowMs; simpl; congruence. Qed.

Lemma filter_complement_length {A} (f g : A -> bool) (l : list A) :
  (forall x, g x = negb (f x)) ->
  (len (filter f l) + len (filter g l) = len l)%Z.
Proof.
  intro Hfg. unfold len.
  induction l as [|x l IH]; [reflexivity|].
  cbn [filter]. rewrite Hfg. destruct (f x); cbn [negb List.length];
    rewrite ?Nat2Z.inj_succ; lia.
Qed.

Lemma Qle_bool_negb_lt (x y : Q) : Qle_bool x y = negb (Qlt_bool y x).
Proof. unfold Qlt_bool. now rewrite negb_involutive. Qed.

(** Every observation falls in exactly one half of the window. *)
Lemma half_window_partition (m : number) (l : list Observation) :
  is_NaN m = false -> (count_recent m l + count_older m l = len l)%Z.
Proof.
  intro Hm. unfold count_recent, count_older.
  apply filter_complement_length. intro o.
  destruct m; simpl; try reflexivity; try discriminate.
  apply Qle_bool_negb_lt.
Qed.

(** For every window but a [NaN] one, the recent count of the city-wide
    statistics is between 0 and the total, the older count is the rest, and
    so the trend is the classification of the recent count against the
    total minus the recent count. *)
Theorem cityWide_trend_from_counts (l : list Observation)
    (windowMs : number) (now : Q) :
  is_NaN windowMs = false ->
  (0 <= CityWideStats.recentCount
          (PatternUtils.calculateCityWideStats l windowMs now)
     <= CityWideStats.total
          (PatternUtils.calculateCityWideStats l windowMs now))%Z
  /\ CityWideStats.trend (PatternUtils.calculateCityWideStats l windowMs now)
     = classify_trend
         (CityWideStats.recentCount
            (PatternUtils.calculateCityWideStats l windowMs now))
         (CityWideStats.total
            (PatternUtils.calculateCityWideStats l windowMs now)
          - CityWideStats.recentCount
              (PatternUtils.calculateCityWideStats l windowMs now)).
Proof.
  intro Hw. apply (midpoint_not_NaN now) in Hw.
  pose proof (@half_window_partition _ l Hw) as Hp.
  unfold PatternUtils.calculateCityWideStats.
  cbn [CityWideStats.recentCount CityWideStats.total CityWideStats.trend].
  assert (H0 : (0 <= count_recent (midpoint_of now windowMs) l)%Z)
    by apply len_nonneg.
  assert (H1 : (0 <= count_older (midpoint_of now windowMs) l)%Z)
    by apply len_nonneg.
  split; [lia|]. f_equal. lia.
Qed.

Lemma cityWide_trend_from_counts_witness :
  is_NaN (ms (TIME_WINDOWS w7d)) = false
  /\ CityWideStats.trend
       (PatternUtils.calculateCityWideStats
          Sample.observations (ms (TIME_WINDOWS w7d)) Sample.now)
     = classify_trend
         (CityWideStats.recentCount
            (PatternUtils.calculateCityWideStats
               Sample.observations (ms (TIME_WINDOWS w7d)) Sample.now))
         (CityWideStats.total
            (PatternUtils.calculateCityWideStats
               Sample.observations (ms (TIME_WINDOWS w7d)) Sample.now)
          - CityWideStats.recentCount
              (PatternUtils.calculateCityWideStats
                 Sample.observations (ms (TIME_WINDOWS w7d)) Sample.now)).
Proof.
  split; [reflexivity|].
  exact (proj2 (@cityWide_trend_from_counts Sample.observations
                  (ms (TIME_WINDOWS w7d)) Sample.now eq_refl)).
Defined.

Lemma count_recent_persistent (now : Q) (l : list Observation) :
  count_recent (midpoint_of now Infinity) l = len l
  /\ count_older (midpoint_of now Infinity) l = 0%Z.
Proof.
  unfold count_recent, count_older. simpl. split.
  - now rewrite filter_true.
  - assert (E : filter (fun _ : Observation => false) l = []).
    { induction l; simpl; auto. }
    now rewrite E.
Qed.

(** Under the persistent window the midpoint is [-Infinity]: every
    observation counts as recent and none as older, so the trend of a
    non-empty set is always increasing, in the city-wide and in the local
    statistics, and the trend of the empty set is stable. *)
Theorem persistent_window_trend (o : Observation) (l : list Observation)
    (now : Q) :
  CityWideStats.trend (PatternUtils.calculateCityWideStats (o :: l)
                                                           Infinity now)
  = increasing
  /\ CityWideStats.recentCount
       (PatternUtils.calculateCityWideStats (o :: l) Infinity now)
     = len (o :: l)
  /\ CityWideStats.trend (PatternUtils.calculateCityWideStats [] Infinity now)
     = stable
  /\ exists s, PatternUtils.calculateLocalStats (o :: l) Infinity now = Some s
               /\ LocalStats.trend s = increasing.
Proof.
  destruct (count_recent_persistent now (o :: l)) as [Hr Ho].
  assert (Hpos : exists p, len (o :: l) = Z.pos p).
  { unfold len. simpl. eauto. }
  destruct Hpos as [p Hp].
  split; [|split; [|split]].
  - unfold PatternUtils.calculateCityWideStats. cbn [CityWideStats.trend].
    rewrite Hr, Ho, Hp. apply classify_trend_no_older.
  - unfold PatternUtils.calculateCityWideStats.
    cbn [CityWideStats.recentCount]. exact Hr.
  - reflexivity.
  - unfold PatternUtils.calculateLocalStats.
    replace (len (o :: l) =? 0)%Z with false
      by (symmetry; apply Z.eqb_neq; lia).
    eexists. split; [reflexivity|]. cbn [LocalStats.trend].
    rewrite Hr, Ho, Hp. apply classify_trend_no_older.
Qed.

Lemma nodup_length_le {A} (dec : forall x y : A, {x = y} + {x <> y})
    (l : list A) :
  (List.length (nodup dec l) <= List.length l)%nat.
Proof.
  induction l as [|x l IH]; simpl; [lia|].
  destruct (in_dec dec x l); simpl; lia.
Qed.

Lemma distinct_cells_bounds (o : Observation) (l : list Observation) :
  (1 <= len (distinct_cells (o :: l)) <= len (o :: l))%Z.
Proof.
  unfold distinct_cells, len.
  pose proof (nodup_length_le cell_eq_dec (map grid_cell (o :: l))) as Hle.
  rewrite length_map in Hle.
  assert (Hin : In (grid_cell o) (nodup cell_eq_dec
                                        (map grid_cell (o :: l)))).
  { apply nodup_In. now left. }
  destruct (nodup cell_eq_dec (map grid_cell (o :: l))); [destruct Hin|].
  simpl List.length in *. lia.
Qed.

Lemma calculateLocalStats_some (o : Observation) (l : list Observation)
    (windowMs : number) (now : Q) :
  PatternUtils.calculateLocalStats (o :: l) windowMs now <> None.
Proof.
  unfold PatternUtils.calculateLocalStats.
  replace (len (o :: l) =? 0)%Z with false
    by (symmetry; apply Z.eqb_neq; unfold len; simpl; lia).
  discriminate.
Qed.

(** The number of affected zones is 0 for no observation only, and
    otherwise at least 1 and at most the number of observations. *)
Theorem affectedZones_bounds (l : list Observation) (windowMs : number)
    (now : Q) :
  l = [] /\ CityWideStats.affectedZones
              (PatternUtils.calculateCityWideStats l windowMs now) = 0%Z
  \/ (1 <= CityWideStats.affectedZones
             (PatternUtils.calculateCityWideStats l windowMs now)
        <= CityWideStats.total
             (PatternUtils.calculateCityWideStats l windowMs now))%Z.
Proof.
  unfold PatternUtils.calculateCityWideStats.
  cbn [CityWideStats.affectedZones CityWideStats.total].
  rewrite Set_of_zone_keys_size.
  destruct l as [|o l]; [left; split; reflexivity|]. right.
  apply distinct_cells_bounds.
Qed.


Section PatternMembership.

Context {math : Math.Library}.

Lemma local_In (reference : Observation) (filtered : list Observation)
    (radiusMeters : Q) (windowMs : number) (now : Q) (o : Observation) :
  In o (fst (local reference filtered radiusMeters windowMs now)) <->
  In o filtered /\ type o = type reference
  /\ number_leb (distanceMeters reference o) (Fin radiusMeters) = true.
Proof.
  rewrite local_filter, filter_In, andb_true_iff, type_eqb_eq. tauto.
Qed.

Lemma cityWide_In (reference : Observation) (filtered : list Observation)
    (windowMs : number) (now : Q) (o : Observation) :
  In o (fst (cityWide reference filtered windowMs now)) <->
  In o filtered /\ type o = type reference.
Proof.
  unfold cityWide, PatternUtils.getMatchingObservations; simpl.
  now rewrite filter_In, type_eqb_eq.
Qed.


Context {laws : Math.Laws math}.

(** An observation at a latitude is at distance 0 from itself. *)
Lemma distanceMeters_self (o : Observation) :
  valid_latitude (lat o) -> distanceMeters o o = Fin 0.
Proof.
  intro Hlat. unfold distanceMeters.
  apply haversine_distance_self; [exact Hlat | reflexivity..].
Qed.

Lemma nearby_self (l : list Observation) (o : Observation) (radius : Q) :
  valid_latitude (lat o) -> (0 <= radius)%Q -> In o l ->
  In o (PatternUtils.getNearbyObservations l (lat o) (lng o) radius).
Proof.
  intros Hlat Hrad Hin. unfold PatternUtils.getNearbyObservations.
  apply filter_In. split; [exact Hin|].
  rewrite getDistance_haversine.
  rewrite (@haversine_distance_self _ laws (lat o) (lng o) (lat o) (lng o));
    [|exact Hlat|reflexivity..].
  now apply Qle_bool_iff.
Qed.

(** A reference observation taken from the filtered set is part of its own
    pattern: the city-wide match contains it, so its total and its affected
    zones are at least 1; and for a radius that is not negative and a
    reference at a latitude (between -90 and 90 degrees, so that it is at
    distance 0 from itself) the local match contains it, so the local
    statistics are not [null].  The [Math] library is any that meets
    [Math.Laws]. *)
Theorem reference_in_pattern (reference : Observation)
    (filtered : list Observation) (radiusMeters : Q) (windowMs : number)
    (now : Q) :
  In reference filtered ->
  (0 <= radiusMeters)%Q ->
  In reference (fst (cityWide reference filtered windowMs now))
  /\ (1 <= CityWideStats.total
             (snd (cityWide reference filtered windowMs now)))%Z
  /\ (1 <= CityWideStats.affectedZones
             (snd (cityWide reference filtered windowMs now)))%Z
  /\ (valid_latitude (lat reference) ->
      In reference
         (fst (local reference filtered radiusMeters windowMs now))
      /\ snd (local reference filtered radiusMeters windowMs now) <> None).
Proof.
  intros Hin Hrad.
  assert (Hc : In reference (fst (cityWide reference filtered windowMs now)))
    by (apply cityWide_In; auto).
  assert (Hl : valid_latitude (lat reference) ->
               In reference
                 (fst (local reference filtered radiusMeters windowMs now))).
  { intro Hlat. apply local_In. repeat split; auto.
    rewrite (distanceMeters_self _ Hlat). now apply Qle_bool_iff. }
  split; [exact Hc|].
  assert (Hne : fst (cityWide reference filtered windowMs now) <> [])
    by (intro E; rewrite E in Hc; destruct Hc).
  split; [|split;
             [|intro Hlat; specialize (Hl Hlat); split; [exact Hl|]]].
  - unfold cityWide in *. simpl in *.
    pose proof (len_pos_nonempty Hne). lia.
  - unfold cityWide in *. cbn [fst snd] in *.
    unfold PatternUtils.calculateCityWideStats.
    cbn [CityWideStats.affectedZones]. rewrite Set_of_zone_keys_size.
    destruct (PatternUtils.getMatchingObservations filtered reference)
      as [|x m']; [congruence|].
    apply distinct_cells_bounds.
  - unfold local in *. cbn [fst snd] in *.
    match goal with
    | |- PatternUtils.calculateLocalStats ?m _ _ <> None =>
        destruct m as [|x m']; [destruct Hl|]
    end.
    apply calculateLocalStats_some.
Qed.


End PatternMembership.

Section PatternInstances.

#[local] Existing Instance ApproxMath.library.

Lemma Sample_obs_0_latitude : valid_latitude (lat Sample.obs_0).
Proof. split; unfold Qle; simpl; lia. Qed.

Lemma reference_in_pattern_witness :
  Math.Laws ApproxMath.library
  /\ In Sample.obs_0 Sample.observations
  /\ valid_latitude (lat Sample.obs_0)
  /\ (0 <= MAP_CONFIG.localPatternRadius)%Q
  /\ In Sample.obs_0
        (fst (local Sample.obs_0 Sample.observations
                    MAP_CONFIG.localPatternRadius
                    (ms (TIME_WINDOWS w7d)) Sample.now))
  /\ snd (local Sample.obs_0 Sample.observations
                MAP_CONFIG.localPatternRadius
                (ms (TIME_WINDOWS w7d)) Sample.now) <> None.
Proof.
  assert (Hin : In Sample.obs_0 Sample.observations) by (simpl; auto).
  assert (Hrad : (0 <= MAP_CONFIG.localPatternRadius)%Q)
    by (unfold Qle; simpl; lia).
  split; [exact ApproxMath_laws|]. split; [exact Hin|].
  split; [exact Sample_obs_0_latitude|]. split; [exact Hrad|].
  exact (proj2 (proj2 (proj2
           (@reference_in_pattern _ ApproxMath_laws Sample.obs_0
              Sample.observations MAP_CONFIG.localPatternRadius
              (ms (TIME_WINDOWS w7d)) Sample.now Hin Hrad)))
         Sample_obs_0_latitude).
Defined.


End PatternInstances.

(* ================================================================== *)
(** * Further properties of the component *)
(* ================================================================== *)

Section ComponentInvariantFacts.

Context {M : Type} {leaflet : LeafletMap M} {math : Math.Library}.
Variable observations : list Observation.

Abbreviation St' := (@State M).
Abbreviation Ev' := (@Event M).

Local Ltac case_state' s :=
  destruct s as [lens0 tf0 zl0 sel0 exp0 sb0 vis0 pm0 pd0 sv0 map0 circ0
                 fil0 lis0].

(** ** The pattern fields *)

Lemma deselect_check_pattern_fields (s : St') :
  pattern_fields (deselect_check s) = pattern_fields s.
Proof.
  destruct (deselect_check_cases s) as [-> | ->]; [reflexivity|].
  now case_state' s.
Qed.

Lemma updateVisibleObservations_pattern_fields (s : St') :
  pattern_fields (updateVisibleObservations s) = pattern_fields s.
Proof.
  destruct (updateVisibleObservations_visible s) as [v ->].
  now case_state' s.
Qed.

Lemma trackViewport_pattern_fields (s : St') :
  pattern_fields (trackViewport s) = pattern_fields s.
Proof.
  destruct (trackViewport_visible s) as (v & registered & ->).
  now case_state' s.
Qed.

Lemma moved_pattern_fields (s t : St') :
  pattern_fields (if listening s then updateVisibleObservations t else t)
  = pattern_fields t.
Proof.
  destruct (moved_visible s t) as [v ->]. now case_state' t.
Qed.

Lemma pattern_shape_fields (s t : St') :
  pattern_fields t = pattern_fields s -> pattern_shape s -> pattern_shape t.
Proof.
  unfold pattern_fields, pattern_shape. intros [= -> -> _ ->]. auto.
Qed.

Lemma pattern_reference_fields (s t : St') :
  pattern_fields t = pattern_fields s ->
  pattern_reference observations s -> pattern_reference observations t.
Proof.
  unfold pattern_fields, pattern_reference. intros [= _ -> -> _]. auto.
Qed.

Lemma plain_handlers_pattern_fields (s : St') (e : Ev') :
  match e with
  | CityWidePattern _ | LocalPattern _ | ClearPattern => True
  | _ => pattern_fields (handle observations s e) = pattern_fields s
  end.
Proof.
  destruct e as [l now|w now|i| | |now|now| |map|map]; simpl;
    try exact I.
  - unfold setLens. destruct (Lens_eqb l (lens s)); [reflexivity|].
    rewrite trackViewport_pattern_fields. now case_state' s.
  - unfold setTimeFilter.
    destruct (TimeWindowKey_eqb w (timeFilter s)); [reflexivity|].
    rewrite trackViewport_pattern_fields. now case_state' s.
  - destruct (nth_error (filtered s) i); [|reflexivity].
    unfold markerClick. destruct (patternMode s) eqn:E; try reflexivity.
    case_state' s. unfold pattern_fields. simpl in *. now subst.
  - now case_state' s.
  - now case_state' s.
  - unfold mapInit. destruct (mapInstance s); [reflexivity|].
    now case_state' s.
  - unfold mapMoved. destruct (mapInstance s); [|reflexivity].
    cbv zeta. rewrite moved_pattern_fields. now case_state' s.
Qed.

(** In every reachable state the pattern fields have the shape of the
    mode. *)
Lemma reachable_pattern_shape (s : St') :
  reachable observations s -> pattern_shape s.
Proof.
  induction 1 as [now|s e Hr IH].
  - repeat split.
  - destruct (reachable_invariant Hr) as (Hl & Hm & Hc).
    unfold step.
    apply pattern_shape_fields with (s := handle observations s e);
      [apply deselect_check_pattern_fields|].
    pose proof (plain_handlers_pattern_fields s e) as Hp.
    destruct e as [l now|w now|i| | |now|now| |map|map];
      try (eapply pattern_shape_fields; [exact Hp | exact IH]).
    + simpl. unfold handleCityWidePattern.
      destruct (selectedObservation s) as [sel|] eqn:Es; [|exact IH].
      destruct (mapInstance s) as [map|]; [|exact IH].
      assert (Hnone : patternMode s = NONE).
      { unfold mode_consistent in Hm.
        destruct (patternMode s); [reflexivity| |];
          destruct Hm as (_ & Hsel & _); congruence. }
      unfold pattern_shape in *. rewrite Hnone in IH. simpl.
      split; [do 2 eexists; repeat split | apply IH].
    + simpl. unfold handleLocalPattern.
      destruct (selectedObservation s) as [sel|] eqn:Es; [|exact IH].
      destruct (mapInstance s) as [map|]; [|exact IH].
      unfold pattern_shape. simpl. do 3 eexists. repeat split.
    + simpl. unfold handleClearPatternMode.
      destruct (mapInstance s) as [map|]; [|exact IH].
      destruct (savedMapState s) as [saved|]; [|exact IH].
      split; reflexivity.
Qed.

(** ** The reference of a pattern *)

Context {laws : Math.Laws math}.

Lemma reachable_pattern_reference (s : St') :
  NoDup (map id observations) ->
  reachable observations s -> pattern_reference observations s.
Proof.
  intro Hn. induction 1 as [now|s e Hr IH].
  - intros pd Hpd. discriminate.
  - destruct (reachable_invariant Hr) as (Hl & Hm & (Hf & Hs & Hv)).
    unfold step.
    apply pattern_reference_fields with (s := handle observations s e);
      [apply deselect_check_pattern_fields|].
    pose proof (plain_handlers_pattern_fields s e) as Hp.
    destruct e as [l now|w now|i| | |now|now| |map|map];
      try (eapply pattern_reference_fields; [exact Hp | exact IH]).
    + simpl. unfold handleCityWidePattern.
      destruct (selectedObservation s) as [sel|] eqn:Es; [|exact IH].
      destruct (mapInstance s) as [map|]; [|exact IH].
      assert (Hsel : In sel (filtered s)).
      { unfold selection_listed in Hl. rewrite Es in Hl.
        eapply listed_member; eauto. }
      intros pd [= <-]. simpl.
      unfold PatternUtils.getMatchingObservations.
      split; [|split].
      * apply Forall_forall. intros o Ho. apply filter_In in Ho.
        now apply type_eqb_eq.
      * intros o Ho. apply filter_In in Ho. apply Hf. tauto.
      * eexists _, sel. repeat split; [|discriminate].
        apply filter_In. split; [exact Hsel | now apply type_eqb_eq].
    + simpl. unfold handleLocalPattern.
      destruct (selectedObservation s) as [sel|] eqn:Es; [|exact IH].
      destruct (mapInstance s) as [map|]; [|exact IH].
      assert (Hsel : In sel (filtered s)).
      { unfold selection_listed in Hl. rewrite Es in Hl.
        eapply listed_member; eauto. }
      assert (Hnear : valid_latitude (lat sel) ->
                In sel
                (PatternUtils.getNearbyObservations
                   (filter (fun obs => type_eqb (type obs) (type sel))
                           (filtered s))
                   (lat sel) (lng sel) MAP_CONFIG.localPatternRadius)).
      { intro Hlat. apply nearby_self.
        - exact Hlat.
        - unfold Qle; simpl; lia.
        - apply filter_In. split; [exact Hsel | now apply type_eqb_eq]. }
      intros pd [= <-]. cbn [PatternData.type PatternData.observations
                             PatternData.stats savedMapState].
      split; [|split].
      * apply Forall_forall. intros o Ho.
        unfold PatternUtils.getNearbyObservations in Ho.
        apply filter_In in Ho. destruct Ho as [Ho _].
        apply filter_In in Ho. now apply type_eqb_eq.
      * intros o Ho. unfold PatternUtils.getNearbyObservations in Ho.
        apply filter_In in Ho. destruct Ho as [Ho _].
        apply filter_In in Ho. apply Hf. tauto.
      * eexists _, sel. split; [reflexivity|]. split; [reflexivity|].
        split; [reflexivity|]. intro Hlat. specialize (Hnear Hlat).
        split; [exact Hnear|].
        destruct (PatternUtils.getNearbyObservations _ _ _ _)
          as [|x m'] eqn:En; [destruct Hnear|].
        pose proof (@calculateLocalStats_some x m'
                      (ms (TIME_WINDOWS (timeFilter s))) now) as Hsome.
        congruence.
    + simpl. unfold handleClearPatternMode.
      destruct (mapInstance s) as [map|]; [|exact IH].
      destruct (savedMapState s) as [saved|]; [|exact IH].
      intros pd Hpd. discriminate.
Qed.

(** ** The visible observations *)

Lemma same_ids_spec (a b : list Observation) :
  same_ids a b = true <-> map id a = map id b.
Proof.
  unfold same_ids, len.
  rewrite andb_true_iff, Z.eqb_eq, Nat2Z.inj_iff. revert b.
  induction a as [|x a IH]; intros [|y b];
    cbn [List.length combine forallb map fst snd].
  - split; auto.
  - split; [intros [E _] | intro E]; discriminate.
  - split; [intros [E _] | intro E]; discriminate.
  - rewrite andb_true_iff, String.eqb_eq. specialize (IH b). split.
    + intros (Hlen & Hid & Hall). f_equal; [exact Hid|].
      apply IH. split; [lia | exact Hall].
    + intros [= Hid Hrest]. apply IH in Hrest.
      destruct Hrest as [Hlen Hall]. repeat split; auto.
Qed.


Lemma updateVisibleObservations_fields (s : St') :
  filtered (updateVisibleObservations s) = filtered s
  /\ mapInstance (updateVisibleObservations s) = mapInstance s.
Proof.
  destruct (updateVisibleObservations_visible s) as [v ->].
  now case_state' s.
Qed.

Lemma updateVisibleObservations_ids (s : St') (m : M) :
  mapInstance s = Some m ->
  map id (visibleObservations (updateVisibleObservations s))
  = map id (in_bounds m (filtered s)).
Proof.
  intro Em. unfold updateVisibleObservations, in_bounds. rewrite Em.
  destruct (same_ids _ _) eqn:E.
  - now apply same_ids_spec.
  - now case_state' s.
Qed.






(** ** What the component guarantees *)

(** Pattern mode, pattern data, saved view, proximity circle and selection
    go together in every reachable state: without a mode there is no
    pattern data, no saved view and no circle; in a mode there is no
    selection, there are a map, a saved view and pattern data of the kind
    of the mode, and the circle exists in local mode only, around the
    centre of the pattern with the local radius. *)
Theorem pattern_mode_table (s : St') :
  reachable observations s ->
  match patternMode s with
  | NONE =>
      patternData s = None /\ savedMapState s = None
      /\ localPatternCircle s = None
  | CITY_WIDE =>
      selectedObservation s = None /\ mapInstance s <> None
      /\ savedMapState s <> None /\ localPatternCircle s = None
      /\ exists pd st, patternData s = Some pd
                       /\ PatternData.stats pd = CityWideStatsOf st
                       /\ PatternData.center pd = None
  | LOCAL =>
      selectedObservation s = None /\ mapInstance s <> None
      /\ savedMapState s <> None
      /\ exists pd st c,
           patternData s = Some pd
           /\ PatternData.stats pd = LocalStatsOf st
           /\ PatternData.center pd = Some c
           /\ localPatternCircle s = Some (c, MAP_CONFIG.localPatternRadius)
  end.
Proof.
  intro Hr.
  destruct (reachable_invariant Hr) as (_ & Hm & _).
  pose proof (reachable_pattern_shape Hr) as Hp.
  unfold mode_consistent, pattern_shape in *.
  destruct (patternMode s).
  - tauto.
  - destruct Hm as (H1 & H2 & H3), Hp as (H4 & H5). auto 6.
  - destruct Hm as (H1 & H2 & H3). auto.
Qed.

(** With unique identifiers, the pattern data of every reachable state
    are about the saved selection: the matched observations all have the
    type of the pattern and come from the corpus, and so does the
    observation selected before the entry; when that observation is at a
    latitude (between -90 and 90 degrees, so that it is at distance 0
    from itself) it is one of the matched observations and the statistics
    are not [null].  The [Math] library is any that meets [Math.Laws]. *)
Theorem pattern_data_about_reference (s : St') (pd : PatternData.t) :
  NoDup (map id observations) ->
  reachable observations s ->
  patternData s = Some pd ->
  Forall (fun o => type o = PatternData.type pd)
         (PatternData.observations pd)
  /\ incl (PatternData.observations pd) observations
  /\ exists saved ref,
       savedMapState s = Some saved
       /\ SavedMapState.selectedObservation saved = Some ref
       /\ type ref = PatternData.type pd
       /\ In ref observations
       /\ (valid_latitude (lat ref) ->
           In ref (PatternData.observations pd)
           /\ PatternData.stats pd <> LocalStatsOf None).
Proof.
  intros Hn Hr Hpd.
  pose proof (reachable_pattern_reference Hn Hr) as Hpr.
  destruct (Hpr pd Hpd)
    as (Ht & Hi & saved & ref & Es & Er & Etype & Hguard).
  destruct (reachable_invariant Hr) as (_ & _ & (_ & _ & Hsaved)).
  split; [exact Ht|]. split; [exact Hi|].
  exists saved, ref. repeat split; auto.
  - eapply Hsaved; eauto.
  - now apply Hguard.
  - now apply Hguard.
Qed.


(** Inside a pattern mode a click on a marker selects nothing and the two
    entries into a pattern mode do nothing: the mode is left by clearing
    it only. *)
Theorem pattern_mode_locks (s : St') (i : nat) (now : Q) :
  reachable observations s ->
  patternMode s <> NONE ->
  step observations s (MarkerClick i) = s
  /\ step observations s (CityWidePattern now) = s
  /\ step observations s (LocalPattern now) = s.
Proof.
  intros Hr Hmode.
  destruct (reachable_invariant Hr) as (Hl & Hm & _).
  assert (Hsel : selectedObservation s = None).
  { unfold mode_consistent in Hm.
    destruct (patternMode s); [congruence | tauto | tauto]. }
  unfold step. simpl handle. repeat split.
  - destruct (nth_error (filtered s) i).
    + unfold markerClick. destruct (patternMode s); try congruence;
        now apply deselect_check_fixed.
    + now apply deselect_check_fixed.
  - unfold handleCityWidePattern. rewrite Hsel.
    now apply deselect_check_fixed.
  - unfold handleLocalPattern. rewrite Hsel.
    now apply deselect_check_fixed.
Qed.

(** Outside a pattern mode a click on the marker of a filtered observation
    selects it, collapses the detail and opens the sidebar, and the
    selection survives the effect that checks it. *)
Theorem markerClick_selects (s : St') (i : nat) (obs : Observation) :
  patternMode s = NONE ->
  nth_error (filtered s) i = Some obs ->
  selectedObservation (step observations s (MarkerClick i)) = Some obs
  /\ expandedDetail (step observations s (MarkerClick i)) = false
  /\ sidebarOpen (step observations s (MarkerClick i)) = true
  /\ filtered (step observations s (MarkerClick i)) = filtered s.
Proof.
  intros Hmode Hnth. unfold step. simpl handle. rewrite Hnth.
  unfold markerClick. rewrite Hmode.
  rewrite deselect_check_fixed; [repeat split|].
  unfold selection_listed. simpl.
  apply existsb_exists. exists obs. split.
  - eapply nth_error_In, Hnth.
  - apply String.eqb_refl.
Qed.


(** Running the viewport tracker leaves the visible observations with the
    identifiers of the filtered observations inside the bounds of the map,
    in their order, and running it twice is running it once. *)
Theorem updateVisibleObservations_stable (s : St') (m : M) :
  mapInstance s = Some m ->
  map id (visibleObservations (updateVisibleObservations s))
  = map id (in_bounds m (filtered s))
  /\ updateVisibleObservations (updateVisibleObservations s)
     = updateVisibleObservations s.
Proof.
  intro Em. pose proof (updateVisibleObservations_ids s Em) as Hids.
  split; [exact Hids|].
  destruct (updateVisibleObservations_fields s) as [Ef Emap].
  unfold updateVisibleObservations at 1. rewrite Emap, Em, Ef.
  fold (in_bounds m (filtered s)).
  now rewrite (proj2 (same_ids_spec _ _) Hids).
Qed.

Lemma deselect_check_tracking (s : St') :
  listening (deselect_check s) = listening s
  /\ visibleObservations (deselect_check s) = visibleObservations s
  /\ filtered (deselect_check s) = filtered s
  /\ mapInstance (deselect_check s) = mapInstance s.
Proof.
  destruct (deselect_check_cases s) as [-> | ->]; [auto|].
  now case_state' s.
Qed.

Lemma updateVisibleObservations_first (s : St') (m : M) :
  mapInstance s = Some m -> visibleObservations s = [] ->
  visibleObservations (updateVisibleObservations s)
  = in_bounds m (filtered s).
Proof.
  intros Em Ev. unfold updateVisibleObservations, in_bounds.
  rewrite Em, Ev. unfold same_ids.
  destruct (filter _ (filtered s)) as [|o rest] eqn:E.
  - simpl. exact Ev.
  - assert (En : (len (@nil Observation) =? len (o :: rest))%Z = false).
    { apply Z.eqb_neq. unfold len. cbn [List.length]. lia. }
    rewrite En. now case_state' s.
Qed.

(** The listeners of the viewport tracker are registered by the effect
    that follows a change of the filtered data, not when the map is
    created: a pan or a zoom that comes first updates the zoom level and
    leaves the visible observations empty; after the first change of
    lens they are the filtered observations inside the bounds of the
    map, and pans and zooms are followed from then on. *)
Theorem viewport_tracked_after_filter_change (now now' : Q)
    (created moved moved' : M) (l : Lens) :
  Lens_eqb l all = false ->
  let s := run observations (deselect_check (initialState observations now))
               [MapInit created; MapMoved moved] in
  let t := step observations s (SetLens l now') in
  let u := step observations t (MapMoved moved') in
  listening s = false /\ visibleObservations s = []
  /\ zoomLevel s = getZoom moved
  /\ listening t = true
  /\ visibleObservations t = in_bounds moved (filtered t)
  /\ map id (visibleObservations u) = map id (in_bounds moved' (filtered u)).
Proof.
  intros El s t u.
  assert (Es : s = with_map (initialState observations now) (Some moved)
                            (getZoom moved)) by reflexivity.
  set (f := with_listening
              (with_filter s l w30d (filteredData observations l w30d now'))
              true).
  assert (Eh : handle observations s (SetLens l now')
               = updateVisibleObservations f).
  { simpl handle. unfold setLens, trackViewport.
    rewrite Es. simpl. rewrite El. reflexivity. }
  destruct (deselect_check_tracking (handle observations s (SetLens l now')))
    as (Dl & Dv & Df & Dm).
  fold (step observations s (SetLens l now')) in Dl, Dv, Df, Dm.
  fold t in Dl, Dv, Df, Dm. rewrite Eh in Dl, Dv, Df, Dm.
  destruct (updateVisibleObservations_fields f) as [Uf Um].
  assert (Ul : listening (updateVisibleObservations f) = true).
  { destruct (updateVisibleObservations_visible f) as [v ->].
    reflexivity. }
  assert (Fm : mapInstance f = Some moved) by (unfold f; now rewrite Es).
  assert (Tl : listening t = true) by congruence.
  assert (Tm : mapInstance t = Some moved) by congruence.
  repeat split; try (rewrite Es; reflexivity); try exact Tl.
  - rewrite Dv, Df, Uf. apply updateVisibleObservations_first; [exact Fm|].
    unfold f. now rewrite Es.
  - destruct (deselect_check_tracking
                (handle observations t (MapMoved moved')))
      as (_ & Dv' & Df' & _).
    fold (step observations t (MapMoved moved')) in Dv', Df'.
    fold u in Dv', Df'. rewrite Dv', Df'.
    simpl handle. unfold mapMoved. rewrite Tm, Tl. cbv zeta.
    destruct (updateVisibleObservations_fields
                (with_map t (Some moved') (getZoom moved'))) as [-> _].
    apply updateVisibleObservations_ids. now case_state' t.
Qed.

End ComponentInvariantFacts.

(** The header marks the total as "in view" exactly when the statistics
    count the visible observations and these are fewer or more than the
    filtered ones: the total shown is the number of visible observations
    with the mark and the size of the filtered set without it. *)
Theorem viewport_mark_and_total (visible filtered : list Observation) :
  Stats.total (stats visible filtered)
  = if isViewportFiltered visible filtered then len visible
    else len filtered.
Proof.
  unfold stats, dataToUse, isViewportFiltered.
  rewrite calculateObservationStats_total.
  destruct (len visible >? 0)%Z; [|reflexivity]. simpl.
  destruct (len visible =? len filtered)%Z eqn:E; [|reflexivity].
  simpl. now apply Z.eqb_eq.
Qed.

Section ComponentInstances.

#[local] Existing Instance ApproxMath.library.

Lemma SampleStates_in_city_wide_reachable :
  reachable Sample.observations SampleStates.in_city_wide.
Proof. constructor. apply Sample_selected_reachable. Qed.

Lemma pattern_mode_table_witness :
  reachable Sample.observations SampleStates.in_city_wide
  /\ patternMode SampleStates.in_city_wide = CITY_WIDE
  /\ selectedObservation SampleStates.in_city_wide = None
  /\ localPatternCircle SampleStates.in_city_wide = None.
Proof.
  split; [exact SampleStates_in_city_wide_reachable|].
  split; [reflexivity|].
  pose proof (pattern_mode_table SampleStates_in_city_wide_reachable) as T.
  change (patternMode SampleStates.in_city_wide) with CITY_WIDE in T.
  destruct T as (H1 & _ & _ & H4 & _). split; assumption.
Defined.

Lemma SampleStates_in_local_reachable :
  reachable Sample.observations SampleStates.in_local.
Proof. constructor. apply Sample_selected_reachable. Qed.

Lemma pattern_data_about_reference_witness :
  Math.Laws ApproxMath.library
  /\ NoDup (map id Sample.observations)
  /\ reachable Sample.observations SampleStates.in_local
  /\ valid_latitude (lat Sample.obs_0)
  /\ exists pd,
       patternData SampleStates.in_local = Some pd
       /\ Forall (fun o => type o = PatternData.type pd)
                 (PatternData.observations pd)
       /\ In Sample.obs_0 (PatternData.observations pd)
       /\ PatternData.stats pd <> LocalStatsOf None.
Proof.
  assert (Hlat : valid_latitude (lat Sample.obs_0))
    by (split; unfold Qle; simpl; lia).
  split; [exact ApproxMath_laws|]. split; [exact Sample_ids_unique|].
  split; [exact SampleStates_in_local_reachable|]. split; [exact Hlat|].
  destruct (patternData SampleStates.in_local) as [pd|] eqn:Epd;
    [|discriminate].
  exists pd. split; [reflexivity|].
  destruct (pattern_data_about_reference (laws := ApproxMath_laws)
              Sample_ids_unique SampleStates_in_local_reachable Epd)
    as (H1 & _ & saved & ref & Es & Er & _ & _ & Hguard).
  assert (Eref : ref = Sample.obs_0).
  { change (savedMapState SampleStates.in_local)
      with (Some (SavedMapState.mk MAP_CONFIG.center 12
                                   (Some Sample.obs_0))) in Es.
    injection Es as <-. simpl in Er. now injection Er as <-. }
  subst ref. destruct (Hguard Hlat) as [H2 H3].
  split; [exact H1|]. split; assumption.
Defined.


Lemma pattern_mode_locks_witness :
  reachable Sample.observations SampleStates.in_city_wide
  /\ patternMode SampleStates.in_city_wide <> NONE
  /\ step Sample.observations SampleStates.in_city_wide (MarkerClick 1)
     = SampleStates.in_city_wide.
Proof.
  assert (Hmode : patternMode SampleStates.in_city_wide <> NONE)
    by discriminate.
  split; [exact SampleStates_in_city_wide_reachable|].
  split; [exact Hmode|].
  exact (proj1 (pattern_mode_locks 1 Sample.now
                  SampleStates_in_city_wide_reachable Hmode)).
Defined.

Lemma markerClick_selects_witness :
  patternMode Sample.selected = NONE
  /\ nth_error (filtered Sample.selected) 1 = Some Sample.obs_1
  /\ selectedObservation
       (step Sample.observations Sample.selected (MarkerClick 1))
     = Some Sample.obs_1.
Proof.
  split; [reflexivity|]. split; [reflexivity|].
  exact (proj1 (@markerClick_selects _ _ _ Sample.observations
                  Sample.selected 1 Sample.obs_1 eq_refl eq_refl)).
Defined.


Lemma updateVisibleObservations_stable_witness :
  mapInstance Sample.selected = Some Sample.map
  /\ updateVisibleObservations (updateVisibleObservations Sample.selected)
     = updateVisibleObservations Sample.selected.
Proof.
  split; [reflexivity|].
  exact (proj2 (@updateVisibleObservations_stable _ _ Sample.selected
                  Sample.map eq_refl)).
Defined.

(** Beyond the latitudes the bound is needed: with the observation at
    latitude [2 ^ 1023] as the whole corpus, its local pattern is empty
    and the local statistics are [null], in the analysis and in the
    component. *)
Example local_pattern_beyond_latitudes :
  In Sample.obs_far [Sample.obs_far]
  /\ fst (local Sample.obs_far [Sample.obs_far]
                MAP_CONFIG.localPatternRadius (ms (TIME_WINDOWS w30d))
                Sample.now) = []
  /\ snd (local Sample.obs_far [Sample.obs_far]
                MAP_CONFIG.localPatternRadius (ms (TIME_WINDOWS w30d))
                Sample.now) = None
  /\ NoDup (map id [Sample.obs_far])
  /\ reachable [Sample.obs_far] SampleStates.far_local
  /\ patternMode SampleStates.far_local = LOCAL
  /\ exists pd saved,
       patternData SampleStates.far_local = Some pd
       /\ savedMapState SampleStates.far_local = Some saved
       /\ SavedMapState.selectedObservation saved = Some Sample.obs_far
       /\ PatternData.observations pd = []
       /\ PatternData.stats pd = LocalStatsOf None.
Proof.
  split; [now left|].
  split; [vm_compute; reflexivity|].
  split; [vm_compute; reflexivity|].
  split; [repeat constructor; intros []|].
  split; [apply reachable_run|].
  split; [vm_compute; reflexivity|].
  do 2 eexists.
  split; [vm_compute; reflexivity|].
  split; [vm_compute; reflexivity|].
  split; [reflexivity|]. split; reflexivity.
Qed.

Lemma viewport_tracked_after_filter_change_witness :
  Lens_eqb (only risk) all = false
  /\ listening
       (step Sample.observations
             (run Sample.observations
                  (deselect_check
                     (initialState Sample.observations Sample.now))
                  [MapInit Sample.map; MapMoved Sample.map])
             (SetLens (only risk) Sample.now))
     = true.
Proof.
  split; [reflexivity|].
  destruct (@viewport_tracked_after_filter_change _ _ _ Sample.observations
              Sample.now Sample.now Sample.map Sample.map Sample.map
              (only risk) eq_refl)
    as (_ & _ & _ & Hl & _).
  exact Hl.
Defined.

End ComponentInstances.

(* ================================================================== *)
(** * TimeUtils *)
(* ================================================================== *)

Lemma one_day_ms : (inject_Z (1000 * 60 * 60 * 24) == one_day)%Q.
Proof. reflexivity. Qed.

Lemma getDaysAgo_cases (timestamp now : Q) :
  (now < timestamp)%Q /\ TimeUtils.getDaysAgo timestamp now = 0%Z
  \/ (timestamp <= now)%Q
     /\ (0 <= TimeUtils.getDaysAgo timestamp now)%Z
     /\ (inject_Z (TimeUtils.getDaysAgo timestamp now) * one_day
         <= now - timestamp
         < inject_Z (TimeUtils.getDaysAgo timestamp now) * one_day
           + one_day)%Q.
Proof.
  unfold TimeUtils.getDaysAgo, Math_floor.
  destruct (Qlt_bool (now - timestamp) 0) eqn:E.
  - apply Qlt_bool_iff in E. left. split; [lra | reflexivity].
  - apply Qlt_bool_false_iff in E. right. split; [lra|].
    assert (Hday : (0 < one_day)%Q) by reflexivity.
    set (x := ((now - timestamp) / inject_Z (1000 * 60 * 60 * 24))%Q).
    assert (Hx : (x * one_day == now - timestamp)%Q).
    { unfold x. rewrite one_day_ms. field. intro Z0. rewrite Z0 in Hday.
      lra. }
    assert (Hx0 : (0 <= x)%Q).
    { unfold x. rewrite one_day_ms.
      apply Qle_shift_div_l; [exact Hday | lra]. }
    pose proof (Qfloor_le x) as H1. pose proof (Qlt_floor x) as H2.
    rewrite inject_Z_plus in H2. change (inject_Z 1) with 1%Q in H2.
    split.
    + rewrite <- (Qfloor_Z 0). now apply Qfloor_resp_le.
    + rewrite <- Hx. split; nra.
Qed.

Lemma formatRelativeTime_today (timestamp now : Q) :
  TimeUtils.formatRelativeTime timestamp now = "Today"%string
  <-> (now - timestamp < one_day)%Q.
Proof.
  assert (Hday : (0 < one_day)%Q) by reflexivity.
  unfold TimeUtils.formatRelativeTime.
  destruct (getDaysAgo_cases timestamp now) as [[Hf E]|(Hp & Hd0 & Hb)].
  - rewrite E. simpl. split; [intros _; lra | reflexivity].
  - destruct (TimeUtils.getDaysAgo timestamp now =? 0)%Z eqn:E0.
    + apply Z.eqb_eq in E0. rewrite E0 in Hb.
      change (inject_Z 0) with 0%Q in Hb. split; [intros _; lra|reflexivity].
    + apply Z.eqb_neq in E0.
      assert (Hge : (1 <= TimeUtils.getDaysAgo timestamp now)%Z) by lia.
      assert (Hq : (1 <= inject_Z (TimeUtils.getDaysAgo timestamp now))%Q).
      { change 1%Q with (inject_Z 1). now rewrite <- Zle_Qle. }
      split.
      * destruct (TimeUtils.getDaysAgo timestamp now =? 1)%Z;
          [discriminate|].
        intro E. exfalso.
        destruct (String_of_integer (TimeUtils.getDaysAgo timestamp now))
          as [|c1 [|c2 [|c3 [|c4 [|c5 [|c6 r]]]]]]; simpl in E;
          inversion E.
      * intro Hlt. exfalso. nra.
Qed.


(** An observation that the 24-hour window keeps is labelled "Today"; one
    that the 7-day window keeps is at most 6 days old, and one that the
    30-day window keeps at most 29. *)
Theorem window_and_daysAgo (corpus : list Observation) (lens : Lens)
    (w : TimeWindowKey) (now : Q) (o : Observation) :
  In o (filteredData corpus lens w now) ->
  match w with
  | w24h => TimeUtils.formatRelativeTime (timestamp o) now = "Today"%string
  | w7d => (TimeUtils.getDaysAgo (timestamp o) now <= 6)%Z
  | w30d => (TimeUtils.getDaysAgo (timestamp o) now <= 29)%Z
  | persistent => (0 <= TimeUtils.getDaysAgo (timestamp o) now)%Z
  end.
Proof.
  assert (Hday : (one_day == 86400000)%Q) by reflexivity.
  assert (Hbound : forall n : Z,
            (0 < n)%Z ->
            (now - timestamp o < inject_Z n * one_day)%Q ->
            (TimeUtils.getDaysAgo (timestamp o) now <= n - 1)%Z).
  { intros n Hpos Hn.
    destruct (getDaysAgo_cases (timestamp o) now) as [[_ E]|(_ & Hd0 & Hb)].
    - rewrite E. lia.
    - assert (Hlt : (inject_Z (TimeUtils.getDaysAgo (timestamp o) now)
                     < inject_Z n)%Q) by nra.
      rewrite <- Zlt_Qlt in Hlt. lia. }
  intro Ho. apply filteredData_In in Ho.
  destruct Ho as (_ & _ & Hw). destruct w; simpl in Hw.
  - apply formatRelativeTime_today.
    unfold inject_Z in Hw. simpl in Hw. rewrite Hday. lra.
  - apply (Hbound 7%Z); [lia|].
    unfold inject_Z in Hw |- *. simpl in Hw |- *. rewrite Hday. lra.
  - apply (Hbound 30%Z); [lia|].
    unfold inject_Z in Hw |- *. simpl in Hw |- *. rewrite Hday. lra.
  - destruct (getDaysAgo_cases (timestamp o) now) as [[_ E]|(_ & Hd0 & _)];
      [rewrite E|]; lia.
Qed.

Lemma window_and_daysAgo_witness :
  In Sample.obs_0 (filteredData Sample.observations all w24h Sample.now)
  /\ TimeUtils.formatRelativeTime (timestamp Sample.obs_0) Sample.now
     = "Today"%string.
Proof.
  assert (Hin : In Sample.obs_0
                   (filteredData Sample.observations all w24h Sample.now))
    by (simpl; auto).
  split; [exact Hin|].
  exact (@window_and_daysAgo Sample.observations all w24h Sample.now
           Sample.obs_0 Hin).
Defined.

(* ================================================================== *)
(** * The data layer *)
(* ================================================================== *)

(** ** Identifiers *)

(** The number that a string of digits denotes, leading zeros allowed. *)
Lemma zero_prefix_value (n : nat) (s : string) :
  option_map N.of_uint (NilEmpty.uint_of_string (repeat_char "0" n ++ s))
  = option_map N.of_uint (NilEmpty.uint_of_string s).
Proof.
  induction n as [|n IH]; [reflexivity|].
  simpl. rewrite <- IH.
  now destruct (NilEmpty.uint_of_string (repeat_char "0" n ++ s)).
Qed.

Lemma digits_value (n : Z) :
  option_map N.of_uint (NilEmpty.uint_of_string (digits n))
  = Some (Z.to_N n).
Proof.
  unfold digits, NilZero.string_of_uint.
  destruct (N.to_uint (Z.to_N n)) eqn:E;
    try (rewrite <- E, NilEmpty.usu; simpl;
         now rewrite DecimalN.Unsigned.of_to).
  exfalso. destruct (Z.to_N n) as [|p]; simpl in E; [discriminate|].
  now apply (DecimalPos.Unsigned.to_uint_nonnil p).
Qed.

Lemma observation_id_inj (i j : nat) :
  ObservationDataService.observation_id i
  = ObservationDataService.observation_id j -> i = j.
Proof.
  unfold ObservationDataService.observation_id, padStart. intro E.
  simpl in E. injection E as E.
  apply (f_equal (fun s => option_map N.of_uint
                             (NilEmpty.uint_of_string s))) in E.
  rewrite !zero_prefix_value, !digits_value in E.
  injection E as E. lia.
Qed.

(** ** The draws *)

Lemma fraction_range (x : Q) : (0 <= x - inject_Z (Qfloor x) < 1)%Q.
Proof.
  pose proof (Qfloor_le x) as H1. pose proof (Qlt_floor x) as H2.
  rewrite inject_Z_plus in H2. change (inject_Z 1) with 1%Q in H2.
  split; lra.
Qed.

(** [seededRandom] returns a value in [0, 1) and steps the seed by one,
    whatever the sine is. *)
Lemma seededRandom_range (Math_sin : Z -> Q) (seed : Z) :
  (0 <= fst (ObservationDataService.seededRandom Math_sin seed) < 1)%Q
  /\ snd (ObservationDataService.seededRandom Math_sin seed) = (seed + 1)%Z.
Proof. split; [apply fraction_range | reflexivity]. Qed.

(** A draw in [0, 1) picks an element of a non-empty array. *)
Lemma pick_defined {A} (array : list A) (r : Q) :
  array <> [] -> (0 <= r < 1)%Q ->
  exists a, ObservationDataService.pick array r = Some a /\ In a array.
Proof.
  intros Hne [Hr0 Hr1]. unfold ObservationDataService.pick, Math_floor.
  pose proof (len_pos_nonempty Hne) as Hlen.
  assert (Hl : (0 < inject_Z (len array))%Q)
    by (unfold Qlt, inject_Z; simpl; lia).
  assert (Hidx : (0 <= Qfloor (r * inject_Z (len array)) <= len array - 1)%Z).
  { apply Qfloor_between.
    - change (inject_Z 0) with 0%Q. nra.
    - unfold Z.sub. rewrite inject_Z_plus, inject_Z_opp.
      change (inject_Z 1) with 1%Q. nra. }
  replace (Qfloor (r * inject_Z (len array)) <? 0)%Z with false
    by (symmetry; apply Z.ltb_ge; lia).
  destruct (nth_error array (Z.to_nat (Qfloor (r * inject_Z (len array)))))
    as [a|] eqn:E.
  - exists a. split; [reflexivity|]. eapply nth_error_In, E.
  - exfalso. apply nth_error_None in E. unfold len in *. lia.
Qed.

(** ** One observation *)

Lemma generateOne_spec (Math_sin : Z -> Q) (Date_now : nat -> Q)
    (i : nat) (seed : Z) :
  exists m,
    ObservationDataService.generateOne Math_sin Date_now i seed
    = Some (m, (seed + 10)%Z)
    /\ ObservationDataService.generated_at Date_now i m.
Proof.
  unfold ObservationDataService.generateOne.
  cbv beta iota zeta delta [ObservationDataService.seededRandom Math_floor].
  pose proof (fraction_range (Math_sin seed * 10000)) as R0.
  pose proof (fraction_range (Math_sin (seed + 1)%Z * 10000)) as R1.
  pose proof (fraction_range (Math_sin (seed + 1 + 1)%Z * 10000)) as R2.
  pose proof (fraction_range (Math_sin (seed + 1 + 1 + 1)%Z * 10000)) as R3.
  pose proof (fraction_range (Math_sin (seed + 1 + 1 + 1 + 1)%Z * 10000))
    as R4.
  pose proof (fraction_range
                (Math_sin (seed + 1 + 1 + 1 + 1 + 1)%Z * 10000)) as R5.
  pose proof (fraction_range
                (Math_sin (seed + 1 + 1 + 1 + 1 + 1 + 1)%Z * 10000)) as R6.
  pose proof (fraction_range
                (Math_sin (seed + 1 + 1 + 1 + 1 + 1 + 1 + 1)%Z * 10000))
    as R7.
  pose proof (fraction_range
                (Math_sin (seed + 1 + 1 + 1 + 1 + 1 + 1 + 1 + 1)%Z * 10000))
    as R8.
  set (r0 := (Math_sin seed * 10000
              - inject_Z (Qfloor (Math_sin seed * 10000)))%Q) in *.
  set (r1 := (Math_sin (seed + 1)%Z * 10000 - _)%Q) in *.
  set (r2 := (Math_sin (seed + 1 + 1)%Z * 10000 - _)%Q) in *.
  set (r3 := (Math_sin (seed + 1 + 1 + 1)%Z * 10000 - _)%Q) in *.
  set (r4 := (Math_sin (seed + 1 + 1 + 1 + 1)%Z * 10000 - _)%Q) in *.
  set (r5 := (Math_sin (seed + 1 + 1 + 1 + 1 + 1)%Z * 10000 - _)%Q) in *.
  set (r6 := (Math_sin (seed + 1 + 1 + 1 + 1 + 1 + 1)%Z * 10000 - _)%Q)
    in *.
  set (r7 := (Math_sin (seed + 1 + 1 + 1 + 1 + 1 + 1 + 1)%Z * 10000 - _)%Q)
    in *.
  set (r8 := (Math_sin (seed + 1 + 1 + 1 + 1 + 1 + 1 + 1 + 1)%Z * 10000
              - _)%Q) in *.
  destruct (@pick_defined _ ObservationDataService.baseLocations r0)
    as (base & Eb & Hb); [discriminate | exact R0|].
  destruct (@pick_defined _ ObservationDataService.types r3)
    as (ty & Et & Ht); [discriminate | exact R3|].
  destruct (@pick_defined _ ObservationDataService.statuses r6)
    as (st & Es & Hs); [discriminate | exact R6|].
  rewrite Eb, Et, Es.
  eexists. split.
  { f_equal. f_equal. lia. }
  unfold ObservationDataService.generated_at. cbv zeta.
  cbn [MockObservation.observation MockObservation.reviewed_at
       MockObservation.media id response_time timestamp lat lng].
  assert (Hday : (one_day == 86400000)%Q) by reflexivity.
  split; [reflexivity|]. split; [|split; [|split; [|split]]].
  - eexists. split; [reflexivity|].
    assert (H : (0 <= Qfloor (r8 * 14) <= 13)%Z).
    { apply Qfloor_between.
      - change (inject_Z 0) with 0%Q. lra.
      - change (inject_Z 13) with 13%Q. lra. }
    lia.
  - rewrite Hday. split; lra.
  - rewrite Hday. split; lra.
  - exists base. split; [exact Hb|]. split; split; lra.
  - destruct (ObservationDataService.pick
                ObservationDataService.sampleMedia r1) as [[[k u]|]|];
      exact I || reflexivity.
Qed.

(** ** The corpus *)

Lemma generateFrom_spec (Math_sin : Z -> Q) (Date_now : nat -> Q)
    (count i : nat) (seed : Z) :
  exists l,
    ObservationDataService.generateFrom Math_sin Date_now count i seed
    = Some (l, (seed + 10 * Z.of_nat count)%Z)
    /\ List.length l = count
    /\ forall j m, nth_error l j = Some m ->
         ObservationDataService.generated_at Date_now (i + j) m.
Proof.
  revert i seed. induction count as [|count IH]; intros i seed.
  - exists []. simpl. split; [f_equal; f_equal; lia|].
    split; [reflexivity|]. intros [|j] m; discriminate.
  - destruct (generateOne_spec Math_sin Date_now i seed) as (m0 & E0 & H0).
    destruct (IH (S i) (seed + 10)%Z) as (l & El & Hlen & Hall).
    exists (m0 :: l). cbn [ObservationDataService.generateFrom].
    rewrite E0, El. split; [f_equal; f_equal; lia|].
    split; [simpl; now rewrite Hlen|].
    intros [|j] m Hm; simpl in Hm.
    + injection Hm as <-. now rewrite Nat.add_0_r.
    + rewrite Nat.add_succ_r. apply (Hall j m Hm).
Qed.

Lemma generated_ids (Date_now : nat -> Q) (l : list MockObservation.t)
    (i : nat) :
  (forall j m, nth_error l j = Some m ->
     ObservationDataService.generated_at Date_now (i + j) m) ->
  map (fun m => id (MockObservation.observation m)) l
  = map ObservationDataService.observation_id (seq i (List.length l)).
Proof.
  revert i. induction l as [|m l IH]; intros i Hall; [reflexivity|].
  simpl. f_equal.
  - destruct (Hall 0%nat m eq_refl) as (Hid & _).
    now rewrite Nat.add_0_r in Hid.
  - apply IH. intros j m' Hm'.
    replace (S i + j)%nat with (i + S j)%nat by lia.
    apply (Hall (S j) m' Hm').
Qed.

(** [generateMockObservations] always succeeds, whatever the sine and the
    clock are: every lookup by a drawn index is in range.  It makes
    [count] observations and advances the seed by ten per observation.
    The identifiers are the padded indices and are pairwise distinct.
    Every observation has a response time that is an integer from 1 to
    14, a timestamp within the 30 days before its creation, a review
    instant within the 15 days after the timestamp, coordinates within
    0.025 degrees of a base location, and media, if any, marked as
    stripped of metadata. *)
Theorem generateMockObservations_spec (Math_sin : Z -> Q)
    (Date_now : nat -> Q) (count : nat) (seed : Z) :
  exists l,
    ObservationDataService.generateMockObservations Math_sin Date_now
                                                    count seed
    = Some (l, (seed + 10 * Z.of_nat count)%Z)
    /\ List.length l = count
    /\ map (fun m => id (MockObservation.observation m)) l
       = map ObservationDataService.observation_id (seq 0 count)
    /\ NoDup (map id (map MockObservation.observation l))
    /\ forall j m, nth_error l j = Some m ->
         ObservationDataService.generated_at Date_now j m.
Proof.
  unfold ObservationDataService.generateMockObservations.
  destruct (generateFrom_spec Math_sin Date_now count 0 seed)
    as (l & El & Hlen & Hall).
  exists l. split; [exact El|]. split; [exact Hlen|].
  assert (Hids : map (fun m => id (MockObservation.observation m)) l
                 = map ObservationDataService.observation_id (seq 0 count)).
  { rewrite <- Hlen. now apply (@generated_ids Date_now l 0%nat). }
  split; [exact Hids|]. split; [|exact Hall].
  rewrite map_map, Hids.
  apply Finite.Injective_map_NoDup; [|apply seq_NoDup].
  intros a b. apply observation_id_inj.
Qed.

Lemma generated_response_times (Date_now : nat -> Q)
    (l : list MockObservation.t) (i : nat) :
  (forall j m, nth_error l j = Some m ->
     ObservationDataService.generated_at Date_now (i + j) m) ->
  List.length (positive_response_times (map MockObservation.observation l))
  = List.length l
  /\ Forall (fun q => (inject_Z 1 <= q <= inject_Z 14)%Q)
            (positive_response_times (map MockObservation.observation l)).
Proof.
  revert i. induction l as [|m l IH]; intros i Hall.
  - split; [reflexivity | constructor].
  - destruct (IH (S i)) as [Hlen Hfa].
    { intros j m' Hm'. replace (S i + j)%nat with (i + S j)%nat by lia.
      apply (Hall (S j) m' Hm'). }
    destruct (Hall 0%nat m eq_refl) as (_ & (k & Ek & Hk) & _).
    assert (Hq : (inject_Z 1 <= inject_Z k <= inject_Z 14)%Q)
      by (rewrite <- !Zle_Qle; lia).
    assert (Hpos : Qlt_bool 0 (inject_Z k) = true).
    { apply Qlt_bool_iff. change (inject_Z 1) with 1%Q in Hq. lra. }
    cbn [map positive_response_times flat_map].
    rewrite Ek, Hpos. cbn [app List.length].
    fold (positive_response_times (map MockObservation.observation l)).
    split; [now rewrite Hlen | now constructor].
Qed.

(** On the generated corpus the guards of the statistics are not needed
    beyond the empty case: with at least one observation, every
    observation enters the average response time, which is an integer
    from 1 to 14. *)
Theorem generated_corpus_average (Math_sin : Z -> Q) (Date_now : nat -> Q)
    (count : nat) (seed : Z) :
  exists (l : list MockObservation.t) (k : Z),
    ObservationDataService.generateMockObservations
      Math_sin Date_now (S count) seed
    = Some (l, (seed + 10 * Z.of_nat (S count))%Z)
    /\ len (positive_response_times (map MockObservation.observation l))
       = len l
    /\ Stats.avgResponseTime
         (StatsUtils.calculateObservationStats
            (map MockObservation.observation l)) = num k
    /\ (1 <= k <= 14)%Z.
Proof.
  unfold ObservationDataService.generateMockObservations.
  destruct (generateFrom_spec Math_sin Date_now (S count) 0 seed)
    as (l & El & Hlen & Hall).
  destruct (@generated_response_times Date_now l 0%nat Hall) as [Hn Hfa].
  assert (Hne : positive_response_times
                  (map MockObservation.observation l) <> []).
  { intro E. rewrite E in Hn. simpl in Hn. lia. }
  destruct (StatsUtils_calculateObservationStats_guarded
              (map MockObservation.observation l))
    as (_ & Havg & _).
  pose proof (mean_bounds Hne Hfa) as [Hm0 Hm1].
  exists l,
    (Qfloor (mean (positive_response_times
                     (map MockObservation.observation l)) + (1 # 2))).
  split; [exact El|]. split; [unfold len; now rewrite Hn|].
  split.
  - rewrite Havg.
    destruct (positive_response_times (map MockObservation.observation l));
      [congruence|].
    reflexivity.
  - apply Qfloor_between; lra.
Qed.

(* ================================================================== *)
(** * The filtered set and the markers *)
(* ================================================================== *)

(** Filtering a list of observations keeps their identifiers distinct. *)
Lemma unique_ids_filter (keep : Observation -> bool) (obs : list Observation)
  (Huniq : NoDup (map id obs)) :
  NoDup (map id (filter keep obs)).
Proof.
  revert Huniq. induction obs as [|o obs IH]; cbn [filter map]; intro Hu.
  - constructor.
  - apply NoDup_cons_iff in Hu. destruct Hu as [Hfresh Hrest].
    destruct (keep o); cbn [map]; [|now apply IH].
    apply NoDup_cons; [|now apply IH].
    intro Hin. apply Hfresh.
    apply in_map_iff in Hin. destruct Hin as (o' & Eid & Ho').
    apply filter_In in Ho'. apply in_map_iff. exists o'. tauto.
Qed.

Lemma filter_false {A} (l : list A) : filter (fun _ => false) l = [].
Proof. induction l; simpl; auto. Qed.

Lemma unique_id_count (l : list Observation) (o : Observation) :
  NoDup (map id l) -> In o l ->
  List.length (filter (fun x => String.eqb (id o) (id x)) l) = 1%nat.
Proof.
  induction l as [|x l IH]; simpl; [tauto|].
  intros Hn Hin. inversion Hn as [|? ? Hx Hn']; subst.
  assert (Hnone : ~ In (id x) (map id l) ->
            forall y, In y l -> String.eqb (id x) (id y) = false).
  { intros Hnot y Hy. apply String.eqb_neq. intro E. apply Hnot.
    rewrite E. now apply in_map. }
  destruct Hin as [<-|Hin].
  - rewrite String.eqb_refl. simpl. f_equal.
    assert (E : filter (fun y => String.eqb (id x) (id y)) l = []).
    { clear IH Hn Hn'. induction l as [|y l IHl]; [reflexivity|].
      simpl. rewrite (Hnone Hx y) by now left.
      apply IHl.
      - intro H. apply Hx. now right.
      - intros H y' Hy'. apply Hnone; [exact Hx | now right]. }
    now rewrite E.
  - assert (Hne : String.eqb (id o) (id x) = false).
    { apply String.eqb_neq. intro E. apply Hx. rewrite <- E.
      now apply in_map. }
    rewrite Hne. now apply IH.
Qed.

Section MarkerFacts.

Context {M : Type} {leaflet : LeafletMap M} {math : Math.Library}.
Variable observations : list Observation.

Abbreviation St2 := (@State M).
Abbreviation Ev2 := (@Event M).

Local Ltac case_state2 s :=
  destruct s as [lens0 tf0 zl0 sel0 exp0 sb0 vis0 pm0 pd0 sv0 map0 circ0
                 fil0 lis0].

Lemma reachable_filtered (s : St2) :
  reachable observations s ->
  exists now, filtered s
              = filteredData observations (lens s) (timeFilter s) now.
Proof.
  induction 1 as [now|s e Hr [now0 IH]].
  - exists now. unfold deselect_check, initialState. simpl. reflexivity.
  - assert (Hd : forall t : St2,
              lens (deselect_check t) = lens t
              /\ timeFilter (deselect_check t) = timeFilter t
              /\ filtered (deselect_check t) = filtered t).
    { intro t. destruct (deselect_check_cases t) as [-> | ->]; [auto|].
      now case_state2 t. }
    assert (Hu : forall t : St2,
              lens (updateVisibleObservations t) = lens t
              /\ timeFilter (updateVisibleObservations t) = timeFilter t
              /\ filtered (updateVisibleObservations t) = filtered t).
    { intro t. destruct (updateVisibleObservations_visible t) as [v ->].
      now case_state2 t. }
    assert (Ht : forall t : St2,
              lens (trackViewport t) = lens t
              /\ timeFilter (trackViewport t) = timeFilter t
              /\ filtered (trackViewport t) = filtered t).
    { intro t.
      destruct (trackViewport_visible t) as (v & registered & ->).
      now case_state2 t. }
    unfold step.
    destruct (Hd (handle observations s e)) as (-> & -> & ->).
    destruct e as [l now|w now|i| | |now|now| |m|m]; simpl.
    + unfold setLens. destruct (Lens_eqb l (lens s)); [eauto|].
      destruct (Ht (with_filter s l (timeFilter s)
                      (filteredData observations l (timeFilter s) now)))
        as (-> & -> & ->).
      exists now. now case_state2 s.
    + unfold setTimeFilter.
      destruct (TimeWindowKey_eqb w (timeFilter s)); [eauto|].
      destruct (Ht (with_filter s (lens s) w
                      (filteredData observations (lens s) w now)))
        as (-> & -> & ->).
      exists now. now case_state2 s.
    + destruct (nth_error (filtered s) i); [|eauto].
      unfold markerClick. destruct (patternMode s); eauto.
    + eauto.
    + eauto.
    + unfold handleCityWidePattern.
      destruct (selectedObservation s); [|eauto].
      destruct (mapInstance s); eauto.
    + unfold handleLocalPattern.
      destruct (selectedObservation s); [|eauto].
      destruct (mapInstance s); eauto.
    + unfold handleClearPatternMode.
      destruct (mapInstance s); [|eauto].
      destruct (savedMapState s); eauto.
    + unfold mapInit. destruct (mapInstance s); eauto.
    + unfold mapMoved. destruct (mapInstance s); [|eauto].
      cbv zeta. destruct (listening s); [|eauto].
      destruct (Hu (with_map s (Some m) (getZoom m))) as (-> & -> & ->).
      eauto.
Qed.

(** The memoised filtered set is never stale with respect to the
    controls: in every reachable state it is the filter of the corpus by
    the current lens and the current time window, at the instant of the
    last recomputation; with unique identifiers in the corpus its
    identifiers are unique too. *)
Theorem filtered_follows_controls (s : St2) :
  reachable observations s ->
  (exists now, filtered s
               = filteredData observations (lens s) (timeFilter s) now)
  /\ (NoDup (map id observations) -> NoDup (map id (filtered s))).
Proof.
  intro Hr. destruct (reachable_filtered Hr) as [now E].
  split; [eauto|]. intro Hn. rewrite E, filteredData_filter.
  now apply unique_ids_filter.
Qed.

Lemma selected_markers_count (s : St2) :
  selected_markers s = len (filter (isSelected s) (filtered s)).
Proof.
  unfold selected_markers, markers, len. f_equal.
  induction (filtered s) as [|o l IH]; [reflexivity|].
  cbn [map filter].
  assert (E : (MarkerOptions.zIndex (markerOptions s o) =? 1000)%Z
              = isSelected s o).
  { unfold markerOptions.
    destruct (isEmphasized s o) as [[|]|]; simpl;
      now destruct (isSelected s o). }
  rewrite E. destruct (isSelected s o); simpl; now rewrite IH.
Qed.

(** With unique identifiers, in every reachable state exactly one marker
    is drawn as selected when an observation is selected, and none
    otherwise; so none is in a pattern mode. *)
Theorem one_selected_marker (s : St2) :
  NoDup (map id observations) ->
  reachable observations s ->
  selected_markers s
  = match selectedObservation s with Some _ => 1%Z | None => 0%Z end
  /\ match patternMode s with
     | NONE => True
     | _ => selected_markers s = 0%Z
     end.
Proof.
  intros Hn Hr.
  destruct (reachable_invariant Hr) as (Hl & Hm & (Hf & Hs & _)).
  destruct (reachable_filtered Hr) as [now E].
  assert (Hnf : NoDup (map id (filtered s))).
  { rewrite E, filteredData_filter. now apply unique_ids_filter. }
  assert (Hcount : selected_markers s
            = match selectedObservation s with
              | Some _ => 1%Z | None => 0%Z end).
  { rewrite selected_markers_count. unfold isSelected, selection_listed in *.
    destruct (selectedObservation s) as [sel|] eqn:Es.
    - assert (Hin : In sel (filtered s)).
      { eapply listed_member;
          [exact Hn | exact Hf | apply Hs; reflexivity | exact Hl]. }
      unfold len. now rewrite (@unique_id_count (filtered s) sel Hnf Hin).
    - now rewrite filter_false. }
  split; [exact Hcount|].
  unfold mode_consistent in Hm.
  destruct (patternMode s); [exact I| |];
    destruct Hm as (_ & Hsel & _); now rewrite Hcount, Hsel.
Qed.

Context {laws : Math.Laws math}.

(** With unique identifiers, in every reachable pattern mode each
    observation of the filtered set has its marker in the layer, drawn
    either emphasised (fill opacity 0.9, stroke opacity 1, the weight of
    its status plus 1) or dimmed (both opacities 0.3, weight 1); the
    observation that was selected at the entry, when it is at a latitude
    (between -90 and 90 degrees), passes the test of emphasis, and when
    it is still in the filtered set its marker is in the layer and is
    emphasised. *)
Theorem reference_marker_emphasized (s : St2) (saved : SavedMapState.t)
    (ref : Observation) :
  NoDup (map id observations) ->
  reachable observations s ->
  patternMode s <> NONE ->
  savedMapState s = Some saved ->
  SavedMapState.selectedObservation saved = Some ref ->
  (forall obs, In obs (filtered s) ->
     In (markerOptions s obs) (markers s)
     /\ (MarkerOptions.weight (markerOptions s obs)
           = (MapUtils.getMarkerWeight (status obs) + 1)%Z
         /\ MarkerOptions.fillOpacity (markerOptions s obs) = (9 # 10)%Q
         /\ MarkerOptions.opacity (markerOptions s obs) = 1%Q
         \/ MarkerOptions.weight (markerOptions s obs) = 1%Z
            /\ MarkerOptions.fillOpacity (markerOptions s obs) = (3 # 10)%Q
            /\ MarkerOptions.opacity (markerOptions s obs) = (3 # 10)%Q))
  /\ (valid_latitude (lat ref) ->
      isEmphasized s ref = Some true
      /\ (In ref (filtered s) ->
          In (markerOptions s ref) (markers s)
          /\ MarkerOptions.weight (markerOptions s ref)
             = (MapUtils.getMarkerWeight (status ref) + 1)%Z
          /\ MarkerOptions.fillOpacity (markerOptions s ref) = (9 # 10)%Q
          /\ MarkerOptions.opacity (markerOptions s ref) = 1%Q)).
Proof.
  intros Hn Hr Hmode Hsaved Href.
  pose proof (reachable_pattern_shape Hr) as Hshape.
  pose proof (reachable_pattern_reference Hn Hr) as Hpr.
  assert (Hdrawn : forall obs, In obs (filtered s) ->
                     In (markerOptions s obs) (markers s)).
  { intros obs Hobs. unfold markers. now apply in_map. }
  assert (Hsome : forall obs, exists b, isEmphasized s obs = Some b).
  { intro obs. unfold isEmphasized, pattern_shape in *.
    destruct (patternMode s) eqn:Ep; [congruence| |].
    - destruct Hshape as ((pd & st & Epd & _) & _). rewrite Epd. eauto.
    - destruct Hshape as (pd & st & c & Epd & _). rewrite Epd. eauto. }
  assert (Hemph : valid_latitude (lat ref) ->
                  isEmphasized s ref = Some true).
  { intro Hlat. unfold isEmphasized, pattern_shape in *.
    destruct (patternMode s) eqn:Ep; [congruence| |].
    - destruct Hshape as ((pd & st & Epd & _) & _). rewrite Epd.
      destruct (Hpr pd Epd) as (_ & _ & sv & r & Esv & Er & Ht & _).
      f_equal. apply type_eqb_eq. congruence.
    - destruct Hshape as (pd & st & c & Epd & _). rewrite Epd.
      destruct (Hpr pd Epd) as (_ & _ & sv & r & Esv & Er & _ & Hin).
      assert (E : r = ref) by congruence. subst r.
      destruct (Hin Hlat) as [Hmember _].
      f_equal. unfold some_id. apply existsb_exists.
      exists ref. split; [exact Hmember | apply String.eqb_refl]. }
  split.
  - intros obs Hobs. split; [now apply Hdrawn|].
    destruct (Hsome obs) as [[|] Eb]; unfold markerOptions; rewrite Eb;
      simpl; auto.
  - intro Hlat. split; [exact (Hemph Hlat)|].
    intro Hin. split; [now apply Hdrawn|].
    unfold markerOptions. rewrite (Hemph Hlat). simpl. auto.
Qed.

End MarkerFacts.

Section MarkerInstances.

#[local] Existing Instance ApproxMath.library.

Lemma filtered_follows_controls_witness :
  reachable Sample.observations Sample.selected
  /\ (exists now,
        filtered Sample.selected
        = filteredData Sample.observations (lens Sample.selected)
                       (timeFilter Sample.selected) now).
Proof.
  split; [exact Sample_selected_reachable|].
  exact (proj1 (filtered_follows_controls Sample_selected_reachable)).
Defined.

Lemma one_selected_marker_witness :
  NoDup (map id Sample.observations)
  /\ reachable Sample.observations Sample.selected
  /\ selected_markers Sample.selected = 1%Z.
Proof.
  split; [exact Sample_ids_unique|].
  split; [exact Sample_selected_reachable|].
  exact (proj1 (one_selected_marker Sample_ids_unique
                  Sample_selected_reachable)).
Defined.

Lemma reference_marker_emphasized_witness :
  Math.Laws ApproxMath.library
  /\ NoDup (map id Sample.observations)
  /\ reachable Sample.observations SampleStates.in_local
  /\ patternMode SampleStates.in_local <> NONE
  /\ valid_latitude (lat Sample.obs_0)
  /\ In Sample.obs_0 (filtered SampleStates.in_local)
  /\ In (markerOptions SampleStates.in_local Sample.obs_0)
        (markers SampleStates.in_local)
  /\ isEmphasized SampleStates.in_local Sample.obs_0 = Some true.
Proof.
  assert (Hmode : patternMode SampleStates.in_local <> NONE)
    by discriminate.
  assert (Hlat : valid_latitude (lat Sample.obs_0))
    by (split; unfold Qle; simpl; lia).
  assert (Hin : In Sample.obs_0 (filtered SampleStates.in_local))
    by (left; reflexivity).
  split; [exact ApproxMath_laws|]. split; [exact Sample_ids_unique|].
  split; [constructor; exact Sample_selected_reachable|].
  split; [exact Hmode|]. split; [exact Hlat|]. split; [exact Hin|].
  destruct (@reference_marker_emphasized _ _ _ Sample.observations
              ApproxMath_laws SampleStates.in_local
              (SavedMapState.mk MAP_CONFIG.center 12 (Some Sample.obs_0))
              Sample.obs_0 Sample_ids_unique
              (reachable_step (LocalPattern Sample.now)
                              Sample_selected_reachable)
              Hmode eq_refl eq_refl) as (_ & H2).
  destruct (H2 Hlat) as (H3 & H4).
  split; [exact (proj1 (H4 Hin)) | exact H3].
Defined.

End MarkerInstances.

(* ================================================================== *)
(** * Display sizes *)
(* ================================================================== *)

(** Zooming in never enlarges a marker, in either file, and the markers
    of App.js are larger than those of road.old.js at every zoom; a
    cluster with more points never gets a smaller icon. *)
Theorem display_sizes_monotone (z1 z2 : Q) (c1 c2 : Z) :
  (z1 <= z2)%Q -> (c1 <= c2)%Z ->
  (MapUtils.getMarkerRadius z2 <= MapUtils.getMarkerRadius z1)%Z
  /\ (App.getMarkerRadius z2 <= App.getMarkerRadius z1)%Z
  /\ (MapUtils.getMarkerRadius z1 < App.getMarkerRadius z1)%Z
  /\ (Dimensions.width (snd (sizeTier c1))
      <= Dimensions.width (snd (sizeTier c2)))%Z.
Proof.
  intros Hz Hc.
  unfold MapUtils.getMarkerRadius, App.getMarkerRadius, sizeTier,
    MapUtils.getClusterSize.
  destruct (Qle_bool z1 10) eqn:A1; destruct (Qle_bool z1 13) eqn:A2;
    destruct (Qle_bool z2 10) eqn:B1; destruct (Qle_bool z2 13) eqn:B2;
    try apply Qle_bool_iff in A1; try apply Qle_bool_iff in A2;
    try apply Qle_bool_iff in B1; try apply Qle_bool_iff in B2;
    try (assert (B1' : ~ (z2 <= 10)%Q)
           by (intro X; apply Qle_bool_iff in X; congruence));
    try (assert (B2' : ~ (z2 <= 13)%Q)
           by (intro X; apply Qle_bool_iff in X; congruence));
    try (assert (A1' : ~ (z1 <= 10)%Q)
           by (intro X; apply Qle_bool_iff in X; congruence));
    try (assert (A2' : ~ (z1 <= 13)%Q)
           by (intro X; apply Qle_bool_iff in X; congruence));
    try (exfalso; lra);
    (repeat split; try lia;
     destruct (c1 >? 50)%Z eqn:C1; destruct (c1 >? 10)%Z eqn:C2;
     destruct (c2 >? 50)%Z eqn:D1; destruct (c2 >? 10)%Z eqn:D2;
     simpl; lia).
Qed.

Lemma display_sizes_monotone_witness :
  (12 <= 14)%Q /\ (11 <= 51)%Z
  /\ (MapUtils.getMarkerRadius 14 <= MapUtils.getMarkerRadius 12)%Z
  /\ (Dimensions.width (snd (sizeTier 11))
      <= Dimensions.width (snd (sizeTier 51)))%Z.
Proof.
  assert (Hz : (12 <= 14)%Q) by (unfold Qle; simpl; lia).
  assert (Hc : (11 <= 51)%Z) by lia.
  split; [exact Hz|]. split; [exact Hc|].
  destruct (@display_sizes_monotone 12 14 11 51 Hz Hc)
    as (H1 & _ & _ & H4).
  split; assumption.
Defined.
